(** * Firestarter: the serial protocol client of [firestarter/main.py]

    A shallow embedding of the host side of the programmer protocol
    (port discovery, handshake, the response wait loop, chunked read and
    write transfers, the session operations, the settings, the catalogue
    commands and the release feed), the properties of the specification
    that were checked against it, and further properties of the program. *)

From Stdlib Require Import ZArith NArith QArith Qround Qpower Lia Lqa Ascii Strings.Byte.
From Stdlib Require Import Floats.SpecFloat.
From stdpp Require Import gmap strings list.

Local Open Scope Z_scope.

(** ** Python primitives used by the program

    [str] is [string], [bytes] is [list byte]; indices are [Z] because
    [str.rfind] answers [-1] when there is no occurrence. *)
Module Py.

(** [len(s)] *)
Definition len (s : string) : Z := Z.of_nat (String.length s).

(** [s.startswith(sub)] *)
Fixpoint startswith (s sub : string) {struct sub} : bool :=
  match sub, s with
  | EmptyString, _ => true
  | String _ _, EmptyString => false
  | String a sub', String b s' => if Ascii.eqb a b then startswith s' sub' else false
  end.

(** [s[n:]] for a natural [n] *)
Fixpoint drop (n : nat) (s : string) : string :=
  match n, s with
  | O, _ => s
  | S _, EmptyString => EmptyString
  | S n', String _ s' => drop n' s'
  end.

(** [sub in s] *)
Fixpoint contains (sub s : string) : bool :=
  startswith s sub ||
  match s with
  | EmptyString => false
  | String _ s' => contains sub s'
  end.

(** [s.rfind(sub)]: the highest index at which [sub] starts, or [-1]. *)
Fixpoint rfind (s sub : string) : Z :=
  match s with
  | EmptyString => if startswith s sub then 0 else -1
  | String _ s' =>
      let r := rfind s' sub in
      if 0 <=? r then r + 1 else if startswith s sub then 0 else -1
  end.

(** [s[i:]], with Python's reading of a negative index (from the end). *)
Definition slice_from (s : string) (i : Z) : string :=
  if 0 <=? i then drop (Z.to_nat i) s
  else drop (Z.to_nat (Z.max 0 (len s + i))) s.

(** [c.isspace()] on the code points below 256 *)
Definition isspace (c : ascii) : bool :=
  let n := N_of_ascii c in
  ((9 <=? n) && (n <=? 13) || (28 <=? n) && (n <=? 32) || (n =? 133) || (n =? 160))%N.

Fixpoint lstrip (s : string) : string :=
  match s with
  | EmptyString => EmptyString
  | String c s' => if isspace c then lstrip s' else s
  end.

Definition rstrip (s : string) : string := String.rev (lstrip (String.rev s)).

(** [s.strip()] *)
Definition strip (s : string) : string := rstrip (lstrip s).

(** [chr(b)] for a byte, and ["".join] of a list of characters *)
Definition chr (b : byte) : ascii := ascii_of_byte b.

Fixpoint join (cs : list ascii) : string :=
  match cs with
  | [] => EmptyString
  | c :: cs' => String c (join cs')
  end.

(** [s.encode("ascii")] and a bytes literal *)
Definition encode (s : string) : list byte := String.list_byte_of_string s.

(** [s.split(sep)] for a separator of one character: the pieces between
    the separators, of which there is always at least one. *)
Fixpoint split (sep : ascii) (s : string) : list string :=
  match s with
  | EmptyString => [EmptyString]
  | String c s' =>
      if Ascii.eqb c sep then EmptyString :: split sep s'
      else match split sep s' with
           | [] => [String c EmptyString]
           | piece :: pieces => String c piece :: pieces
           end
  end.

(** The value of a digit of [int(s, base)] *)
Definition digit (c : ascii) : option Z :=
  let n := Z.of_N (N_of_ascii c) in
  if (48 <=? n) && (n <=? 57) then Some (n - 48)
  else if (97 <=? n) && (n <=? 102) then Some (n - 87)
  else if (65 <=? n) && (n <=? 70) then Some (n - 55)
  else None.

(** Digits with single underscores between them; [seen] tells whether the
    previous character was a digit. *)
Fixpoint digits (base acc : Z) (seen : bool) (s : string) : option Z :=
  match s with
  | EmptyString => if seen then Some acc else None
  | String c s' =>
      if Ascii.eqb c "_" then
        if seen then digits base acc false s' else None
      else match digit c with
           | Some d => if d <? base then digits base (acc * base + d) true s' else None
           | None => None
           end
  end.

(** The blanks that [int()] skips around the number: the ASCII ones, and
    those above 127 (which it turns into a space beforehand).  The
    separators 28..31, blanks for [str.strip], are not among them. *)
Definition int_isspace (c : ascii) : bool :=
  let n := N_of_ascii c in
  ((9 <=? n) && (n <=? 13) || (n =? 32) || (n =? 133) || (n =? 160))%N.

Fixpoint int_lstrip (s : string) : string :=
  match s with
  | EmptyString => EmptyString
  | String c s' => if int_isspace c then int_lstrip s' else s
  end.

Definition int_strip (s : string) : string :=
  String.rev (int_lstrip (String.rev (int_lstrip s))).

(** [sys.get_int_max_str_digits()]: a decimal text with more digits than
    this is refused. *)
Definition MAX_STR_DIGITS : Z := 4300.

(** The digits of a text, underscores apart *)
Fixpoint count_digits (s : string) : Z :=
  match s with
  | EmptyString => 0
  | String c s' => (if Ascii.eqb c "_" then 0 else 1) + count_digits s'
  end.

Definition unsigned (base : Z) (s : string) : option Z :=
  if (base =? 16) && (startswith s "0x" || startswith s "0X") then
    match drop 2 s with
    | String "_" s' => digits base 0 false s'
    | s' => digits base 0 false s'
    end
  else if (base =? 10) && (MAX_STR_DIGITS <? count_digits s) then None
  else digits base 0 false s.

(** [int(s, base)] for base 10 or 16: [None] stands for ValueError. *)
Definition int (base : Z) (s : string) : option Z :=
  match int_strip s with
  | String "-" s' => Z.opp <$> unsigned base s'
  | String "+" s' => unsigned base s'
  | s' => unsigned base s'
  end.

(** [n.to_bytes(2)] (big-endian): [None] stands for OverflowError. *)
Definition to_bytes2 (n : Z) : option (list byte) :=
  if (0 <=? n) && (n <? 65536) then
    match Byte.of_N (Z.to_N (n / 256)), Byte.of_N (Z.to_N (n mod 256)) with
    | Some hi, Some lo => Some [hi; lo]
    | _, _ => None
    end
  else None.

End Py.

(** ** Binary64 arithmetic of the progress percentage

    [int(a / b * 100)] divides two integers and multiplies by a float;
    both operations round the exact result to the nearest number with a
    53-bit significand, ties to even.  The exponent range is not modelled
    (the quotients of the program lie far inside it). *)
Module Float64.

Local Open Scope Q_scope.

(** [floor (log2 x)] for a positive rational *)
Definition ilog2 (x : Q) : Z :=
  let k := (Z.log2 (Qnum x) - Z.log2 (Z.pos (Qden x)))%Z in
  if Qle_bool (2 ^ k) x then k else (k - 1)%Z.

(** The nearest integer, ties to even *)
Definition rne (x : Q) : Z :=
  let f := Qfloor x in
  match Qcompare (x - inject_Z f) (1 # 2) with
  | Lt => f
  | Gt => (f + 1)%Z
  | Eq => if Z.even f then f else (f + 1)%Z
  end.

(** Rounding of a positive rational to 53 significant bits *)
Definition round_pos (x : Q) : Q :=
  let e := (ilog2 x - 52)%Z in
  inject_Z (rne (x / 2 ^ e)) * 2 ^ e.

Definition round (x : Q) : Q :=
  match Qcompare x 0 with
  | Eq => 0
  | Gt => round_pos x
  | Lt => - round_pos (- x)
  end.

(** [a / b] on integers ([b] not zero) and [x * y] on floats *)
Definition truediv (a b : Z) : Q := round (inject_Z a / inject_Z b).
Definition mul (x y : Q) : Q := round (x * y).

(** [int(x)]: towards zero *)
Definition trunc (x : Q) : Z := Z.quot (Qnum x) (Z.pos (Qden x)).

End Float64.

(** [int(a / b * 100)]; [None] stands for ZeroDivisionError. *)
Definition percent (a b : Z) : option Z :=
  if b =? 0 then None
  else Some (Float64.trunc (Float64.mul (Float64.truediv a b) (inject_Z 100))).

(** ** Exceptions *)
Inductive exn :=
| SerialException | OSError
| TypeError | ValueError | AttributeError | ZeroDivisionError | OverflowError.

(** ** Console output

    Formatting of numbers is not modelled: a progress line keeps its three
    numbers, the duration line keeps the measured time; neither is the
    text of an exception: the line that shows one keeps the exception. *)
Inductive out :=
| Print (s : string)                 (* print(s) *)
| PrintInline (s : string)           (* print(s, end="") *)
| Progress (inline : bool) (p from_address to_address : Z)  (* print_progress *)
| Duration (label : string) (seconds : N)
| PrintExn (label : string) (e : exn).   (* print(label, e) *)

(** ** The filter of [read_filterd_bytes] *)

Definition printable (b : byte) : bool :=
  ((32 <=? Byte.to_N b) && (Byte.to_N b <=? 126))%N.

Definition read_filterd_bytes (byte_array : list byte) : option string :=
  let res := List.filter printable byte_array in
  match res with
  | [] => None
  | _ :: _ => Some (Py.join (List.map Py.chr res))
  end.

(** ** The world the program runs in

    A serial endpoint is scripted: [rx] lists the outcomes of the blocking
    reads still to come ([readline] or [read(256)]), each with the time the
    call takes; when the script is used up the device is silent and every
    read returns [b""] after the per-read timeout of one time unit.  [tx]
    records the [write] calls, oldest first. *)
Inductive rx_event :=
| Rx (dt : N) (data : list byte)      (* the call returns [data] after [dt] *)
| RxError.                            (* the call raises SerialException *)

Record serial_port := {
  rx : list rx_event;
  tx : list (list byte);
  is_open : bool
}.

(** An entry of [serial.tools.list_ports.comports()] *)
Record port_info := {
  device : string;
  manufacturer : option string
}.

Record world := {
  clock : N;                                    (* time.time() *)
  ports : gmap string serial_port;              (* endpoints that can be opened *)
  comports : list port_info;
  config : gmap string string;                  (* the global [config] dict *)
  config_file : option (gmap string string);    (* CONFIG_FILE on disk *)
  stdout : list out;
  fs : gmap string (list byte);                 (* regular files that can be read *)
  readonly : gset string;                       (* paths that open(.., "w") and
                                                   open(.., "wb") refuse *)
  unreadable : gmap string Z                    (* paths that exist and that
                                                   open(.., "rb") refuses, with
                                                   the size os.path.getsize
                                                   answers for them *)
}.

Definition set_clock (t : N) (w : world) : world :=
  {| clock := t; ports := ports w; comports := comports w; config := config w;
     config_file := config_file w; stdout := stdout w; fs := fs w;
     readonly := readonly w; unreadable := unreadable w |}.

Definition set_ports (p : gmap string serial_port) (w : world) : world :=
  {| clock := clock w; ports := p; comports := comports w; config := config w;
     config_file := config_file w; stdout := stdout w; fs := fs w;
     readonly := readonly w; unreadable := unreadable w |}.

Definition set_config (c : gmap string string) (w : world) : world :=
  {| clock := clock w; ports := ports w; comports := comports w; config := c;
     config_file := config_file w; stdout := stdout w; fs := fs w;
     readonly := readonly w; unreadable := unreadable w |}.

Definition set_config_file (c : option (gmap string string)) (w : world) : world :=
  {| clock := clock w; ports := ports w; comports := comports w; config := config w;
     config_file := c; stdout := stdout w; fs := fs w;
     readonly := readonly w; unreadable := unreadable w |}.

Definition set_stdout (o : list out) (w : world) : world :=
  {| clock := clock w; ports := ports w; comports := comports w; config := config w;
     config_file := config_file w; stdout := o; fs := fs w;
     readonly := readonly w; unreadable := unreadable w |}.

Definition set_fs (f : gmap string (list byte)) (w : world) : world :=
  {| clock := clock w; ports := ports w; comports := comports w; config := config w;
     config_file := config_file w; stdout := stdout w; fs := f;
     readonly := readonly w; unreadable := unreadable w |}.

Definition set_readonly (r : gset string) (w : world) : world :=
  {| clock := clock w; ports := ports w; comports := comports w; config := config w;
     config_file := config_file w; stdout := stdout w; fs := fs w; readonly := r;
     unreadable := unreadable w |}.

Definition set_unreadable (u : gmap string Z) (w : world) : world :=
  {| clock := clock w; ports := ports w; comports := comports w; config := config w;
     config_file := config_file w; stdout := stdout w; fs := fs w;
     readonly := readonly w; unreadable := u |}.

Definition set_rx (r : list rx_event) (p : serial_port) : serial_port :=
  {| rx := r; tx := tx p; is_open := is_open p |}.

Definition set_tx (t : list (list byte)) (p : serial_port) : serial_port :=
  {| rx := rx p; tx := t; is_open := is_open p |}.

Definition set_open (b : bool) (p : serial_port) : serial_port :=
  {| rx := rx p; tx := tx p; is_open := b |}.

(** ** The state monad of the program *)

(** [except (OSError, serial.SerialException)] *)
Definition is_os_error (e : exn) : bool :=
  match e with SerialException | OSError => true | _ => false end.

Inductive result (A : Type) :=
| Ret (a : A) (w : world)
| Raise (e : exn) (w : world)
| Diverged.                      (* a loop bound of the model was exceeded *)
Arguments Ret {A} a w.
Arguments Raise {A} e w.
Arguments Diverged {A}.

Definition M (A : Type) : Type := world -> result A.

Definition ret {A} (a : A) : M A := fun w => Ret a w.
Definition raise {A} (e : exn) : M A := fun w => Raise e w.
Definition bind {A B} (c : M A) (k : A -> M B) : M B :=
  fun w => match c w with
           | Ret a w' => k a w'
           | Raise e w' => Raise e w'
           | Diverged => Diverged
           end.

#[global] Instance M_ret : MRet M := @ret.
#[global] Instance M_bind : MBind M := fun A B k c => bind c k.

Definition diverge {A} : M A := fun _ => Diverged.
Definition get : M world := fun w => Ret w w.
Definition modify (f : world -> world) : M unit := fun w => Ret tt (f w).

(** [try: c  except <those e with catches e>: h e] *)
Definition try_except {A} (c : M A) (catches : exn -> bool) (h : exn -> M A) : M A :=
  fun w => match c w with
           | Raise e w' => if catches e then h e w' else Raise e w'
           | r => r
           end.

(** [try: c  finally: f]: [f] runs on every way out of [c], and an
    exception of [f] replaces the outcome of [c]. *)
Definition try_finally {A} (c : M A) (f : M unit) : M A :=
  fun w => match c w with
           | Ret a w' => match f w' with
                         | Ret _ w'' => Ret a w''
                         | Raise e w'' => Raise e w''
                         | Diverged => Diverged
                         end
           | Raise e w' => match f w' with
                           | Ret _ w'' => Raise e w''
                           | Raise e' w'' => Raise e' w''
                           | Diverged => Diverged
                           end
           | Diverged => Diverged
           end.

(** ** Console, clock and serial primitives *)
Definition print (s : string) : M unit :=
  modify (fun w => set_stdout (stdout w ++ [Print s]) w).
Definition print_inline (s : string) : M unit :=
  modify (fun w => set_stdout (stdout w ++ [PrintInline s]) w).
Definition emit (o : out) : M unit :=
  modify (fun w => set_stdout (stdout w ++ [o]) w).

Definition time_time : M N := fun w => Ret (clock w) w.
Definition time_sleep (d : N) : M unit :=
  modify (fun w => set_clock (clock w + d)%N w).

(** [serial.Serial(port, BAUD_RATE, timeout=1.0)]: the handle is the port
    name ([ser.portstr]). *)
Definition serial_open (port : string) : M string :=
  fun w => match ports w !! port with
           | Some p => Ret port (set_ports (<[port := set_open true p]> (ports w)) w)
           | None => Raise SerialException w
           end.

(** The open endpoint behind a handle; using a closed one raises. *)
Definition the_port (ser : string) : M serial_port :=
  fun w => match ports w !! ser with
           | Some p => if is_open p then Ret p w else Raise SerialException w
           | None => Raise SerialException w
           end.

Definition put_port (ser : string) (p : serial_port) : M unit :=
  modify (fun w => set_ports (<[ser := p]> (ports w)) w).

(** [ser.write(data)]: returns the number of bytes written. *)
Definition ser_write (ser : string) (data : list byte) : M Z :=
  p ← the_port ser;
  put_port ser (set_tx (tx p ++ [data]) p);;
  ret (Z.of_nat (length data)).

Definition ser_flush (ser : string) : M unit :=
  the_port ser ;; ret tt.

Definition ser_close (ser : string) : M unit :=
  fun w => match ports w !! ser with
           | Some p => Ret tt (set_ports (<[ser := set_open false p]> (ports w)) w)
           | None => Ret tt w
           end.

(** The end of a [Serial] object that only a local variable of a function
    names.  When the function returns, the object is released; reference
    counting runs the finalizer of [io.RawIOBase] at once, and the
    finalizer closes the port.  An exception that leaves the function
    keeps the frame of the function, and the object with it, in its
    traceback: nothing is closed on that way out. *)
Definition released {A} (ser : string) (c : M A) : M A :=
  a ← c;
  ser_close ser;;
  ret a.

(** [ser.read(size)]: the next scripted read, cut at [size] bytes; what is
    cut off stays in the buffer for the next read. *)
Definition ser_read (ser : string) (size : nat) : M (list byte) :=
  p ← the_port ser;
  match rx p with
  | [] => time_sleep 1 ;; ret []
  | RxError :: rest => put_port ser (set_rx rest p) ;; raise SerialException
  | Rx dt data :: rest =>
      time_sleep dt;;
      put_port ser (set_rx (match drop size data with
                            | [] => rest
                            | more => Rx 0 more :: rest
                            end) p);;
      ret (take size data)
  end.

(** ** What the program is given from outside [main.py]

    The command envelope is a Python dict with string keys; [json.dumps],
    the chip database ([database.get_eprom]) and the release feed read by
    [latest_firmware] are collaborators and are taken as parameters. *)
Inductive jval :=
| JInt (n : Z)
| JFloat (q : Q)
| JStr (s : string)
| JBool (b : bool).

(** Modelled from the spec: the record that [database.get_eprom] answers
    (the database module is a collaborator of the program): the fields the
    program names, and the parameters that travel in the envelope as they
    are. *)
Record eprom_data := {
  name : string;
  manufacturer_name : string;
  verified : bool;
  memory_size : Z;
  params : gmap string jval
}.

(** The dict left once [name], [manufacturer] and [verified] are popped *)
Definition envelope (d : eprom_data) : gmap string jval :=
  <["memory-size" := JInt (memory_size d)]> (params d).

Record env := {
  verbose : bool;                                   (* the global set by main() *)
  json_dumps : gmap string jval -> string;
  get_eprom : string -> option eprom_data;
  latest_firmware : option string * option string   (* (latest_version, url) *)
}.

Definition BAUD_RATE : string := "115200".
(** The settings file, [~/.firestarter/config.json] with the home
    directory of the user for [~] *)
Definition CONFIG_FILE : string := "~/.firestarter/config.json".
Definition STATE_READ : Z := 1.
Definition STATE_WRITE : Z := 2.
Definition STATE_READ_VPE : Z := 10.
Definition STATE_READ_VPP : Z := 11.
Definition STATE_READ_VCC : Z := 12.
Definition STATE_VERSION : Z := 13.
Definition STATE_CONFIG : Z := 14.

(** ** The response wait loop *)

(** [write_feedback], on the console log *)
Definition write_feedback (verbose : bool) (msg : string) (o : list out) : list out :=
  if verbose then o ++ [Print msg] else o.

(** What one call of [wait_for_response] leaves behind: the pair it
    returns or the exception of the read, the clock, the reads not yet
    consumed and the console. *)
Record waited := {
  answer : (string * string) + exn;
  w_clock : N;
  w_rx : list rx_event;
  w_out : list out
}.

(** The device is silent: every [readline] returns [b""] after one time
    unit, until the window is over.  Answers the clock at that moment. *)
Fixpoint silence (fuel : nat) (timeout now : N) : N :=
  let now := (now + 1)%N in
  if (timeout + 5 <? now)%N then now
  else match fuel with
       | O => now
       | S fuel' => silence fuel' timeout now
       end.

(** The [while True] loop of [wait_for_response], by recursion on the
    reads to come; [timeout] is the local variable of that name and [now]
    the clock. *)
Fixpoint wait_loop (verbose : bool) (timeout now : N) (o : list out)
    (script : list rx_event) : waited :=
  match script with
  | [] =>
      {| answer := inl ("ERROR", "Timeout");
         w_clock := silence (N.to_nat (timeout + 5 - now)) timeout now;
         w_rx := [];
         w_out := o ++ [Print " --  Timeout"] |}
  | RxError :: rest =>
      {| answer := inr SerialException; w_clock := now; w_rx := rest; w_out := o |}
  | Rx dt byte_array :: rest =>
      let now := (now + dt)%N in
      let done kind msg cut :=
        {| answer := inl (kind, Py.strip (Py.slice_from msg cut));
           w_clock := now; w_rx := rest;
           w_out := write_feedback verbose msg o |} in
      let check timeout o :=
        if (timeout + 5 <? now)%N then
          {| answer := inl ("ERROR", "Timeout"); w_clock := now; w_rx := rest;
             w_out := o ++ [Print " --  Timeout"] |}
        else wait_loop verbose timeout now o rest in
      match read_filterd_bytes byte_array with
      | Some res =>
          if 0 <? Py.len res then
            if Py.contains "OK:" res then
              done "OK" (Py.slice_from res (Py.rfind res "OK:")) 3
            else if Py.contains "WARN:" res then
              done "WARN" (Py.slice_from res (Py.rfind res "WARN:")) 5
            else if Py.contains "ERROR:" res then
              done "ERROR" (Py.slice_from res (Py.rfind res "ERROR:")) 6
            else if Py.contains "DATA:" res then
              done "DATA" (Py.slice_from res (Py.rfind res "DATA:")) 5
            else
              let o := if Py.contains "INFO:" res
                       then write_feedback verbose
                              (Py.slice_from res (Py.rfind res "INFO:")) o
                       else o in
              (* timeout = time.time() *)
              check now o
          else check timeout o
      | None => check timeout o
      end
  end.

Section Program.

Context (E : env).

(** [wait_for_response(ser)] *)
Definition wait_for_response (ser : string) : M (string * string) :=
  timeout ← time_time;
  p ← the_port ser;
  w ← get;
  let r := wait_loop (verbose E) timeout timeout (stdout w) (rx p) in
  modify (fun w => set_stdout (w_out r) (set_clock (w_clock r) w));;
  put_port ser (set_rx (w_rx r) p);;
  match answer r with
  | inl t => ret t
  | inr e => raise e
  end.

(** [save_config()]: OSError when the directory of the settings cannot be
    made or the file cannot be opened for writing. *)
Definition save_config : M unit :=
  fun w => if bool_decide (CONFIG_FILE ∈ readonly w) then Raise OSError w
           else Ret tt (set_config_file (Some (config w)) w).

(** [check_port(port, data)]: where it answers [None], the [Serial] object
    it made, if any, is released at the return. *)
Definition check_port (port data : string) : M (option string) :=
  serial_port ←
    try_except
      ((if verbose E then print ("Check port: " +:+ port) else ret tt);;
       ser ← serial_open port;
       time_sleep 2;;
       ser_write ser (Py.encode data);;
       ser_flush ser;;
       '(res, msg) ← wait_for_response ser;
       if String.eqb res "OK" then ret (Some ser)
       else print msg;; ret None)
      is_os_error
      (fun _ => ret None);
  match serial_port with
  | Some ser => ret (Some ser)
  | None => released port (ret None)
  end.

(** [find_comports()] *)
Fixpoint add_comports (serial_ports : list port_info) (ports : list string)
    : M (list string) :=
  match serial_ports with
  | [] => ret ports
  | port :: serial_ports' =>
      match manufacturer port with
      | None => raise TypeError        (* ["Arduino" in None] *)
      | Some m =>
          if (Py.contains "Arduino" m || Py.contains "FTDI" m)
             && negb (bool_decide (device port ∈ ports))
          then add_comports serial_ports' (ports ++ [device port])
          else add_comports serial_ports' ports
      end
  end.

Definition find_comports : M (list string) :=
  w ← get;
  let ports := match config w !! "port" with
               | Some port => [port]
               | None => []
               end in
  add_comports (comports w) ports.

(** [find_programmer(data)] *)
Fixpoint try_ports (data : string) (ports : list string) : M (option string) :=
  match ports with
  | [] => ret None
  | port :: ports' =>
      serial_port ← check_port port data;
      match serial_port with
      | Some ser =>
          modify (fun w => set_config (<["port" := port]> (config w)) w);;
          save_config;;
          ret (Some ser)
      | None => try_ports data ports'
      end
  end.

Definition find_programmer (data : string) : M (option string) :=
  (if verbose E then print "Config data:";; print data else ret tt);;
  ports ← find_comports;
  try_ports data ports.

(** [print_progress(p, from_address, to_address)] *)
Definition print_progress (p from_address to_address : Z) : M unit :=
  if verbose E then emit (Progress false p from_address to_address)
  else emit (Progress true p from_address to_address).

(** The number of scripted reads a port still holds: the bound of the
    loops below, each round of which consumes at least one of them. *)
Definition pending (ser : string) : M nat :=
  fun w => Ret (match ports w !! ser with
                | Some p => length (rx p)
                | None => O
                end) w.

(** [read_voltage(state)] *)
Fixpoint read_voltage_loop (fuel : nat) (ser : string) : M unit :=
  t ← wait_for_response ser;
  if String.eqb t.1 "DATA" then
    print_inline (String "013" t.2);;
    ser_write ser (Py.encode "OK");;
    match fuel with
    | O => diverge
    | S fuel' => read_voltage_loop fuel' ser
    end
  else ret tt.

Definition read_voltage (state : Z) : M unit :=
  let data := json_dumps E {["state" := JInt state]} in
  ser ← find_programmer data;
  match ser with
  | None => print "No programmer found"
  | Some ser =>
      released ser
        (ser_write ser (Py.encode "OK");;
         let type := "VPE" in
         let type := if state =? STATE_READ_VCC then "VCC" else type in
         let type := if state =? STATE_READ_VPP then "VPP" else type in
         print ("Reading " +:+ type +:+ " voltage");;
         fuel ← pending ser;
         read_voltage_loop fuel ser)
  end.

(** [firmware_check()]: the connection is closed by name before any
    return, so that the release of the object at the return changes
    nothing. *)
Definition unpack3 (l : list string) : M (string * string * string) :=
  match l with
  | [a; b; c] => ret (a, b, c)
  | _ => raise ValueError
  end.

(** [int(a) < int(b)] *)
Definition int_lt (a b : string) : M bool :=
  match Py.int 10 a with
  | None => raise ValueError
  | Some x => match Py.int 10 b with
              | None => raise ValueError
              | Some y => ret (x <? y)
              end
  end.

Definition firmware_check : M (bool * option string * option string) :=
  let data := json_dumps E {["state" := JInt STATE_VERSION]} in
  ser ← find_programmer data;
  match ser with
  | None => print "No programmer found";; ret (false, None, None)
  | Some ser =>
      ser_write ser (Py.encode "OK");;
      print "Reading version";;
      '(r, version) ← wait_for_response ser;
      ser_close ser;;
      if String.eqb r "OK" then
        print ("Firmware version: " +:+ version);;
        let '(latest_version, url) := latest_firmware E in
        '(major, minor, patch) ← unpack3 (Py.split "." version);
        match latest_version with
        | None => raise AttributeError       (* [None.split] *)
        | Some latest_version =>
            '(major_l, minor_l, patch_l) ← unpack3 (Py.split "." latest_version);
            older ← (b ← int_lt major major_l;
                     if b : bool then ret true
                     else b ← int_lt minor minor_l;
                          if b : bool then ret true
                          else int_lt patch patch_l);
            if older : bool then
              print ("New version available: " +:+ latest_version);;
              ret (false, Some ser, url)
            else
              print "You have the latest version";;
              ret (true, None, None)
        end
      else print r;; ret (false, None, None)
  end.

(** [rurp_config(vcc, r1, r2)] *)
Definition rurp_config (vcc : option Q) (r1 r2 : option Z) : M unit :=
  let data := {["state" := JInt STATE_CONFIG]} in
  let data := match vcc with
              | Some v => if Qeq_bool v 0 then data else <["vcc" := JFloat v]> data
              | None => data
              end in
  let data := match r1 with
              | Some r => if r =? 0 then data else <["r1" := JInt r]> data
              | None => data
              end in
  let data := match r2 with
              | Some r => if r =? 0 then data else <["r2" := JInt r]> data
              | None => data
              end in
  let data := json_dumps E data in
  ser ← find_programmer data;
  match ser with
  | None => print "No programmer found"
  | Some ser =>
      released ser
        (ser_write ser (Py.encode (String.app "OK" (String "010" "")));;
         print "Reading configuration";;
         '(r, version) ← wait_for_response ser;
         if String.eqb r "OK" then print ("Config: " +:+ version)
         else print r)
  end.

(** Files: [os.path.getsize(path)], with [None] where
    [os.path.exists(path)] is false; [open(path, "wb")]; [f.write(data)] *)
Definition getsize (path : string) (w : world) : option Z :=
  match fs w !! path with
  | Some content => Some (Z.of_nat (length content))
  | None => unreadable w !! path
  end.

Definition open_wb (path : string) : M string :=
  fun w => if bool_decide (path ∈ readonly w) then Raise OSError w
           else Ret path (set_fs (<[path := []]> (fs w)) w).

Definition file_write (f : string) (data : list byte) : M unit :=
  modify (fun w => set_fs (alter (fun old => old ++ data) f (fs w)) w).

Definition percent_of (a b : Z) : M Z :=
  match percent a b with
  | Some p => ret p
  | None => raise ZeroDivisionError
  end.

(** [read_chip(eprom, output_file)]: the [while True] loop answers [true]
    at [break] and [false] at [return].  Every return passes the
    [ser.close()] of the [finally] clause. *)
Fixpoint read_chip_loop (fuel : nat) (ser output_file : string)
    (mem_size bytes_read : Z) : M bool :=
  t ← wait_for_response ser;
  if String.eqb t.1 "DATA" then
    serial_data ← ser_read ser 256;
    file_write output_file serial_data;;
    let bytes_read := bytes_read + 256 in
    p ← percent_of bytes_read mem_size;
    print_progress p (bytes_read - 256) bytes_read;;
    ser_write ser (Py.encode (String.app "OK" (String "010" "")));;
    ser_flush ser;;
    match fuel with
    | O => diverge
    | S fuel' => read_chip_loop fuel' ser output_file mem_size bytes_read
    end
  else if String.eqb t.1 "OK" then
    print "";;
    print "Finished reading data";;
    ret true
  else
    print ("Error reading data " +:+ t.2);;
    t' ← wait_for_response ser;
    print t'.2;;
    ret false.

Definition catch_all (e : exn) : bool := true.

Definition read_chip (eprom : string) (output_file : option string) : M unit :=
  match get_eprom E eprom with
  | None => print ("Eprom " +:+ eprom +:+ " not found.")
  | Some data =>
      let eprom := name data in
      let mem_size := memory_size data in
      let data := json_dumps E (<["state" := JInt STATE_READ]> (envelope data)) in
      ser ← find_programmer data;
      match ser with
      | None => print "No programmer found"
      | Some ser =>
          print ("Reading chip: " +:+ eprom);;
          let output_file :=
            match output_file with
            | Some f => if String.eqb f "" then eprom +:+ ".bin" else f
            | None => eprom +:+ ".bin"
            end in
          print ("Output will be saved to: " +:+ output_file);;
          (* The [try] block up to the point where [output_file] is
             rebound to the file object. *)
          opened ← try_except
                     (ser_write ser (Py.encode "OK");;
                      ser_flush ser;;
                      f ← open_wb output_file;
                      ret (Some f))
                     catch_all
                     (fun e => emit (PrintExn "Error:" e);; ret None);
          match opened with
          | None =>
              (* [finally]: [output_file] is still the name, a str without
                 a [close] method; [ser.close()] is not reached. *)
              raise AttributeError
          | Some f =>
              try_finally
                (try_except
                   (start_time ← time_time;
                    fuel ← pending ser;
                    finished ← read_chip_loop fuel ser f mem_size 0;
                    if finished : bool then
                      end_time ← time_time;
                      emit (Duration "File recived in" (end_time - start_time))
                    else ret tt)
                   catch_all
                   (fun e => emit (PrintExn "Error:" e)))
                (ser_close ser)      (* after [output_file.close()] *)
          end
      end
  end.

(** [write_chip(eprom, input_file, address)]: the loop answers [true] at
    [break] and [false] at [return]; [f] is what is left of the file. *)
Definition to_bytes2 (n : Z) : M (list byte) :=
  match Py.to_bytes2 n with
  | Some b => ret b
  | None => raise OverflowError
  end.

Fixpoint write_chip_loop (fuel : nat) (ser : string) (f : list byte)
    (file_size mem_size bytes_sent : Z) : M bool :=
  let data := take 256 f in
  let f := drop 256 f in
  match data with
  | [] =>
      zero ← to_bytes2 0;
      ser_write ser zero;;
      ser_flush ser;;
      '(resp, info) ← wait_for_response ser;
      print "End of file reached";;
      print info;;
      ret false
  | _ :: _ =>
      prefix ← to_bytes2 (Z.of_nat (length data));
      ser_write ser prefix;;
      sent ← ser_write ser data;
      ser_flush ser;;
      '(resp, info) ← wait_for_response ser;
      sent_now ←
        (if String.eqb resp "OK" then
           let bytes_sent := bytes_sent + sent in
           p ← percent_of bytes_sent file_size;
           print_progress p (bytes_sent - 256) bytes_sent;;
           ret (Some bytes_sent)
         else if String.eqb resp "ERROR" then
           print "";;
           print ("Error writing: " +:+ info);;
           ret None
         else ret (Some bytes_sent));
      match sent_now with
      | None => ret false
      | Some bytes_sent =>
          if bytes_sent =? mem_size then ret true
          else match fuel with
               | O => diverge
               | S fuel' => write_chip_loop fuel' ser f file_size mem_size bytes_sent
               end
      end
  end.

Definition write_chip (eprom input_file : string) (address : option string)
    : M unit :=
  match get_eprom E eprom with
  | None => print ("Eprom " +:+ eprom +:+ " not found.")
  | Some data =>
      w ← get;
      match getsize input_file w with
      | None => print ("File " +:+ input_file +:+ " not found.")
      | Some file_size =>
          let eprom := name data in
          let mem_size := memory_size data in
          let data := envelope data in
          data ← match address with
                 | Some a =>
                     if String.eqb a "" then ret data
                     else match Py.int (if Py.contains "0x" a then 16 else 10) a with
                          | Some n => ret (<["address" := JInt n]> data)
                          | None => raise ValueError
                          end
                 | None => ret data
                 end;
          let json_data := json_dumps E (<["state" := JInt STATE_WRITE]> data) in
          (if mem_size =? file_size then ret tt
           else print "The file size dont match the memory size");;
          start_time ← time_time;
          ser ← find_programmer json_data;
          match ser with
          | None => print "No programmer found"
          | Some ser =>
              released ser
                (print ("Writing to chip: " +:+ eprom);;
                 print ("Reading from input file: " +:+ input_file);;
                 w ← get;
                 match fs w !! input_file with
                 | None => raise OSError            (* [open(input_file, "rb")] *)
                 | Some f =>
                     print ("Sending file " +:+ input_file +:+ " in blocks of 256 bytes");;
                     finished ← write_chip_loop (length f) ser f file_size mem_size 0;
                     if finished : bool then
                       now ← time_time;
                       print "";;
                       emit (Duration "File sent successfully in" (now - start_time))
                     else ret tt
                 end)
          end
      end
  end.

End Program.

(** ** The rest of [main.py]: settings, catalogue, release feed

    Not embedded: [eprom_info] (it formats the numbers of a database
    record), [install_firmware] (it drives the external flashing tool, the
    download and the directory of the settings) and the command line of
    [main]. *)

(** [open_config()]: the settings file holds the dict that [save_config]
    dumped; without a file the settings are empty. *)
Definition open_config : M unit :=
  modify (fun w => set_config (match config_file w with
                               | Some file => file
                               | None => ∅
                               end) w).

(** [for ic in l: print(ic)] *)
Fixpoint print_each (l : list string) : M unit :=
  match l with
  | [] => ret tt
  | ic :: l' => print ic;; print_each l'
  end.

(** The builtin [all], which [list_eproms] tests in place of a flag: a
    function object is true. *)
Definition builtin_all_is_true : bool := true.

Section Catalogue.

(** [database.get_eproms] and [database.search_eprom] are collaborators;
    their entries are taken as the text that [print] shows for them. *)
Context (get_eproms : bool -> list string)
        (search_eprom : string -> bool -> list string).

(** [list_eproms(verifed)] *)
Definition list_eproms (verifed : bool) : M unit :=
  (if negb builtin_all_is_true then print "Verified EPROMS in the database."
   else ret tt);;
  print_each (get_eproms verifed).

(** [search_eproms(text)] *)
Definition search_eproms (text : string) : M unit :=
  print ("Searching for: " +:+ text);;
  print_each (search_eprom text true).

End Catalogue.

(** The release feed as [requests.get(FIRESTARTER_RELEASE_URL)] answers
    it: the status and, decoded, the fields of the document that the
    program reads. *)
Module Release.

Record asset := {
  asset_name : string;                 (* asset["name"] *)
  browser_download_url : string
}.

Record response := {
  status_code : Z;
  tag_name : string;                   (* response.json()["tag_name"] *)
  assets : list asset
}.

(** The [for asset in latest["assets"]] loop *)
Fixpoint first_firmware (latest_version : string) (l : list asset)
    : option string * option string :=
  match l with
  | [] => (None, None)
  | a :: l' =>
      if Py.contains "firmware.hex" (asset_name a)
      then (Some latest_version, Some (browser_download_url a))
      else first_firmware latest_version l'
  end.

(** [latest_firmware()] *)
Definition latest_firmware (r : response) : option string * option string :=
  if negb (status_code r =? 200) then (None, None)
  else first_firmware (tag_name r) (assets r).

End Release.

(** [not url] and the text of [f"{latest_version}"] for a value that may
    be None *)
Definition falsy (s : option string) : bool :=
  match s with
  | Some s => String.eqb s ""
  | None => true
  end.

Definition str_of (s : option string) : string :=
  match s with
  | Some s => s
  | None => "None"
  end.

Section Firmware.

(** [install_firmware(url, avrdude_path, port)] drives the external
    flashing tool and the download; it is taken as a parameter. *)
Context (E : env)
        (install_firmware : option string -> option string -> option string -> M unit).

(** [firmware(install, avrdude_path)] *)
Definition firmware (install : bool) (avrdude_path : option string) : M unit :=
  '(latest, port, url) ← firmware_check E;
  if negb latest && install then
    url ← (if falsy url then
             let '(latest_version, url) := latest_firmware E in
             print ("Trying to install firmware version: " +:+ str_of latest_version);;
             ret url
           else ret url);
    install_firmware url avrdude_path port
  else ret tt.

End Firmware.

(** ** The vocabulary of the statements *)

(** [sub] stands in [s] at index [i]: the claim's "occurrence". *)
Definition occurs (sub s : string) (i : nat) : Prop :=
  exists pre post, s = pre +:+ sub +:+ post /\ String.length pre = i.

Definition last_occurrence (sub s : string) (i : nat) : Prop :=
  occurs sub s i /\ forall j, occurs sub s j -> (j <= i)%nat.

Definition tags : list string := ["OK"; "WARN"; "ERROR"; "DATA"].

(** The world after a call of [wait_for_response] that left [r] behind *)
Definition waited_world (ser : string) (p : serial_port) (r : waited) (w : world) : world :=
  set_ports (<[ser := set_rx (w_rx r) p]> (ports w))
    (set_stdout (w_out r) (set_clock (w_clock r) w)).

(** A line that carries one of the four terminating tags ends the wait;
    the tags are looked for in the order OK, WARN, ERROR, DATA. *)
Definition tagged (v : bool) (now : N) (o : list out) (rest : list rx_event)
    (res kind tag : string) (cut : Z) : waited :=
  let msg := Py.slice_from res (Py.rfind res tag) in
  {| answer := inl (kind, Py.strip (Py.slice_from msg cut));
     w_clock := now; w_rx := rest; w_out := write_feedback v msg o |}.

(** The time the scripted reads take *)
Definition elapsed (script : list rx_event) : N :=
  foldr (fun e acc => match e with Rx dt _ => dt + acc | RxError => acc end)%N 0%N script.

(** A read with nothing printable in it *)
Definition blank (e : rx_event) : Prop :=
  exists dt bs, e = Rx dt bs /\ read_filterd_bytes bs = None.

(** A read with printable text and none of the five tags *)
Definition untagged (e : rx_event) : Prop :=
  exists dt bs res, e = Rx dt bs /\ read_filterd_bytes bs = Some res /\
    forall T, T ∈ tags ++ ["INFO"] -> forall j, ~ occurs (T +:+ ":") res j.

(** A line of the device that holds INFO: and none of the four tags that
    end the wait; [text] is the line from its last INFO: on. *)
Definition says_INFO (e : rx_event) (text : string) : Prop :=
  exists dt bs res k, e = Rx dt bs /\ read_filterd_bytes bs = Some res /\
    last_occurrence "INFO:" res k /\ text = Py.drop k res /\
    forall T, T ∈ tags -> forall j, ~ occurs (T +:+ ":") res j.

(** [ser] is an open connection to the endpoint in state [p]. *)
Definition connected (ser : string) (p : serial_port) (w : world) : Prop :=
  ports w !! ser = Some p /\ is_open p = true.

(** The world with the endpoint behind [ser] replaced *)
Definition with_port (ser : string) (p : serial_port) (w : world) : world :=
  set_ports (<[ser := p]> (ports w)) w.

(** Whether the endpoint is open when the program is done, on return or
    on an exception *)
Definition open_at_exit {A} (ser : string) (r : result A) : option bool :=
  match r with
  | Ret _ w | Raise _ w => is_open <$> ports w !! ser
  | Diverged => None
  end.

(** What the endpoint has been sent when the program is done *)
Definition tx_at_exit {A} (ser : string) (r : result A) : option (list (list byte)) :=
  match r with
  | Ret _ w | Raise _ w => tx <$> ports w !! ser
  | Diverged => None
  end.

(** The file cut into blocks of 256 bytes, as [f.read(256)] hands them out *)
Fixpoint chunks (fuel : nat) (f : list byte) : list (list byte) :=
  match fuel with
  | O => []
  | S fuel' =>
      match f with
      | [] => []
      | _ :: _ => take 256 f :: chunks fuel' (drop 256 f)
      end
  end.

Definition blocks (f : list byte) : list (list byte) := chunks (length f) f.

(** A block on the wire: its length on two bytes, then the block *)
Definition prefix2 (n : nat) : list byte :=
  default [] (Py.to_bytes2 (Z.of_nat n)).

Definition framed (bl : list (list byte)) : list (list byte) :=
  b ← bl; [prefix2 (length b); b].

Definition terminator : list byte := [x00; x00].

(** The bytes of the first [j] blocks of a file of [S] bytes *)
Definition cumulative (S : Z) (j : nat) : Z := Z.min (256 * Z.of_nat j) S.

(** What the loop writes when every block is acknowledged: block after
    block, until the count of bytes sent meets the memory size or the file
    is used up. *)
Fixpoint sent_frames (mem_size bytes_sent : Z) (bl : list (list byte))
    : list (list byte) :=
  match bl with
  | [] => [terminator]
  | data :: bl' =>
      let bytes_sent := bytes_sent + Z.of_nat (length data) in
      prefix2 (length data) :: data ::
      (if bytes_sent =? mem_size then [] else sent_frames mem_size bytes_sent bl')
  end.

(** Whether the loop leaves at [break]: the count of bytes sent meets the
    memory size behind some block. *)
Fixpoint stops (mem_size bytes_sent : Z) (bl : list (list byte)) : bool :=
  match bl with
  | [] => false
  | data :: bl' =>
      let bytes_sent := bytes_sent + Z.of_nat (length data) in
      (bytes_sent =? mem_size) || stops mem_size bytes_sent bl'
  end.

(** How the write loop ends: with what has been sent, and at [break]
    ([true]), at the [return] behind the terminator ([false]), or with the
    exception of the read behind the terminator. *)
Definition write_loop_ends (ser : string) (r : result bool)
    (sent : list (list byte)) (early : bool) : Prop :=
  exists w' p', connected ser p' w' /\ tx p' = sent /\
    (r = Ret early w' \/ (early = false /\ exists e, r = Raise e w')).

(** The envelope of a write: the data of the chip and, where a start
    address is given, the address; [None] where [int()] raises. *)
Definition write_envelope (data : eprom_data) (address : option string)
    : option (gmap string jval) :=
  match address with
  | Some a =>
      if String.eqb a "" then Some (envelope data)
      else n ← Py.int (if Py.contains "0x" a then 16 else 10) a;
           Some (<["address" := JInt n]> (envelope data))
  | None => Some (envelope data)
  end.

(** The bytes in a list of blocks *)
Definition total (bl : list (list byte)) : Z := Z.of_nat (length (concat bl)).

(** A line of the device that holds OK: *)
Definition says_OK (e : rx_event) : Prop :=
  exists dt bs res, e = Rx dt bs /\ read_filterd_bytes bs = Some res /\
                    exists j, occurs "OK:" res j.

(** A line of the device that holds DATA: and none of the tags that are
    looked for before it *)
Definition says_DATA (e : rx_event) : Prop :=
  exists dt bs res, e = Rx dt bs /\ read_filterd_bytes bs = Some res /\
    (exists j, occurs "DATA:" res j) /\
    forall T, T ∈ ["OK"; "WARN"; "ERROR"] -> forall j, ~ occurs (T +:+ ":") res j.

(** What the device sends for the blocks [bl]: for each block a DATA line
    and then the block, read after the time given with the line. *)
Fixpoint data_script (lines : list (rx_event * N)) (bl : list (list byte))
    : list rx_event :=
  match lines, bl with
  | (d, dt) :: lines', b :: bl' => d :: Rx dt b :: data_script lines' bl'
  | _, _ => []
  end.

(** The percentages of the progress lines on the console *)
Definition progress_of (o : list out) : list Z :=
  omap (fun e => match e with Progress _ p _ _ => Some p | _ => None end) o.

(** The percentages that [n] blocks give, the counter being at
    [bytes_read] *)
Fixpoint progress_list (mem_size bytes_read : Z) (n : nat) : list Z :=
  match n with
  | O => []
  | S n' =>
      default 0 (percent (bytes_read + 256) mem_size)
      :: progress_list mem_size (bytes_read + 256) n'
  end.

(** The model against the IEEE 754 functions of the standard library
    ([SpecFloat], binary64): the same percentage for every count up to the
    total, for a few totals. *)
Definition sf_of_Z (n : Z) : spec_float :=
  match n with
  | Z0 => S754_zero false
  | Zpos p => S754_finite false p 0
  | Zneg p => S754_finite true p 0
  end.

Definition sf_trunc (x : spec_float) : Z :=
  match x with
  | S754_finite s m e =>
      let v := if 0 <=? e then Z.pos m * 2 ^ e else Z.pos m / 2 ^ (- e) in
      if s then - v else v
  | _ => 0
  end.

Definition percent_ieee (a b : Z) : Z :=
  sf_trunc (SFmul 53 1024 (SFdiv 53 1024 (sf_of_Z a) (sf_of_Z b)) (sf_of_Z 100)).

Definition agrees_up_to (b : Z) : bool :=
  forallb (fun a => bool_decide (percent (Z.of_nat a) b = Some (percent_ieee (Z.of_nat a) b)))
    (seq 1 (Z.to_nat b)).

(** The program comes to an end: the bound of a loop of the model is not
    met. *)
Definition terminates {A} (r : result A) : Prop := r <> Diverged.

(** The scripted reads left on an endpoint *)
Definition pending_of (ser : string) (w : world) : nat :=
  match ports w !! ser with
  | Some p => length (rx p)
  | None => O
  end.

(** The connection is open when the program is done, on return or on an
    exception. *)
Definition still_connected {A} (ser : string) (r : result A) : Prop :=
  match r with
  | Ret _ w | Raise _ w => exists p, connected ser p w
  | Diverged => True
  end.

(** The noise that [read_filterd_bytes] drops, dropped beforehand *)
Definition without_noise (e : rx_event) : rx_event :=
  match e with
  | Rx dt byte_array => Rx dt (List.filter printable byte_array)
  | RxError => RxError
  end.

(** What holds of the way a run ends: [Q] on return, [X] on an exception *)
Definition outcome {A} (r : result A) (Q : A -> world -> Prop)
    (X : exn -> world -> Prop) : Prop :=
  match r with
  | Ret a w => Q a w
  | Raise e w => X e w
  | Diverged => True
  end.

(** The run touched nothing of the host but the clock, the console and
    the endpoint behind [ser]. *)
Definition only_port (ser : string) (w w' : world) : Prop :=
  config w' = config w /\ config_file w' = config_file w /\ fs w' = fs w
  /\ readonly w' = readonly w /\ unreadable w' = unreadable w
  /\ comports w' = comports w
  /\ forall q, q <> ser -> ports w' !! q = ports w !! q.

(** [c] touches nothing but the clock, the console and [ser], however it
    ends. *)
Definition keeps_to {A} (ser : string) (c : M A) : Prop :=
  forall w, outcome (c w) (fun _ w' => only_port ser w w') (fun _ w' => only_port ser w w').

(** What a run that only reads from [ser] leaves: nothing written to the
    port, the port not closed, the reads left to the device the last of
    those that were there, the clock not back, the console grown. *)
Definition only_read (ser : string) (w w' : world) : Prop :=
  config w' = config w /\ config_file w' = config_file w /\ fs w' = fs w
  /\ (forall q, q <> ser -> ports w' !! q = ports w !! q)
  /\ tx <$> ports w' !! ser = tx <$> ports w !! ser
  /\ is_open <$> ports w' !! ser = is_open <$> ports w !! ser
  /\ (exists used, rx <$> ports w !! ser = (app used ∘ rx) <$> ports w' !! ser)
  /\ (clock w <= clock w')%N
  /\ exists l, stdout w' = stdout w ++ l.

(** A port of the system's list that [find_comports] takes for a
    programmer: its manufacturer text holds Arduino or FTDI. *)
Definition programmer_like (port : port_info) : bool :=
  match manufacturer port with
  | Some m => Py.contains "Arduino" m || Py.contains "FTDI" m
  | None => false
  end.

(** A plain [print] line *)
Definition is_print (e : out) : Prop :=
  match e with Print _ => True | _ => False end.

(** What an endpoint answers to the envelope: the first answer of the
    wait loop on the reads that it holds *)
Definition first_answer (p : serial_port) : (string * string) + exn :=
  answer (wait_loop false 0 0 [] (rx p)).

(** The candidate [q] was tried between [w] and [w'] and given up: it was
    opened, sent the envelope [data] and closed again; its first answer
    was not OK, and the text of the answer is on the console.  An endpoint
    that does not exist is still missing. *)
Definition given_up (data q : string) (w w' : world) : Prop :=
  match ports w !! q with
  | Some p =>
      tx <$> ports w' !! q = Some (tx p ++ [Py.encode data])
      /\ is_open <$> ports w' !! q = Some false
      /\ match first_answer p with
         | inl (kind, msg) => kind <> "OK" /\ Print msg ∈ stdout w'
         | inr _ => True
         end
  | None => ports w' !! q = None
  end.

(** The endpoint [q] does not answer the envelope with OK: it cannot be
    opened, or its first answer is of another kind (the timeout of the
    wait is one), or its first read fails. *)
Definition refuses_handshake (q : string) (w : world) : Prop :=
  match ports w !! q with
  | Some p =>
      match first_answer p with
      | inl (kind, _) => kind <> "OK"
      | inr _ => True
      end
  | None => True
  end.

(** The endpoint [ser] answers the envelope with OK. *)
Definition accepts_handshake (ser : string) (w : world) : Prop :=
  exists p msg, ports w !! ser = Some p /\ first_answer p = inl ("OK", msg).

(** The candidate [ser] was tried between [w] and [w'] and taken: it was
    opened and sent the envelope [data], its first answer was OK, and it is
    open. *)
Definition taken (data ser : string) (w w' : world) : Prop :=
  exists p msg,
    ports w !! ser = Some p
    /\ first_answer p = inl ("OK", msg)
    /\ tx <$> ports w' !! ser = Some (tx p ++ [Py.encode data])
    /\ is_open <$> ports w' !! ser = Some true.

(** The texts printed with [end=""] on the console: the voltage readings *)
Definition inline_of (o : list out) : list string :=
  omap (fun e => match e with PrintInline s => Some s | _ => None end) o.

(** [firmware_check] behind [ser.close()]: what is done with the answer
    [(r, version)] of the device *)
Definition firmware_check_verdict (E : env) (ser r version : string)
    : M (bool * option string * option string) :=
  if String.eqb r "OK" then
    print ("Firmware version: " +:+ version);;
    let '(latest_version, url) := latest_firmware E in
    '(major, minor, patch) ← unpack3 (Py.split "." version);
    match latest_version with
    | None => raise AttributeError
    | Some latest_version =>
        '(major_l, minor_l, patch_l) ← unpack3 (Py.split "." latest_version);
        older ← (b ← int_lt major major_l;
                 if b : bool then ret true
                 else b ← int_lt minor minor_l;
                      if b : bool then ret true
                      else int_lt patch patch_l);
        if older : bool then
          print ("New version available: " +:+ latest_version);;
          ret (false, Some ser, url)
        else
          print "You have the latest version";;
          ret (true, None, None)
    end
  else print r;; ret (false, None, None).

(** [c] keeps [P] true of the host, however it ends. *)
Definition preserves {A} (P : world -> Prop) (c : M A) : Prop :=
  forall w, P w -> outcome (c w) (fun _ w' => P w') (fun _ w' => P w').

(** The endpoint behind [ser] and the file [path] exist. *)
Definition present (ser path : string) (w : world) : Prop :=
  is_Some (ports w !! ser) /\ is_Some (fs w !! path).

(** The name of the file that [read_chip] writes: the one given, or the
    name of the chip in the database with .bin behind it *)
Definition output_path (data : eprom_data) (output_file : option string) : string :=
  match output_file with
  | Some f => if String.eqb f "" then name data +:+ ".bin" else f
  | None => name data +:+ ".bin"
  end.

(** A line of the device that holds WARN: or ERROR: and no OK: *)
Definition refuses (e : rx_event) : Prop :=
  exists dt bs res, e = Rx dt bs /\ read_filterd_bytes bs = Some res /\
    ((exists j, occurs "WARN:" res j) \/ (exists j, occurs "ERROR:" res j)) /\
    forall j, ~ occurs "OK:" res j.

(** A line of the device that holds WARN: and no OK: *)
Definition says_WARN (e : rx_event) : Prop :=
  exists dt bs res, e = Rx dt bs /\ read_filterd_bytes bs = Some res /\
    (exists j, occurs "WARN:" res j) /\ forall j, ~ occurs "OK:" res j.

(** A line of the device that holds ERROR: and neither OK: nor WARN: *)
Definition says_ERROR (e : rx_event) : Prop :=
  exists dt bs res, e = Rx dt bs /\ read_filterd_bytes bs = Some res /\
    (exists j, occurs "ERROR:" res j) /\
    forall T, T ∈ ["OK"; "WARN"] -> forall j, ~ occurs (T +:+ ":") res j.

(** Every percentage on the console lies in 0..100. *)
Definition percentages_in_range (w : world) : Prop :=
  Forall (fun x => 0 <= x <= 100) (progress_of (stdout w)).

(** The progress lines on the console: percentage, first and last
    address *)
Definition progress_lines (o : list out) : list (Z * Z * Z) :=
  omap (fun e => match e with
                 | Progress _ p from_address to_address => Some (p, from_address, to_address)
                 | _ => None
                 end) o.

(** The progress line that [write_chip] prints behind the block that
    brings the count of bytes sent to [bytes_sent] *)
Definition write_progress (file_size bytes_sent : Z) : Z * Z * Z :=
  (default 0 (percent bytes_sent file_size), bytes_sent - 256, bytes_sent).

(** The progress lines of the blocks [bl], the count being at
    [bytes_sent] before them *)
Fixpoint write_progress_list (file_size bytes_sent : Z) (bl : list (list byte))
    : list (Z * Z * Z) :=
  match bl with
  | [] => []
  | b :: bl' =>
      write_progress file_size (bytes_sent + Z.of_nat (length b))
      :: write_progress_list file_size (bytes_sent + Z.of_nat (length b)) bl'
  end.

(** ** Devices, hosts and environments used as examples *)

(** A line as the device sends it, newline included *)
Definition line (s : string) : rx_event :=
  Rx 0 (Py.encode (s +:+ String "010" "")).

Definition closed_port (script : list rx_event) : serial_port :=
  {| rx := script; tx := []; is_open := false |}.

Definition open_port (script : list rx_event) : serial_port :=
  {| rx := script; tx := []; is_open := true |}.

(** The endpoint once the envelope has been sent and accepted *)
Definition handshaken (script : list rx_event) : serial_port :=
  {| rx := script; tx := [Py.encode "{}"]; is_open := true |}.

(** No chip database, no release feed, not verbose *)
Definition quiet : env :=
  {| verbose := false; json_dumps := fun _ => "{}"; get_eprom := fun _ => None;
     latest_firmware := (None, None) |}.

(** The same, verbose *)
Definition talkative : env :=
  {| verbose := true; json_dumps := fun _ => "{}"; get_eprom := fun _ => None;
     latest_firmware := (None, None) |}.

(** A release feed that announces [latest] *)
Definition release (latest : string) : env :=
  {| verbose := false; json_dumps := fun _ => "{}"; get_eprom := fun _ => None;
     latest_firmware := (Some latest, Some "firmware.hex") |}.

(** A chip database with one chip of [mem] bytes *)
Definition chips (mem : Z) : env :=
  {| verbose := false; json_dumps := fun _ => "{}";
     get_eprom := fun n =>
       if String.eqb n "27C256"
       then Some {| name := "27C256"; manufacturer_name := "ST"; verified := true;
                    memory_size := mem; params := ∅ |}
       else None;
     latest_firmware := (None, None) |}.

(** A host with the given endpoints and nothing else *)
Definition host (ps : gmap string serial_port) : world :=
  {| clock := 0; ports := ps; comports := []; config := ∅; config_file := None;
     stdout := []; fs := ∅; readonly := ∅; unreadable := ∅ |}.

(** A host with one programmer on COM1 that plays [script] *)
Definition bench (script : list rx_event) : world :=
  {| clock := 0; ports := {["COM1" := closed_port script]};
     comports := [{| device := "COM1"; manufacturer := Some "Arduino (www.arduino.cc)" |}];
     config := ∅; config_file := None; stdout := []; fs := ∅; readonly := ∅;
     unreadable := ∅ |}.

(** The bench with a file on disk *)
Definition bench_with_file (script : list rx_event) (path : string)
    (content : list byte) : world :=
  set_fs {[path := content]} (bench script).

(** Two candidate endpoints: the first answers the envelope with an error,
    the second accepts it. *)
Definition two_ports : world :=
  {| clock := 0;
     ports := {["COM1" := closed_port [line "ERROR: busy"];
                "COM2" := closed_port [line "OK: ready"]]};
     comports := [{| device := "COM1"; manufacturer := Some "Arduino (www.arduino.cc)" |};
                  {| device := "COM2"; manufacturer := Some "FTDI" |}];
     config := ∅; config_file := None; stdout := []; fs := ∅; readonly := ∅;
     unreadable := ∅ |}.

Definition chatty_port : serial_port :=
  open_port [Rx 4 (Py.encode "boot"); Rx 4 (Py.encode "....");
             Rx 3 [x0a]; Rx 3 [x0d]; line "OK: late"].

Definition informing_port : serial_port :=
  open_port [line "INFO: erase done"; line "OK: ready"].

(** A file of 600 bytes for a chip of 512: three blocks, of which two are
    sent. *)
Definition rom : list byte := replicate 600 xff.

(** A chip of 512 bytes read in two full blocks *)
Definition two_blocks : list rx_event :=
  [line "DATA:"; Rx 0 (replicate 256 xff); line "DATA:"; Rx 0 (replicate 256 xff);
   line "OK:"].

(** The first element of the triple that [firmware_check] returns, with a
    device that reports [installed] *)
Definition is_latest (installed latest : string) : option bool :=
  match firmware_check (release latest)
          (bench [line "OK:"; line ("OK:" +:+ installed)]) with
  | Ret (latest, _, _) _ => Some latest
  | _ => None
  end.

(** A line with bytes outside the printable range in it: NUL O 0xFF K : BEL 1 LF *)
Definition noisy_port : serial_port :=
  open_port [Rx 1 [x00; x4f; xff; x4b; x3a; x07; x31; x0a]].

(** Three candidate endpoints: the first answers the envelope with an
    error, the second accepts it, the third is never reached. *)
Definition three_ports : world :=
  {| clock := 0;
     ports := {["COM1" := closed_port [line "ERROR: busy"];
                "COM2" := closed_port [line "OK: ready"];
                "COM3" := closed_port [line "OK: ready"]]};
     comports := [{| device := "COM1"; manufacturer := Some "Arduino (www.arduino.cc)" |};
                  {| device := "COM2"; manufacturer := Some "FTDI" |};
                  {| device := "COM3"; manufacturer := Some "Arduino LLC" |}];
     config := ∅; config_file := None; stdout := []; fs := ∅; readonly := ∅;
     unreadable := ∅ |}.

(** The bench once the handshake is done, the programmer still holding
    [script] *)
Definition bench_found (script : list rx_event) : world :=
  {| clock := 2; ports := {["COM1" := handshaken script]};
     comports := [{| device := "COM1"; manufacturer := Some "Arduino (www.arduino.cc)" |}];
     config := {["port" := "COM1"]}; config_file := Some {["port" := "COM1"]};
     stdout := []; fs := ∅; readonly := ∅; unreadable := ∅ |}.

(** An environment whose release feed is the answer [r] of the request *)
Definition fed_by (r : Release.response) : env :=
  {| verbose := false; json_dumps := fun _ => "{}"; get_eprom := fun _ => None;
     latest_firmware := Release.latest_firmware r |}.

(** A release that carries sources only *)
Definition no_firmware_release : Release.response :=
  {| Release.status_code := 200; Release.tag_name := "1.2.0";
     Release.assets := [{| Release.asset_name := "source.zip";
                           Release.browser_download_url := "https://example.org/source.zip" |}] |}.

(** An installer that only says what it was given *)
Definition told_installer (url avrdude_path port : option string) : M unit :=
  print ("install " +:+ str_of url +:+ " on " +:+ str_of port).

(** * Facts *)

(** ** Facts about the Python primitives *)

Section PyFacts.

Local Open Scope nat_scope.

Lemma str_app_nil_l (s : string) : "" +:+ s = s.
Proof. reflexivity. Qed.

Lemma str_app_cons (c : ascii) (s t : string) : String c s +:+ t = String c (s +:+ t).
Proof. reflexivity. Qed.

Lemma str_app_nil_r (s : string) : s +:+ "" = s.
Proof. induction s as [|c s IH]; [done|]. by rewrite str_app_cons, IH. Qed.

Lemma str_app_assoc (s t u : string) : (s +:+ t) +:+ u = s +:+ t +:+ u.
Proof. induction s as [|c s IH]; [done|]. by rewrite !str_app_cons, IH. Qed.

Lemma startswith_iff (s sub : string) :
  Py.startswith s sub = true <-> exists post, s = sub +:+ post.
Proof.
  revert s. induction sub as [|a sub IH]; intros s; simpl.
  - split; [by exists s|done].
  - destruct s as [|b s].
    + split; [done|]. by intros [post ?].
    + destruct (Ascii.eqb_spec a b) as [->|Hne].
      * rewrite IH. split; intros [post Hp]; exists post.
        -- by rewrite str_app_cons, Hp.
        -- rewrite str_app_cons in Hp. by injection Hp.
      * split; [done|]. intros [post Hp]. rewrite str_app_cons in Hp.
        injection Hp as ? ?. by subst.
Qed.

Lemma drop_app (pre s : string) : Py.drop (String.length pre) (pre +:+ s) = s.
Proof. induction pre as [|c pre IH]; [by destruct s|]. apply IH. Qed.

Lemma drop_0 (s : string) : Py.drop 0 s = s.
Proof. by destruct s. Qed.

Lemma drop_drop (n m : nat) (s : string) : Py.drop n (Py.drop m s) = Py.drop (m + n) s.
Proof.
  revert s. induction m as [|m IH]; intros s; [by rewrite drop_0|].
  destruct s as [|c s]; simpl; [by destruct n|]. apply IH.
Qed.

Lemma occurs_0 (sub s : string) : occurs sub s 0 <-> Py.startswith s sub = true.
Proof.
  rewrite startswith_iff. split.
  - intros ([|? ?] & post & -> & Hl); [eauto|done].
  - intros [post ->]. by exists "", post.
Qed.

Lemma occurs_S (sub : string) (c : ascii) (s : string) (i : nat) :
  occurs sub (String c s) (S i) <-> occurs sub s i.
Proof.
  split.
  - intros ([|a pre] & post & Hs & Hl); [done|].
    rewrite str_app_cons in Hs. injection Hs as -> ->. injection Hl as Hl.
    by exists pre, post.
  - intros (pre & post & -> & Hl). exists (String c pre), post.
    split; [done|]. simpl. by rewrite Hl.
Qed.

Lemma occurs_empty (sub : string) (i : nat) : occurs sub "" (S i) -> False.
Proof. by intros ([|a pre] & post & Hs & Hl). Qed.

Lemma occurs_drop (sub s : string) (i : nat) :
  occurs sub s i -> Py.startswith (Py.drop i s) sub = true.
Proof.
  intros (pre & post & -> & <-). rewrite drop_app.
  apply startswith_iff. eauto.
Qed.

Lemma occurs_post (sub s pre post : string) :
  s = pre +:+ sub +:+ post ->
  Py.drop (String.length pre + String.length sub) s = post.
Proof.
  intros ->. rewrite <- drop_drop, drop_app.
  by rewrite drop_app.
Qed.

Lemma contains_iff (sub s : string) :
  Py.contains sub s = true <-> exists i, occurs sub s i.
Proof.
  induction s as [|c s IH]; simpl.
  - rewrite orb_false_r, <- occurs_0. split; [eauto|].
    intros [[|i] H]; [done|]. by apply occurs_empty in H.
  - rewrite orb_true_iff, IH, <- occurs_0. split.
    + intros [H|[i H]]; [eauto|]. exists (S i). by apply occurs_S.
    + intros [[|i] H]; [by left|]. right. exists i. by apply occurs_S in H.
Qed.

Lemma contains_false (sub s : string) :
  Py.contains sub s = false <-> forall i, ~ occurs sub s i.
Proof.
  rewrite <- not_true_iff_false, contains_iff. split.
  - intros H i Hi. apply H. eauto.
  - intros H [i Hi]. by apply (H i).
Qed.

(** [rfind] answers the last occurrence, or [-1] when there is none. *)
Lemma rfind_spec (s sub : string) :
  (Py.rfind s sub = (-1)%Z /\ forall i, ~ occurs sub s i) \/
  (exists i, Py.rfind s sub = Z.of_nat i /\ last_occurrence sub s i).
Proof.
  induction s as [|c s IH]; simpl.
  - destruct (Py.startswith "" sub) eqn:H0.
    + right. exists 0. split; [done|]. split; [by apply occurs_0|].
      intros [|j] Hj; [done|]. by apply occurs_empty in Hj.
    + left. split; [done|]. intros [|i] Hi.
      * apply occurs_0 in Hi. congruence.
      * by apply occurs_empty in Hi.
  - destruct IH as [[-> Hno]|(i & -> & Hi & Hlast)].
    + simpl. destruct (Py.startswith (String c s) sub) eqn:H0.
      * right. exists 0. split; [done|]. split; [by apply occurs_0|].
        intros [|j] Hj; [done|]. apply occurs_S in Hj. by apply Hno in Hj.
      * left. split; [done|]. intros [|j] Hj.
        -- apply occurs_0 in Hj. congruence.
        -- apply occurs_S in Hj. by apply Hno in Hj.
    + right. exists (S i).
      destruct (Z.leb_spec 0 (Z.of_nat i)); [|lia].
      split; [lia|]. split; [by apply occurs_S|].
      intros [|j] Hj; [lia|]. apply occurs_S in Hj. apply Hlast in Hj. lia.
Qed.

Lemma rfind_last (s sub : string) (i : nat) :
  last_occurrence sub s i -> Py.rfind s sub = Z.of_nat i.
Proof.
  intros [Hi Hlast]. destruct (rfind_spec s sub) as [[_ Hno]|(k & -> & Hk & Hklast)].
  - by apply Hno in Hi.
  - apply Hlast in Hk. apply Hklast in Hi. f_equal. lia.
Qed.

Lemma slice_from_nat (s : string) (i : nat) :
  Py.slice_from s (Z.of_nat i) = Py.drop i s.
Proof.
  unfold Py.slice_from. destruct (Z.leb_spec 0 (Z.of_nat i)); [|lia].
  by rewrite Nat2Z.id.
Qed.

(** The text that the wait loop cuts out behind the last tag *)
Lemma cut_after_last (tag res pre post : string) :
  res = pre +:+ tag +:+ post ->
  (forall j, occurs tag res j -> j <= String.length pre) ->
  Py.slice_from (Py.slice_from res (Py.rfind res tag))
    (Z.of_nat (String.length tag)) = post.
Proof.
  intros Hres Hlast.
  rewrite (rfind_last res tag (String.length pre)).
  - rewrite !slice_from_nat, drop_drop. by apply occurs_post.
  - split; [|done]. by exists pre, post.
Qed.

End PyFacts.

(** ** The wait loop, line by line *)

Lemma read_filterd_bytes_len (bs : list byte) (res : string) :
  read_filterd_bytes bs = Some res -> (0 <? Py.len res) = true.
Proof.
  unfold read_filterd_bytes. destruct (List.filter printable bs); [done|].
  intros [= <-]. reflexivity.
Qed.

Lemma wait_for_response_eq (E : env) (ser : string) (w : world) (p : serial_port) :
  ports w !! ser = Some p -> is_open p = true ->
  wait_for_response E ser w =
  let r := wait_loop (verbose E) (clock w) (clock w) (stdout w) (rx p) in
  match answer r with
  | inl t => Ret t (waited_world ser p r w)
  | inr e => Raise e (waited_world ser p r w)
  end.
Proof.
  intros Hp Ho. unfold wait_for_response, time_time, mbind, M_bind, bind, the_port.
  rewrite Hp, Ho. simpl.
  by destruct (answer _).
Qed.

Section WaitLine.

Context (v : bool) (timeout now : N) (o : list out) (dt : N) (bs : list byte)
  (rest : list rx_event) (res : string).
Hypothesis Hres : read_filterd_bytes bs = Some res.

Lemma wait_loop_OK :
  Py.contains "OK:" res = true ->
  wait_loop v timeout now o (Rx dt bs :: rest) =
  tagged v (now + dt) o rest res "OK" "OK:" 3.
Proof.
  intros H1. simpl. by rewrite Hres, (read_filterd_bytes_len _ _ Hres), H1.
Qed.

Lemma wait_loop_WARN :
  Py.contains "OK:" res = false -> Py.contains "WARN:" res = true ->
  wait_loop v timeout now o (Rx dt bs :: rest) =
  tagged v (now + dt) o rest res "WARN" "WARN:" 5.
Proof.
  intros H1 H2. simpl. by rewrite Hres, (read_filterd_bytes_len _ _ Hres), H1, H2.
Qed.

Lemma wait_loop_ERROR :
  Py.contains "OK:" res = false -> Py.contains "WARN:" res = false ->
  Py.contains "ERROR:" res = true ->
  wait_loop v timeout now o (Rx dt bs :: rest) =
  tagged v (now + dt) o rest res "ERROR" "ERROR:" 6.
Proof.
  intros H1 H2 H3. simpl.
  by rewrite Hres, (read_filterd_bytes_len _ _ Hres), H1, H2, H3.
Qed.

Lemma wait_loop_DATA :
  Py.contains "OK:" res = false -> Py.contains "WARN:" res = false ->
  Py.contains "ERROR:" res = false -> Py.contains "DATA:" res = true ->
  wait_loop v timeout now o (Rx dt bs :: rest) =
  tagged v (now + dt) o rest res "DATA" "DATA:" 5.
Proof.
  intros H1 H2 H3 H4. simpl.
  by rewrite Hres, (read_filterd_bytes_len _ _ Hres), H1, H2, H3, H4.
Qed.

(** A line with none of the four restarts the window and the wait goes
    on; an INFO: line is shown first. *)
Lemma wait_loop_skip :
  Py.contains "OK:" res = false -> Py.contains "WARN:" res = false ->
  Py.contains "ERROR:" res = false -> Py.contains "DATA:" res = false ->
  wait_loop v timeout now o (Rx dt bs :: rest) =
  wait_loop v (now + dt) (now + dt)
    (if Py.contains "INFO:" res
     then write_feedback v (Py.slice_from res (Py.rfind res "INFO:")) o
     else o) rest.
Proof.
  intros H1 H2 H3 H4. simpl.
  rewrite Hres, (read_filterd_bytes_len _ _ Hres), H1, H2, H3, H4.
  destruct (N.ltb_spec (now + dt + 5) (now + dt)); [lia|done].
Qed.

End WaitLine.

(** A read that filters to nothing leaves the window as it is. *)
Lemma wait_loop_blank (v : bool) (timeout now : N) (o : list out) (dt : N)
    (bs : list byte) (rest : list rx_event) :
  read_filterd_bytes bs = None ->
  wait_loop v timeout now o (Rx dt bs :: rest) =
  if (timeout + 5 <? now + dt)%N then
    {| answer := inl ("ERROR", "Timeout"); w_clock := (now + dt)%N; w_rx := rest;
       w_out := o ++ [Print " --  Timeout"] |}
  else wait_loop v timeout (now + dt) o rest.
Proof. intros H. simpl. by rewrite H. Qed.

(** ** The tag that is found is the last one of the line *)

Lemma rfind_is_last (s sub : string) (i : nat) :
  Py.rfind s sub = Z.of_nat i -> last_occurrence sub s i.
Proof.
  intros H. destruct (rfind_spec s sub) as [[H1 _]|(k & Hk & Hl)]; [lia|].
  assert (k = i) as -> by lia. done.
Qed.

(** C8: a line that, once filtered, holds occurrences of exactly one of
    the tags OK:, WARN:, ERROR:, DATA: (after any text, any number of
    times) makes [wait_for_response] return that kind with the stripped
    text that follows the last occurrence of the tag. *)
Theorem wait_for_response_last_tag (E : env) (ser : string) (w : world)
    (p : serial_port) (dt : N) (bs : list byte) (rest : list rx_event)
    (res T pre M : string) :
  ports w !! ser = Some p -> is_open p = true ->
  rx p = Rx dt bs :: rest ->
  read_filterd_bytes bs = Some res ->
  T ∈ tags ->
  res = pre +:+ (T +:+ ":") +:+ M ->
  (forall j, occurs (T +:+ ":") res j -> (j <= String.length pre)%nat) ->
  (forall T', T' ∈ tags -> T' ≠ T -> forall j, ~ occurs (T' +:+ ":") res j) ->
  exists w', wait_for_response E ser w = Ret (T, Py.strip M) w'
    /\ ports w' !! ser = Some (set_rx rest p)
    /\ clock w' = (clock w + dt)%N.
Proof.
  intros Hp Ho Hrx Hres HT Hdec Hlast Hothers.
  assert (Hc : Py.contains (T +:+ ":") res = true).
  { apply contains_iff. exists (String.length pre), pre, M. done. }
  assert (Hno : forall T', T' ∈ tags -> T' ≠ T -> Py.contains (T' +:+ ":") res = false).
  { intros T' H1 H2. apply contains_false. by apply Hothers. }
  pose proof (cut_after_last _ _ _ _ Hdec Hlast) as Hcut.
  rewrite (wait_for_response_eq E ser w p Hp Ho), Hrx.
  unfold tags in *.
  set_unfold in HT. destruct HT as [->|[->|[->|[->|[]]]]].
  - rewrite (wait_loop_OK _ _ _ _ _ _ _ _ Hres Hc). cbn -[Py.rfind Py.slice_from Py.strip].
    eexists. split; [by rewrite <- Hcut|]. split; [|done].
    simpl. by rewrite lookup_insert_eq.
  - rewrite (wait_loop_WARN _ _ _ _ _ _ _ _ Hres (Hno "OK" ltac:(set_solver) ltac:(done)) Hc).
    cbn -[Py.rfind Py.slice_from Py.strip].
    eexists. split; [by rewrite <- Hcut|]. split; [|done].
    simpl. by rewrite lookup_insert_eq.
  - rewrite (wait_loop_ERROR _ _ _ _ _ _ _ _ Hres (Hno "OK" ltac:(set_solver) ltac:(done))
               (Hno "WARN" ltac:(set_solver) ltac:(done)) Hc).
    cbn -[Py.rfind Py.slice_from Py.strip].
    eexists. split; [by rewrite <- Hcut|]. split; [|done].
    simpl. by rewrite lookup_insert_eq.
  - rewrite (wait_loop_DATA _ _ _ _ _ _ _ _ Hres (Hno "OK" ltac:(set_solver) ltac:(done))
               (Hno "WARN" ltac:(set_solver) ltac:(done))
               (Hno "ERROR" ltac:(set_solver) ltac:(done)) Hc).
    cbn -[Py.rfind Py.slice_from Py.strip].
    eexists. split; [by rewrite <- Hcut|]. split; [|done].
    simpl. by rewrite lookup_insert_eq.
Qed.

Lemma wait_for_response_last_tag_witness :
  exists w',
    wait_for_response quiet "COM1"
      (host {["COM1" := open_port [line "x WARN: old WARN: low  "; line "OK:next"]]})
    = Ret ("WARN", "low") w'
    /\ ports w' !! "COM1" = Some (open_port [line "OK:next"])
    /\ clock w' = 0%N.
Proof.
  apply (wait_for_response_last_tag quiet "COM1"
           (host {["COM1" := open_port [line "x WARN: old WARN: low  "; line "OK:next"]]})
           (open_port [line "x WARN: old WARN: low  "; line "OK:next"])
           0 (Py.encode "x WARN: old WARN: low  
") [line "OK:next"]
           "x WARN: old WARN: low  " "WARN" "x WARN: old " " low  ").
  - reflexivity.
  - reflexivity.
  - reflexivity.
  - reflexivity.
  - set_solver.
  - reflexivity.
  - apply (rfind_is_last "x WARN: old WARN: low  " "WARN:" 12). reflexivity.
  - intros T' HT' Hne. apply contains_false.
    set_unfold in HT'. destruct HT' as [->|[->|[->|[->|[]]]]]; done.
Defined.

(** ** The order in which the tags are looked for *)

Lemma cut_at (res tag : string) (k : nat) :
  Py.rfind res tag = Z.of_nat k ->
  Py.slice_from (Py.slice_from res (Py.rfind res tag)) (Z.of_nat (String.length tag))
  = Py.drop (k + String.length tag) res.
Proof. intros ->. by rewrite !slice_from_nat, drop_drop. Qed.

Ltac norm_tags :=
  change ("OK" +:+ ":") with "OK:" in *;
  change ("WARN" +:+ ":") with "WARN:" in *;
  change ("ERROR" +:+ ":") with "ERROR:" in *;
  change ("DATA" +:+ ":") with "DATA:" in *.

(** C10: when a filtered line holds several distinct tags, the kind
    returned is the first of OK, WARN, ERROR, DATA whose tag occurs in the
    line, whatever the positions of the tags in the line; the message is cut
    behind the last occurrence of that tag. *)
Theorem wait_for_response_priority (E : env) (ser : string) (w : world)
    (p : serial_port) (dt : N) (bs : list byte) (rest : list rx_event)
    (res T : string) (i : nat) :
  ports w !! ser = Some p -> is_open p = true ->
  rx p = Rx dt bs :: rest ->
  read_filterd_bytes bs = Some res ->
  tags !! i = Some T ->
  (exists j, occurs (T +:+ ":") res j) ->
  (forall i' T', (i' < i)%nat -> tags !! i' = Some T' ->
                 forall j, ~ occurs (T' +:+ ":") res j) ->
  exists k w',
    last_occurrence (T +:+ ":") res k
    /\ wait_for_response E ser w =
       Ret (T, Py.strip (Py.drop (k + String.length (T +:+ ":")) res)) w'.
Proof.
  intros Hp Ho Hrx Hres HT Hocc Hbefore.
  apply contains_iff in Hocc.
  assert (Hno : forall i' T', (i' < i)%nat -> tags !! i' = Some T' ->
                              Py.contains (T' +:+ ":") res = false).
  { intros i' T' H1 H2. apply contains_false. by apply (Hbefore i'). }
  destruct (rfind_spec res (T +:+ ":")) as [[_ Hnone]|(k & Hk & Hlast)].
  { apply contains_iff in Hocc as [j Hj]. by apply Hnone in Hj. }
  exists k. rewrite (wait_for_response_eq E ser w p Hp Ho), Hrx.
  destruct i as [|[|[|[|i]]]]; cbn in HT; simplify_eq; norm_tags.
  - rewrite (wait_loop_OK _ _ _ _ _ _ _ _ Hres Hocc).
    cbn -[Py.rfind Py.slice_from Py.strip]. eexists. split; [done|].
    apply (f_equal (fun m => Ret (_, Py.strip m) _)). exact (cut_at res _ k Hk).
  - rewrite (wait_loop_WARN _ _ _ _ _ _ _ _ Hres (Hno 0%nat _ ltac:(lia) eq_refl) Hocc).
    cbn -[Py.rfind Py.slice_from Py.strip]. eexists. split; [done|].
    apply (f_equal (fun m => Ret (_, Py.strip m) _)). exact (cut_at res _ k Hk).
  - rewrite (wait_loop_ERROR _ _ _ _ _ _ _ _ Hres (Hno 0%nat _ ltac:(lia) eq_refl)
               (Hno 1%nat _ ltac:(lia) eq_refl) Hocc).
    cbn -[Py.rfind Py.slice_from Py.strip]. eexists. split; [done|].
    apply (f_equal (fun m => Ret (_, Py.strip m) _)). exact (cut_at res _ k Hk).
  - rewrite (wait_loop_DATA _ _ _ _ _ _ _ _ Hres (Hno 0%nat _ ltac:(lia) eq_refl)
               (Hno 1%nat _ ltac:(lia) eq_refl) (Hno 2%nat _ ltac:(lia) eq_refl) Hocc).
    cbn -[Py.rfind Py.slice_from Py.strip]. eexists. split; [done|].
    apply (f_equal (fun m => Ret (_, Py.strip m) _)). exact (cut_at res _ k Hk).
Qed.

(** A line with DATA: first and OK: behind it, and one the other way
    round: both are OK events. *)
Lemma wait_for_response_priority_witness :
  exists k w',
    last_occurrence "OK:" "OK: 1 DATA: 2" k
    /\ wait_for_response quiet "COM1" (host {["COM1" := open_port [line "OK: 1 DATA: 2"]]})
       = Ret ("OK", Py.strip (Py.drop (k + 3) "OK: 1 DATA: 2")) w'.
Proof.
  apply (wait_for_response_priority quiet "COM1"
           (host {["COM1" := open_port [line "OK: 1 DATA: 2"]]})
           (open_port [line "OK: 1 DATA: 2"])
           0 (Py.encode ("OK: 1 DATA: 2" +:+ String "010" "")) []
           "OK: 1 DATA: 2" "OK" 0%nat).
  - reflexivity.
  - reflexivity.
  - reflexivity.
  - reflexivity.
  - reflexivity.
  - exists 0%nat. apply occurs_0. reflexivity.
  - intros i' T' Hlt. lia.
Defined.

Example priority_DATA_then_OK :
  answer (wait_loop false 0 0 [] [line "DATA: 2 OK: 1"]) = inl ("OK", "1").
Proof. reflexivity. Qed.

Example priority_OK_then_DATA :
  answer (wait_loop false 0 0 [] [line "OK: 1 DATA: 2"]) = inl ("OK", "1 DATA: 2").
Proof. reflexivity. Qed.

Example priority_ERROR_then_WARN :
  answer (wait_loop false 0 0 [] [line "ERROR: 1 WARN: 2 INFO: 3"]) = inl ("WARN", "2 INFO: 3").
Proof. reflexivity. Qed.

(** ** Time: what restarts the window and what does not *)

Lemma silence_spec (fuel : nat) (timeout now : N) :
  (now <= timeout + 5)%N -> (N.to_nat (timeout + 5 - now) <= fuel)%nat ->
  silence fuel timeout now = (timeout + 6)%N.
Proof.
  revert now. induction fuel as [|fuel IH]; intros now Hnow Hfuel; simpl.
  - destruct (N.ltb_spec (timeout + 5) (now + 1)); lia.
  - destruct (N.ltb_spec (timeout + 5) (now + 1)); [lia|].
    apply IH; lia.
Qed.

Lemma wait_loop_blanks (v : bool) (timeout : N) (o : list out)
    (blanks rest : list rx_event) (now : N) :
  Forall blank blanks -> (now <= timeout + 5)%N ->
  (timeout + 5 < now + elapsed blanks)%N \/ rest = [] ->
  let r := wait_loop v timeout now o (blanks ++ rest) in
  answer r = inl ("ERROR", "Timeout")
  /\ (timeout + 5 < w_clock r)%N
  /\ w_out r = o ++ [Print " --  Timeout"].
Proof.
  intros Hb. revert now. induction Hb as [|e blanks (dt & bs & -> & He) _ IH];
    intros now Hnow Hor.
  - destruct Hor as [Hlt| ->]; [simpl in Hlt; lia|].
    simpl. rewrite silence_spec; [|done|lia]. repeat split. lia.
  - change ((Rx dt bs :: blanks) ++ rest) with (Rx dt bs :: (blanks ++ rest)).
    rewrite wait_loop_blank by done.
    destruct (N.ltb_spec (timeout + 5) (now + dt)).
    + by repeat split.
    + apply IH; [done|]. destruct Hor as [Hlt| ->]; [left|by right].
      simpl in Hlt. lia.
Qed.

Lemma untagged_contains (res T : string) :
  (forall T, T ∈ tags ++ ["INFO"] -> forall j, ~ occurs (T +:+ ":") res j) ->
  T ∈ tags ++ ["INFO"] -> Py.contains (T +:+ ":") res = false.
Proof. intros H HT. apply contains_false. by apply H. Qed.

Lemma wait_loop_chatter (v : bool) (o : list out) (chatter rest : list rx_event)
    (timeout now : N) :
  Forall untagged chatter -> chatter <> [] ->
  wait_loop v timeout now o (chatter ++ rest) =
  wait_loop v (now + elapsed chatter) (now + elapsed chatter) o rest.
Proof.
  intros Hc. revert timeout now.
  induction Hc as [|e chatter (dt & bs & res & -> & He & Hno) Hc IH];
    intros timeout now Hne; [done|].
  change ((Rx dt bs :: chatter) ++ rest) with (Rx dt bs :: (chatter ++ rest)).
  rewrite (wait_loop_skip _ _ _ _ _ _ _ _ He
             (untagged_contains res "OK" Hno ltac:(set_solver))
             (untagged_contains res "WARN" Hno ltac:(set_solver))
             (untagged_contains res "ERROR" Hno ltac:(set_solver))
             (untagged_contains res "DATA" Hno ltac:(set_solver))).
  pose proof (untagged_contains res "INFO" Hno ltac:(set_solver)) as Hinfo.
  change ("INFO" +:+ ":") with "INFO:" in Hinfo. rewrite Hinfo.
  destruct chatter as [|e' chatter'].
  - simpl. by rewrite N.add_0_r.
  - rewrite IH by done. simpl. by rewrite !N.add_assoc.
Qed.

(** What can end the wait *)
Lemma wait_loop_ends (v : bool) (script : list rx_event) (timeout now : N) (o : list out) :
  match answer (wait_loop v timeout now o script) with
  | inl (kind, msg) =>
      (kind, msg) = ("ERROR", "Timeout") \/
      exists dt bs res, Rx dt bs ∈ script /\ read_filterd_bytes bs = Some res /\
        kind ∈ tags /\ Py.contains (kind +:+ ":") res = true
  | inr e => e = SerialException /\ RxError ∈ script
  end.
Proof.
  revert timeout now o. induction script as [|[dt bs|] script IH]; intros timeout now o.
  - simpl. by left.
  - assert (Hcheck : forall t o', 
      match answer (if (t + 5 <? now + dt)%N
                    then {| answer := inl ("ERROR", "Timeout"); w_clock := (now + dt)%N;
                            w_rx := script; w_out := o' ++ [Print " --  Timeout"] |}
                    else wait_loop v t (now + dt) o' script) with
      | inl (kind, msg) =>
          (kind, msg) = ("ERROR", "Timeout") \/
          exists dt0 bs0 res, Rx dt0 bs0 ∈ Rx dt bs :: script /\
            read_filterd_bytes bs0 = Some res /\
            kind ∈ tags /\ Py.contains (kind +:+ ":") res = true
      | inr e => e = SerialException /\ RxError ∈ Rx dt bs :: script
      end).
    { intros t o'. destruct (t + 5 <? now + dt)%N; [by left|].
      specialize (IH t (now + dt)%N o').
      destruct (answer _) as [[kind msg]|e].
      - destruct IH as [?|(dt0 & bs0 & res & ? & ?)]; [by left|right].
        exists dt0, bs0, res. split; [by right|done].
      - destruct IH as [-> ?]. split; [done|by right]. }
    simpl. destruct (read_filterd_bytes bs) as [res|] eqn:Hres; [|apply Hcheck].
    destruct (0 <? Py.len res); [|apply Hcheck].
    destruct (Py.contains "OK:" res) eqn:H1.
    { right. exists dt, bs, res. repeat split; [left|done|set_solver|done]. }
    destruct (Py.contains "WARN:" res) eqn:H2.
    { right. exists dt, bs, res. repeat split; [left|done|set_solver|done]. }
    destruct (Py.contains "ERROR:" res) eqn:H3.
    { right. exists dt, bs, res. repeat split; [left|done|set_solver|done]. }
    destruct (Py.contains "DATA:" res) eqn:H4.
    { right. exists dt, bs, res. repeat split; [left|done|set_solver|done]. }
    apply Hcheck.
  - simpl. split; [done|left].
Qed.

Lemma wait_for_response_resume (E : env) (ser : string) (w : world) (p : serial_port)
    (rest : list rx_event) (c : N) (o : list out) :
  ports w !! ser = Some p -> is_open p = true ->
  wait_loop (verbose E) (clock w) (clock w) (stdout w) (rx p) =
  wait_loop (verbose E) c c o rest ->
  wait_for_response E ser w =
  wait_for_response E ser
    (set_ports (<[ser := set_rx rest p]> (ports w)) (set_stdout o (set_clock c w))).
Proof.
  intros Hp Ho Heq.
  rewrite (wait_for_response_eq E ser w p Hp Ho).
  rewrite (wait_for_response_eq E ser _ (set_rx rest p)); [|apply lookup_insert_eq|done].
  simpl. rewrite Heq. unfold waited_world. simpl. rewrite insert_insert_eq.
  by destruct (answer _).
Qed.

(** C2 (as the program has it): when nothing printable arrives within the
    window (reads that filter to nothing for more than 5 time units, or a
    device that has fallen silent), [wait_for_response] ends with the
    message "Timeout" under the kind ERROR, the kind of the errors the
    device reports; there is no TIMEOUT kind. *)
Theorem wait_for_response_timeout (E : env) (ser : string) (w : world)
    (p : serial_port) (blanks rest : list rx_event) :
  ports w !! ser = Some p -> is_open p = true ->
  rx p = blanks ++ rest ->
  Forall blank blanks ->
  (5 < elapsed blanks)%N \/ rest = [] ->
  exists w', wait_for_response E ser w = Ret ("ERROR", "Timeout") w'
    /\ (clock w + 5 < clock w')%N
    /\ stdout w' = stdout w ++ [Print " --  Timeout"].
Proof.
  intros Hp Ho Hrx Hb Hor.
  rewrite (wait_for_response_eq E ser w p Hp Ho), Hrx.
  destruct (wait_loop_blanks (verbose E) (clock w) (stdout w) blanks rest (clock w) Hb)
    as (Ha & Hc & Hout); [lia| |].
  { destruct Hor; [left; lia|by right]. }
  cbv zeta. rewrite Ha. eexists. split; [done|]. by split.
Qed.

Lemma wait_for_response_timeout_witness :
  exists w',
    wait_for_response quiet "COM1"
      (host {["COM1" := open_port [Rx 3 [x0a]; Rx 3 []; line "OK: late"]]})
    = Ret ("ERROR", "Timeout") w'
    /\ (0 + 5 < clock w')%N
    /\ stdout w' = [] ++ [Print " --  Timeout"].
Proof.
  apply (wait_for_response_timeout quiet "COM1"
           (host {["COM1" := open_port [Rx 3 [x0a]; Rx 3 []; line "OK: late"]]})
           (open_port [Rx 3 [x0a]; Rx 3 []; line "OK: late"])
           [Rx 3 [x0a]; Rx 3 []] [line "OK: late"]).
  - reflexivity.
  - reflexivity.
  - reflexivity.
  - repeat constructor; eexists _, _; split; reflexivity.
  - left. reflexivity.
Defined.

(** C2, as stated, fails: on a silent device the kind returned is ERROR,
    not TIMEOUT. *)
Lemma timeout_kind_is_ERROR :
  exists w',
    wait_for_response quiet "COM1" (host {["COM1" := open_port []]})
    = Ret ("ERROR", "Timeout") w'
    /\ "ERROR" <> "TIMEOUT".
Proof. eexists. split; [vm_compute; reflexivity|discriminate]. Qed.

(** C6 (as the program has it): the window restarts with every read that
    holds printable text and does not end the wait, tagged or not: after
    any run of untagged lines, however long it lasts, the call goes on as
    a call started at that moment.  Only reads that filter to nothing let
    the window run: they give the timeout more than 5 time units after the
    last printable line. *)
Theorem untagged_text_restarts_window (E : env) (ser : string) (w : world)
    (p : serial_port) (chatter blanks rest : list rx_event) :
  ports w !! ser = Some p -> is_open p = true ->
  rx p = chatter ++ blanks ++ rest ->
  Forall untagged chatter ->
  Forall blank blanks ->
  (5 < elapsed blanks)%N \/ rest = [] ->
  wait_for_response E ser w =
  wait_for_response E ser
    (set_ports (<[ser := set_rx (blanks ++ rest) p]> (ports w))
       (set_clock (clock w + elapsed chatter) w))
  /\ exists w', wait_for_response E ser w = Ret ("ERROR", "Timeout") w'
       /\ (clock w + elapsed chatter + 5 < clock w')%N.
Proof.
  intros Hp Ho Hrx Hc Hb Hor.
  assert (Heq : wait_loop (verbose E) (clock w) (clock w) (stdout w) (rx p) =
                wait_loop (verbose E) (clock w + elapsed chatter)
                  (clock w + elapsed chatter) (stdout w) (blanks ++ rest)).
  { rewrite Hrx. destruct chatter as [|e chatter].
    - simpl. by rewrite N.add_0_r.
    - by apply wait_loop_chatter. }
  split; [exact (wait_for_response_resume E ser w p _ _ _ Hp Ho Heq)|].
  rewrite (wait_for_response_eq E ser w p Hp Ho). cbv zeta. rewrite Heq.
  destruct (wait_loop_blanks (verbose E) (clock w + elapsed chatter) (stdout w)
              blanks rest (clock w + elapsed chatter) Hb)
    as (Ha & Hclock & _); [lia| |].
  { destruct Hor; [left; lia|by right]. }
  rewrite Ha. eexists. split; [reflexivity|]. exact Hclock.
Qed.

Lemma untagged_text_restarts_window_witness :
  wait_for_response quiet "COM1" (host {["COM1" := chatty_port]})
  = wait_for_response quiet "COM1"
      (set_ports (<["COM1" := set_rx ([Rx 3 [x0a]; Rx 3 [x0d]] ++ [line "OK: late"])
                                chatty_port]>
                    (ports (host {["COM1" := chatty_port]})))
         (set_clock (clock (host {["COM1" := chatty_port]})
                     + elapsed [Rx 4 (Py.encode "boot"); Rx 4 (Py.encode "....")])
            (host {["COM1" := chatty_port]})))
  /\ exists w',
       wait_for_response quiet "COM1" (host {["COM1" := chatty_port]})
       = Ret ("ERROR", "Timeout") w'
       /\ (clock (host {["COM1" := chatty_port]})
           + elapsed [Rx 4 (Py.encode "boot"); Rx 4 (Py.encode "....")] + 5 < clock w')%N.
Proof.
  apply (untagged_text_restarts_window quiet "COM1"
           (host {["COM1" := chatty_port]}) chatty_port
           [Rx 4 (Py.encode "boot"); Rx 4 (Py.encode "....")]
           [Rx 3 [x0a]; Rx 3 [x0d]] [line "OK: late"]).
  - reflexivity.
  - reflexivity.
  - reflexivity.
  - repeat constructor; eexists _, _, _; (split; [reflexivity|]); (split; [reflexivity|]);
      intros T HT; apply contains_false;
      set_unfold in HT; destruct HT as [->|[->|[->|[->|[->|[]]]]]]; reflexivity.
  - repeat constructor; eexists _, _; split; reflexivity.
  - left. reflexivity.
Defined.

(** C6, as stated, fails: ten untagged lines, one time unit apart, keep
    the wait alive; the OK: line behind them is returned at time 11, where
    the claim has a timeout 5 time units after the start. *)
Lemma untagged_stream_gives_no_timeout :
  exists w',
    wait_for_response quiet "COM1"
      (host {["COM1" := open_port (replicate 10 (Rx 1 (Py.encode "hello")) ++
                                   [Rx 1 (Py.encode "OK: done")])]})
    = Ret ("OK", "done") w'
    /\ clock w' = 11%N.
Proof. eexists. split; [vm_compute; reflexivity|reflexivity]. Qed.

(** A line with one of the four tags ends the wait, whatever the window *)
Lemma wait_loop_tag (v : bool) (timeout now : N) (o : list out) (dt : N)
    (bs : list byte) (rest : list rx_event) (res T : string) (i : nat) :
  read_filterd_bytes bs = Some res ->
  tags !! i = Some T ->
  (exists j, occurs (T +:+ ":") res j) ->
  (forall i' T', (i' < i)%nat -> tags !! i' = Some T' ->
                 forall j, ~ occurs (T' +:+ ":") res j) ->
  wait_loop v timeout now o (Rx dt bs :: rest) =
  tagged v (now + dt) o rest res T (T +:+ ":") (Z.of_nat (String.length (T +:+ ":"))).
Proof.
  intros Hres HT Hocc Hbefore.
  apply contains_iff in Hocc.
  assert (Hno : forall i' T', (i' < i)%nat -> tags !! i' = Some T' ->
                              Py.contains (T' +:+ ":") res = false).
  { intros i' T' H1 H2. apply contains_false. by apply (Hbefore i'). }
  destruct i as [|[|[|[|i]]]]; cbn in HT; simplify_eq; norm_tags.
  - exact (wait_loop_OK _ _ _ _ _ _ _ _ Hres Hocc).
  - exact (wait_loop_WARN _ _ _ _ _ _ _ _ Hres (Hno 0%nat _ ltac:(lia) eq_refl) Hocc).
  - exact (wait_loop_ERROR _ _ _ _ _ _ _ _ Hres (Hno 0%nat _ ltac:(lia) eq_refl)
             (Hno 1%nat _ ltac:(lia) eq_refl) Hocc).
  - exact (wait_loop_DATA _ _ _ _ _ _ _ _ Hres (Hno 0%nat _ ltac:(lia) eq_refl)
             (Hno 1%nat _ ltac:(lia) eq_refl) (Hno 2%nat _ ltac:(lia) eq_refl) Hocc).
Qed.

(** Lines with INFO: in front of a line with one of the four tags: each is
    shown and read over, and the tagged line ends the wait. *)
Lemma wait_loop_infos (v : bool) (infos : list rx_event) (texts : list string)
    (dt : N) (bs : list byte) (rest : list rx_event) (res T : string) (i : nat) :
  Forall2 says_INFO infos texts ->
  read_filterd_bytes bs = Some res ->
  tags !! i = Some T ->
  (exists j, occurs (T +:+ ":") res j) ->
  (forall i' T', (i' < i)%nat -> tags !! i' = Some T' ->
                 forall j, ~ occurs (T' +:+ ":") res j) ->
  forall (timeout now : N) (o : list out),
  wait_loop v timeout now o (infos ++ Rx dt bs :: rest) =
  tagged v (now + elapsed infos + dt) (o ++ (if v then Print <$> texts else []))
    rest res T (T +:+ ":") (Z.of_nat (String.length (T +:+ ":"))).
Proof.
  intros Hinfos Hres HT Hocc Hbefore.
  induction Hinfos as [|e text infos texts He _ IH]; intros timeout now o.
  - cbn [app elapsed foldr]. rewrite N.add_0_r.
    replace (o ++ (if v then Print <$> [] else [])) with o
      by (destruct v; by rewrite app_nil_r).
    by apply (wait_loop_tag v timeout now o dt bs rest res T i).
  - destruct He as (dt1 & bs1 & res1 & k1 & -> & Hres1 & Hk1 & -> & Hno).
    assert (Hc : forall T', T' ∈ tags -> Py.contains (T' +:+ ":") res1 = false).
    { intros T' HT'. apply contains_false. by apply Hno. }
    rewrite <- app_comm_cons.
    rewrite (wait_loop_skip _ _ _ _ _ _ _ _ Hres1
               (Hc "OK" ltac:(clear; set_solver)) (Hc "WARN" ltac:(clear; set_solver))
               (Hc "ERROR" ltac:(clear; set_solver)) (Hc "DATA" ltac:(clear; set_solver))).
    assert (Hi : Py.contains "INFO:" res1 = true).
    { apply contains_iff. exists k1. apply Hk1. }
    rewrite Hi, (rfind_last _ _ _ Hk1), slice_from_nat, IH.
    cbn [elapsed foldr]. fold (elapsed infos).
    replace (now + dt1 + elapsed infos + dt)%N with (now + (dt1 + elapsed infos) + dt)%N
      by lia.
    f_equal. unfold write_feedback. destruct v; [|done].
    by rewrite fmap_cons, <- (assoc_L (++)).
Qed.

(** C9: lines whose tag is INFO: do not end the wait: each is shown (in
    the verbose mode, from its last INFO: on) and the loop reads on, so
    that a tagged line behind them is read and answered, at the time the
    reads have taken together; and whatever the device sends, the call
    ends only with one of the kinds OK, WARN, ERROR, DATA, carried by a
    line with that tag, or with the timeout (ERROR, "Timeout") of the loop
    itself; a failing read raises. *)
Theorem info_does_not_end_the_wait (E : env) (ser : string) (w : world)
    (p : serial_port) (infos : list rx_event) (texts : list string) (dt : N)
    (bs : list byte) (rest : list rx_event) (res T : string) (i k : nat) :
  ports w !! ser = Some p -> is_open p = true ->
  rx p = infos ++ Rx dt bs :: rest ->
  Forall2 says_INFO infos texts ->
  read_filterd_bytes bs = Some res ->
  tags !! i = Some T ->
  last_occurrence (T +:+ ":") res k ->
  (forall i' T', (i' < i)%nat -> tags !! i' = Some T' ->
                 forall j, ~ occurs (T' +:+ ":") res j) ->
  (exists w',
     wait_for_response E ser w =
     Ret (T, Py.strip (Py.drop (k + String.length (T +:+ ":")) res)) w'
     /\ rx <$> ports w' !! ser = Some rest
     /\ clock w' = (clock w + elapsed infos + dt)%N
     /\ stdout w' =
        stdout w ++ (if verbose E then Print <$> (texts ++ [Py.drop k res]) else []))
  /\ forall ser0 w0,
       match wait_for_response E ser0 w0 with
       | Ret (kind, msg) _ =>
           (kind, msg) = ("ERROR", "Timeout") \/
           exists p0 dt0 bs0 res0,
             ports w0 !! ser0 = Some p0 /\ Rx dt0 bs0 ∈ rx p0 /\
             read_filterd_bytes bs0 = Some res0 /\
             kind ∈ tags /\ Py.contains (kind +:+ ":") res0 = true
       | Raise e _ => e = SerialException
       | Diverged => True
       end.
Proof.
  intros Hp Ho Hrx Hinfos Hres HT Hk Hbefore. split.
  - rewrite (wait_for_response_eq E ser w p Hp Ho), Hrx.
    rewrite (wait_loop_infos (verbose E) infos texts dt bs rest res T i Hinfos Hres HT);
      [|exists k; apply Hk|exact Hbefore].
    unfold tagged. cbn -[Py.rfind Py.slice_from Py.strip String.length].
    rewrite (cut_at res _ k (rfind_last _ _ _ Hk)).
    rewrite (rfind_last _ _ _ Hk), slice_from_nat.
    eexists. split; [reflexivity|]. cbn. rewrite lookup_insert_eq.
    split; [done|]. split; [done|].
    unfold write_feedback. destruct (verbose E); [|by rewrite app_nil_r].
    by rewrite fmap_app, (assoc_L (++)).
  - intros ser0 w0. unfold wait_for_response, time_time, mbind, M_bind, bind, the_port.
    destruct (ports w0 !! ser0) as [p0|] eqn:Hp0; [|done].
    destruct (is_open p0); [|done]. simpl.
    pose proof (wait_loop_ends (verbose E) (rx p0) (clock w0) (clock w0) (stdout w0)) as H.
    destruct (answer _) as [[kind msg]|e]; simpl.
    + destruct H as [?|(dt0 & bs0 & res0 & ?)]; [by left|right]. by exists p0, dt0, bs0, res0.
    + apply H.
Qed.

(** Two INFO: lines and an OK: line behind them, in the verbose mode *)
Lemma info_does_not_end_the_wait_witness :
  (exists w',
     wait_for_response talkative "COM1"
       (host {["COM1" := open_port [line "INFO: erase"; Rx 7 (Py.encode "x INFO: a INFO: b");
                                    Rx 2 (Py.encode "OK: ready"); line "OK: next"]]})
     = Ret ("OK", Py.strip (Py.drop (0 + String.length ("OK" +:+ ":")) "OK: ready")) w'
     /\ rx <$> ports w' !! "COM1" = Some [line "OK: next"]
     /\ clock w' =
        (clock (host {["COM1" := open_port [line "INFO: erase";
                                            Rx 7 (Py.encode "x INFO: a INFO: b");
                                            Rx 2 (Py.encode "OK: ready"); line "OK: next"]]})
         + elapsed [line "INFO: erase"; Rx 7 (Py.encode "x INFO: a INFO: b")] + 2)%N
     /\ stdout w' =
        stdout (host {["COM1" := open_port [line "INFO: erase";
                                            Rx 7 (Py.encode "x INFO: a INFO: b");
                                            Rx 2 (Py.encode "OK: ready"); line "OK: next"]]})
        ++ (if verbose talkative
            then Print <$> (["INFO: erase"; "INFO: b"] ++ [Py.drop 0 "OK: ready"])
            else []))
  /\ forall ser0 w0,
       match wait_for_response talkative ser0 w0 with
       | Ret (kind, msg) _ =>
           (kind, msg) = ("ERROR", "Timeout") \/
           exists p0 dt0 bs0 res0,
             ports w0 !! ser0 = Some p0 /\ Rx dt0 bs0 ∈ rx p0 /\
             read_filterd_bytes bs0 = Some res0 /\
             kind ∈ tags /\ Py.contains (kind +:+ ":") res0 = true
       | Raise e _ => e = SerialException
       | Diverged => True
       end.
Proof.
  apply (info_does_not_end_the_wait talkative "COM1"
           (host {["COM1" := open_port [line "INFO: erase"; Rx 7 (Py.encode "x INFO: a INFO: b");
                                        Rx 2 (Py.encode "OK: ready"); line "OK: next"]]})
           (open_port [line "INFO: erase"; Rx 7 (Py.encode "x INFO: a INFO: b");
                       Rx 2 (Py.encode "OK: ready"); line "OK: next"])
           [line "INFO: erase"; Rx 7 (Py.encode "x INFO: a INFO: b")]
           ["INFO: erase"; "INFO: b"]
           2 (Py.encode "OK: ready") [line "OK: next"] "OK: ready" "OK" 0%nat 0%nat).
  - reflexivity.
  - reflexivity.
  - reflexivity.
  - repeat constructor.
    + exists 0%N, (Py.encode ("INFO: erase" +:+ String "010" "")), "INFO: erase", 0%nat.
      split; [reflexivity|]. split; [reflexivity|].
      split; [apply rfind_is_last; reflexivity|]. split; [reflexivity|].
      intros T HT. apply contains_false.
      set_unfold in HT. destruct HT as [->|[->|[->|[->|[]]]]]; reflexivity.
    + exists 7%N, (Py.encode "x INFO: a INFO: b"), "x INFO: a INFO: b", 10%nat.
      split; [reflexivity|]. split; [reflexivity|].
      split; [apply rfind_is_last; reflexivity|]. split; [reflexivity|].
      intros T HT. apply contains_false.
      set_unfold in HT. destruct HT as [->|[->|[->|[->|[]]]]]; reflexivity.
  - reflexivity.
  - reflexivity.
  - apply rfind_is_last. reflexivity.
  - intros i' T' Hlt. lia.
Defined.

(** The console of that run, and the run of a device that falls silent
    behind an INFO: line: the timeout comes more than 5 time units after
    the line. *)
Example info_lines_on_the_console :
  w_out (wait_loop true 0 0 []
           [line "INFO: erase"; Rx 7 (Py.encode "x INFO: a INFO: b");
            Rx 2 (Py.encode "OK: ready"); line "OK: next"])
  = [Print "INFO: erase"; Print "INFO: b"; Print "OK: ready"]
  /\ answer (wait_loop true 0 0 [] [Rx 4 (Py.encode "INFO: erase")]) = inl ("ERROR", "Timeout")
  /\ w_clock (wait_loop true 0 0 [] [Rx 4 (Py.encode "INFO: erase")]) = 10%N.
Proof. repeat split. Qed.

Example info_then_ok :
  answer (wait_loop true 0 0 [] [line "INFO: erase done"; line "OK: ready"]) = inl ("OK", "ready")
  /\ w_out (wait_loop true 0 0 [] [line "INFO: erase done"; line "OK: ready"])
     = [Print "INFO: erase done"; Print "OK: ready"].
Proof. split; reflexivity. Qed.

(** ** Running the program step by step *)

Lemma bind_Ret {A B} (c : M A) (k : A -> M B) (w w' : world) (a : A) :
  c w = Ret a w' -> (c ≫= k) w = k a w'.
Proof. intros H. unfold mbind, M_bind, bind. by rewrite H. Qed.

Lemma bind_Raise {A B} (c : M A) (k : A -> M B) (w w' : world) (e : exn) :
  c w = Raise e w' -> (c ≫= k) w = Raise e w'.
Proof. intros H. unfold mbind, M_bind, bind. by rewrite H. Qed.

Lemma connected_with_port (ser : string) (p : serial_port) (w : world) :
  is_open p = true -> connected ser p (with_port ser p w).
Proof. intros Ho. split; [apply lookup_insert_eq|done]. Qed.

Lemma with_port_twice (ser : string) (p q : serial_port) (w : world) :
  with_port ser q (with_port ser p w) = with_port ser q w.
Proof. unfold with_port. simpl. by rewrite insert_insert_eq. Qed.

Lemma ser_write_eq (ser : string) (data : list byte) (w : world) (p : serial_port) :
  connected ser p w ->
  ser_write ser data w =
  Ret (Z.of_nat (length data)) (with_port ser (set_tx (tx p ++ [data]) p) w).
Proof.
  intros [Hp Ho]. unfold ser_write, the_port, mbind, M_bind, bind.
  by rewrite Hp, Ho.
Qed.

Lemma ser_flush_eq (ser : string) (w : world) (p : serial_port) :
  connected ser p w -> ser_flush ser w = Ret tt w.
Proof.
  intros [Hp Ho]. unfold ser_flush, the_port, mbind, M_bind, bind.
  by rewrite Hp, Ho.
Qed.

Lemma ser_close_eq (ser : string) (w : world) (p : serial_port) :
  ports w !! ser = Some p ->
  ser_close ser w = Ret tt (with_port ser (set_open false p) w).
Proof. intros Hp. unfold ser_close. by rewrite Hp. Qed.

Lemma released_Ret {A} (ser : string) (c : M A) (w w' : world) (a : A)
    (p : serial_port) :
  c w = Ret a w' -> ports w' !! ser = Some p ->
  released ser c w = Ret a (with_port ser (set_open false p) w').
Proof.
  intros Hc Hp. unfold released. rewrite (bind_Ret _ _ _ _ _ Hc).
  by rewrite (bind_Ret _ _ _ _ _ (ser_close_eq ser w' p Hp)).
Qed.

Lemma released_ext {A} (ser : string) (c c' : M A) (w w' : world) :
  c w = c' w' -> released ser c w = released ser c' w'.
Proof. intros Hc. unfold released, mbind, M_bind, bind. by rewrite Hc. Qed.

Lemma released_Raise {A} (ser : string) (c : M A) (w w' : world) (e : exn) :
  c w = Raise e w' -> released ser c w = Raise e w'.
Proof. intros Hc. unfold released. by rewrite (bind_Raise _ _ _ _ _ Hc). Qed.

(** The next line of the device holds OK: *)
Lemma wait_for_response_OK (E : env) (ser : string) (w : world) (p : serial_port)
    (dt : N) (bs : list byte) (rest : list rx_event) (res : string) (k : nat) :
  connected ser p w ->
  rx p = Rx dt bs :: rest ->
  read_filterd_bytes bs = Some res ->
  last_occurrence "OK:" res k ->
  wait_for_response E ser w =
  Ret ("OK", Py.strip (Py.drop (k + 3) res))
    (with_port ser (set_rx rest p)
       (set_stdout (write_feedback (verbose E) (Py.drop k res) (stdout w))
          (set_clock (clock w + dt) w))).
Proof.
  intros [Hp Ho] Hrx Hres Hk.
  rewrite (wait_for_response_eq E ser w p Hp Ho), Hrx.
  rewrite (wait_loop_OK _ _ _ _ _ _ _ _ Hres).
  - unfold tagged. cbn -[Py.rfind Py.slice_from Py.strip].
    rewrite (rfind_last _ _ _ Hk), slice_from_nat.
    change (Py.slice_from ?s 3) with (Py.drop 3 s). by rewrite drop_drop.
  - apply contains_iff. exists k. apply Hk.
Qed.

Tactic Notation "run" open_constr(H) :=
  cbv beta iota zeta; erewrite bind_Ret; [|exact H].
Tactic Notation "run_with" tactic(t) :=
  cbv beta iota zeta; erewrite bind_Ret; [|t].
Ltac conn H :=
  split; [cbn; first [apply lookup_insert_eq|apply H]|first [done|apply H]].
Ltac run_pure := cbv beta iota zeta; erewrite bind_Ret; [|reflexivity].

(** ** The firmware version check *)

(** C7: [firmware_check] reads the version the device reports and the
    latest released one as major.minor.patch, turns the six components
    into integers and reports an update exactly when some component of the
    installed version is smaller, as an integer, than the component of the
    latest version at the same place. *)
Theorem firmware_check_compares (E : env) (w w1 : world) (ser : string)
    (p : serial_port) (dt : N) (bs : list byte) (rest : list rx_event)
    (res : string) (k : nat) (latest_version : string) (url : option string)
    (major minor patch major_l minor_l patch_l : string)
    (a b c a_l b_l c_l : Z) :
  find_programmer E (json_dumps E {["state" := JInt STATE_VERSION]}) w = Ret (Some ser) w1 ->
  connected ser p w1 ->
  rx p = Rx dt bs :: rest ->
  read_filterd_bytes bs = Some res ->
  last_occurrence "OK:" res k ->
  latest_firmware E = (Some latest_version, url) ->
  Py.split "." (Py.strip (Py.drop (k + 3) res)) = [major; minor; patch] ->
  Py.split "." latest_version = [major_l; minor_l; patch_l] ->
  Py.int 10 major = Some a -> Py.int 10 minor = Some b -> Py.int 10 patch = Some c ->
  Py.int 10 major_l = Some a_l -> Py.int 10 minor_l = Some b_l ->
  Py.int 10 patch_l = Some c_l ->
  exists w',
    firmware_check E w =
    Ret (if (a <? a_l) || (b <? b_l) || (c <? c_l)
         then (false, Some ser, url) else (true, None, None)) w'
    /\ last (stdout w') =
       Some (Print (if (a <? a_l) || (b <? b_l) || (c <? c_l)
                    then "New version available: " +:+ latest_version
                    else "You have the latest version")).
Proof.
  intros Hfind Hconn Hrx Hres Hk Hlatest Hv Hl Ha Hb Hc Hal Hbl Hcl.
  unfold firmware_check.
  rewrite (bind_Ret _ _ _ _ _ Hfind).
  rewrite (bind_Ret _ _ _ _ _ (ser_write_eq ser _ w1 p Hconn)).
  run_pure.
  run_with (eapply (wait_for_response_OK E ser _ (set_tx _ p));
            [conn Hconn|exact Hrx|exact Hres|exact Hk]).
  run_with (apply ser_close_eq; cbn; apply lookup_insert_eq).
  change (String.eqb "OK" "OK") with true. run_pure.
  rewrite Hlatest, Hv. run_pure.
  rewrite Hl. run_pure.
  unfold int_lt. rewrite Ha, Hb, Hc, Hal, Hbl, Hcl.
  destruct (a <? a_l) eqn:H1; [|destruct (b <? b_l) eqn:H2; [|destruct (c <? c_l) eqn:H3]];
    eexists; (split; [reflexivity|]); cbn [stdout set_stdout]; apply last_snoc.
Qed.

Lemma firmware_check_compares_witness :
  exists w',
    firmware_check (release "1.10.0") (bench [line "OK:"; line "OK:1.9.0"]) =
    Ret (if (1 <? 1) || (9 <? 10) || (0 <? 0)
         then (false, Some "COM1", Some "firmware.hex") else (true, None, None)) w'
    /\ last (stdout w') =
       Some (Print (if (1 <? 1) || (9 <? 10) || (0 <? 0)
                    then "New version available: " +:+ "1.10.0"
                    else "You have the latest version")).
Proof.
  eapply (firmware_check_compares (release "1.10.0")
            (bench [line "OK:"; line "OK:1.9.0"]) _ "COM1" _ 0
            (Py.encode ("OK:1.9.0" +:+ String "010" "")) [] "OK:1.9.0" 0%nat
            "1.10.0" (Some "firmware.hex") "1" "9" "0" "1" "10" "0").
  - vm_compute. reflexivity.
  - split; [vm_compute; reflexivity|reflexivity].
  - reflexivity.
  - reflexivity.
  - apply rfind_is_last. reflexivity.
  - reflexivity.
  - reflexivity.
  - reflexivity.
  - reflexivity.
  - reflexivity.
  - reflexivity.
  - reflexivity.
  - reflexivity.
  - reflexivity.
Defined.

Example firmware_1_2_3_vs_1_3_0 : is_latest "1.2.3" "1.3.0" = Some false.
Proof. vm_compute. reflexivity. Qed.

Example firmware_2_0_0_vs_2_0_0 : is_latest "2.0.0" "2.0.0" = Some true.
Proof. vm_compute. reflexivity. Qed.

Example firmware_1_9_0_vs_1_10_0 : is_latest "1.9.0" "1.10.0" = Some false.
Proof. vm_compute. reflexivity. Qed.

(** What [int()] takes for a number: digits with single underscores
    between them, a sign in front, blanks of its own around (the separators
    28..31, which [strip] takes off, are not among them), and no more than
    4300 digits. *)
Example int_of_text :
  Py.int 10 " 12 " = Some 12
  /\ Py.int 10 "-1_0" = Some (-10)
  /\ Py.int 10 "1__0" = None
  /\ Py.int 10 "1.0" = None
  /\ Py.int 10 (String "028" "1") = None
  /\ Py.strip (String "028" "1") = "1"
  /\ Py.int 16 "0x1F" = Some 31
  /\ Py.int 10 "0x1F" = None
  /\ is_Some (Py.int 10 (Py.join (replicate 4300 "1"%char)))
  /\ Py.int 10 (Py.join (replicate 4301 "1"%char)) = None.
Proof. vm_compute. repeat split. by eexists. Qed.

(** A component that [int()] refuses ends the check with ValueError, the
    connection closed: here the patch number of the device is 1b. *)
Example firmware_check_ValueError :
  exists w',
    firmware_check (release "1.0.0") (bench [line "OK:"; line "OK:1.0.1b"])
    = Raise ValueError w'
    /\ is_open <$> ports w' !! "COM1" = Some false.
Proof. eexists. split; [vm_compute; reflexivity|reflexivity]. Qed.

(** ** The handshake and the life of the connection *)

(** Two candidate ports of which the first answers ERROR and the second
    OK: the message of the first is printed and its transport closed, the
    second is tried, selected and persisted, and its connection is returned
    open. *)
Example two_candidate_ports :
  exists w',
    find_programmer quiet "{}" two_ports = Ret (Some "COM2") w'
    /\ stdout w' = [Print "busy"]
    /\ config w' !! "port" = Some "COM2"
    /\ config_file w' = Some {["port" := "COM2"]}
    /\ is_open <$> ports w' !! "COM2" = Some true
    /\ is_open <$> ports w' !! "COM1" = Some false
    /\ tx <$> ports w' !! "COM1" = Some [Py.encode "{}"].
Proof. eexists. split; [vm_compute; reflexivity|]. repeat split. Qed.

(** C1, evaluated: [firmware_check] and [read_chip] close the connection
    on their normal paths, but [firmware_check] leaves it open when the
    read of the version raises (the [close] stands behind the read, outside
    any handler), and [read_chip] when the output file cannot be opened
    (the [finally] clause raises before its [close]). *)
Theorem connection_open_at_exit :
  open_at_exit "COM1"
    (firmware_check (release "1.0.0") (bench [line "OK:"; line "OK:1.0.0"])) = Some false
  /\ open_at_exit "COM1"
       (firmware_check (release "1.0.0") (bench [line "OK:"; RxError])) = Some true
  /\ open_at_exit "COM1"
       (read_chip (chips 2) "27C256" (Some "out.bin")
          (bench [line "OK:"; line "DATA:"; Rx 0 [x01; x02]; line "OK:"])) = Some false
  /\ open_at_exit "COM1"
       (read_chip (chips 2) "27C256" (Some "out.bin")
          (set_readonly {["out.bin"]}
             (bench [line "OK:"; line "DATA:"; Rx 0 [x01; x02]; line "OK:"])))
     = Some true.
Proof. vm_compute. repeat split. Qed.

(** ** The write transfer *)

Section Blocks.

Local Open Scope nat_scope.

Lemma chunks_more (fuel fuel' : nat) (f : list byte) :
  length f <= fuel -> length f <= fuel' -> chunks fuel f = chunks fuel' f.
Proof.
  revert fuel' f. induction fuel as [|fuel IH]; intros fuel' f H1 H2.
  - destruct f; [|simpl in H1; lia]. by destruct fuel'.
  - destruct f as [|x f]; [by destruct fuel'|].
    destruct fuel' as [|fuel']; [simpl in H2; lia|].
    simpl. f_equal. apply IH; rewrite length_drop; simpl in *; lia.
Qed.

Lemma blocks_nil : blocks [] = [].
Proof. reflexivity. Qed.

Lemma blocks_cons (f : list byte) :
  f <> [] -> blocks f = take 256 f :: blocks (drop 256 f).
Proof.
  intros Hne. unfold blocks. destruct f as [|x f]; [done|].
  change (length (x :: f)) with (S (length f)).
  change (chunks (S (length f)) (x :: f))
    with (take 256 (x :: f) :: chunks (length f) (drop 256 (x :: f))).
  f_equal. apply chunks_more; rewrite length_drop; simpl; lia.
Qed.

Lemma blocks_length (f : list byte) :
  length (blocks f) = (length f + 255) / 256.
Proof.
  induction f as [f IH] using (induction_ltof1 _ (@length byte)). unfold ltof in IH.
  destruct (decide (f = [])) as [->|Hne]; [done|].
  rewrite blocks_cons by done. simpl length at 1. rewrite IH.
  - rewrite length_drop.
    destruct (le_lt_dec 256 (length f)) as [Hge|Hlt].
    + replace (length f + 255) with ((length f - 256 + 255) + 1 * 256) by lia.
      rewrite Nat.div_add by lia. lia.
    + replace (length f - 256) with 0 by lia.
      assert (0 < length f) by (destruct f; [done|simpl; lia]).
      rewrite (Nat.div_small 255) by lia.
      assert ((length f + 255) / 256 = 1); [|lia].
      symmetry. apply Nat.div_unique with (r := length f - 1); lia.
  - rewrite length_drop. destruct f; [done|simpl; lia].
Qed.

Lemma blocks_concat (f : list byte) : concat (blocks f) = f.
Proof.
  induction f as [f IH] using (induction_ltof1 _ (@length byte)). unfold ltof in IH.
  destruct (decide (f = [])) as [->|Hne]; [done|].
  rewrite blocks_cons by done. simpl. rewrite IH, take_drop; [done|].
  rewrite length_drop. destruct f; [done|simpl; lia].
Qed.

(** The bytes in the first [j] blocks *)
Lemma blocks_cumulative (f : list byte) (j : nat) :
  j <= length (blocks f) ->
  Z.of_nat (length (concat (take j (blocks f)))) = cumulative (Z.of_nat (length f)) j.
Proof.
  revert f. induction j as [|j IH]; intros f Hj.
  - unfold cumulative. simpl. lia.
  - destruct (decide (f = [])) as [->|Hne]; [simpl in Hj; lia|].
    rewrite blocks_cons in * by done. simpl in Hj. simpl take. simpl concat.
    rewrite length_app, Nat2Z.inj_add, IH by lia.
    unfold cumulative. rewrite length_take, length_drop. lia.
Qed.

End Blocks.

Lemma to_bytes2_small (n : nat) :
  (n <= 256)%nat -> Py.to_bytes2 (Z.of_nat n) = Some (prefix2 n).
Proof.
  intros Hn. unfold prefix2, Py.to_bytes2.
  destruct (Z.leb_spec 0 (Z.of_nat n)); [|lia].
  destruct (Z.ltb_spec (Z.of_nat n) 65536); [|lia]. simpl.
  destruct (Byte.of_N (Z.to_N (Z.of_nat n / 256))) eqn:Hhi.
  - destruct (Byte.of_N (Z.to_N (Z.of_nat n `mod` 256))) eqn:Hlo; [done|].
    apply Byte.of_N_None_iff in Hlo.
    pose proof (Z.mod_pos_bound (Z.of_nat n) 256). lia.
  - apply Byte.of_N_None_iff in Hhi.
    assert (Z.of_nat n / 256 <= 1) by (apply Z.div_le_upper_bound; lia).
    pose proof (Z.div_pos (Z.of_nat n) 256). lia.
Qed.

Lemma percent_of_eq (a b : Z) (w : world) :
  b <> 0 -> exists p, percent_of a b w = Ret p w.
Proof.
  intros Hb. unfold percent_of, percent.
  destruct (Z.eqb_spec b 0); [done|]. by eexists.
Qed.

Lemma says_OK_wait (E : env) (ser : string) (w : world) (p : serial_port)
    (e : rx_event) (rest : list rx_event) :
  connected ser p w -> rx p = e :: rest -> says_OK e ->
  exists msg w',
    wait_for_response E ser w = Ret ("OK", msg) w'
    /\ connected ser (set_rx rest p) w'.
Proof.
  intros Hc Hrx (dt & bs & res & -> & Hres & Hocc).
  apply contains_iff in Hocc.
  destruct Hc as [Hp Ho].
  rewrite (wait_for_response_eq E ser w p Hp Ho), Hrx.
  rewrite (wait_loop_OK _ _ _ _ _ _ _ _ Hres Hocc).
  eexists _, _. split; [reflexivity|]. split; [apply lookup_insert_eq|done].
Qed.

(** The endpoint keeps what it was sent across a call of the wait loop,
    however the call ends, and the call does end. *)
Lemma wait_for_response_tx (E : env) (ser : string) (w : world) (p : serial_port) :
  connected ser p w ->
  exists w' p', connected ser p' w' /\ tx p' = tx p /\
    ((exists t, wait_for_response E ser w = Ret t w') \/
     (exists e, wait_for_response E ser w = Raise e w')).
Proof.
  intros [Hp Ho]. rewrite (wait_for_response_eq E ser w p Hp Ho). cbv zeta.
  set (r := wait_loop _ _ _ _ _).
  exists (waited_world ser p r w), (set_rx (w_rx r) p).
  split; [split; [apply lookup_insert_eq|exact Ho]|]. split; [done|].
  destruct (answer r); eauto.
Qed.

Lemma write_chip_loop_eof (E : env) (ser : string) (file_size mem_size : Z)
    (fuel : nat) (bytes_sent : Z) (w : world) (p : serial_port) :
  connected ser p w ->
  write_loop_ends ser (write_chip_loop E fuel ser [] file_size mem_size bytes_sent w)
    (tx p ++ [terminator]) false.
Proof.
  intros Hc.
  assert (Hgo : write_chip_loop E fuel ser [] file_size mem_size bytes_sent
                = write_chip_loop E O ser [] file_size mem_size bytes_sent)
    by (by destruct fuel).
  rewrite Hgo. simpl.
  run_pure.
  run_with (eapply (ser_write_eq ser _ _ p); exact Hc).
  run_with (eapply (ser_flush_eq ser _ (set_tx _ p)); conn Hc).
  destruct (wait_for_response_tx E ser
              (with_port ser (set_tx (tx p ++ [[x00; x00]]) p) w)
              (set_tx (tx p ++ [[x00; x00]]) p)) as (w' & p' & Hc' & Htx & Hr); [conn Hc|].
  destruct Hr as [[[resp info] Hr]|[e Hr]].
  - run_with (exact Hr). cbv beta iota zeta.
    eexists _, p'. split; [|split; [exact Htx|left; reflexivity]].
    split; [apply Hc'|apply Hc'].
  - rewrite (bind_Raise _ _ _ _ _ Hr).
    exists w', p'. split; [done|]. split; [done|]. right. eauto.
Qed.

Lemma write_chip_loop_tx (E : env) (ser : string) (file_size mem_size : Z)
    (rest : list rx_event) (fuel : nat) :
  forall (f : list byte) (bytes_sent : Z) (w : world) (p : serial_port)
         (acks : list rx_event),
  (length f <= fuel)%nat ->
  connected ser p w ->
  rx p = acks ++ rest ->
  Forall says_OK acks ->
  length acks = length (blocks f) ->
  (f <> [] -> file_size <> 0) ->
  write_loop_ends ser (write_chip_loop E fuel ser f file_size mem_size bytes_sent w)
    (tx p ++ sent_frames mem_size bytes_sent (blocks f))
    (stops mem_size bytes_sent (blocks f)).
Proof.
  induction fuel as [|fuel IH]; intros f bytes_sent w p acks Hfuel Hc Hrx Hacks Hlen Hsize.
  - destruct f; [|simpl in Hfuel; lia]. by apply write_chip_loop_eof.
  - destruct (decide (f = [])) as [->|Hne].
    { by apply write_chip_loop_eof. }
    rewrite (blocks_cons f Hne) in *.
    destruct acks as [|ack acks]; [done|]. simpl in Hlen.
    apply Forall_cons in Hacks as [Hack Hacks].
    assert (Hdata : take 256 f <> []) by (by destruct f).
    assert (Hlen256 : (length (take 256 f) <= 256)%nat) by (rewrite length_take; lia).
    cbn [write_chip_loop].
    destruct (take 256 f) as [|x data] eqn:Htake; [done|]. rewrite <- Htake in *.
    unfold to_bytes2. rewrite (to_bytes2_small _ Hlen256).
    run_pure.
    run_with (eapply (ser_write_eq ser _ _ p); exact Hc).
    run_with (eapply (ser_write_eq ser _ _ (set_tx _ p)); conn Hc).
    run_with (eapply (ser_flush_eq ser _ (set_tx _ (set_tx _ p))); conn Hc).
    match goal with
    | |- context [mbind _ (wait_for_response E ser) ?W] =>
        edestruct (says_OK_wait E ser W) as (msg & w1 & Hwait & Hc1);
          [conn Hc|exact Hrx|exact Hack|]
    end.
    run_with (exact Hwait).
    cbv beta iota zeta. change (String.eqb "OK" "OK") with true. cbv iota.
    destruct (percent_of_eq (bytes_sent + Z.of_nat (length (take 256 f))) file_size w1
                (Hsize Hne)) as [pc Hpc].
    assert (Hinner :
      (percent_of (bytes_sent + Z.of_nat (length (take 256 f))) file_size
       ≫= fun p0 => print_progress E p0
                      (bytes_sent + Z.of_nat (length (take 256 f)) - 256)
                      (bytes_sent + Z.of_nat (length (take 256 f)))
                    ≫= fun _ => ret (Some (bytes_sent + Z.of_nat (length (take 256 f)))))
        w1
      = Ret (Some (bytes_sent + Z.of_nat (length (take 256 f))))
          (set_stdout (stdout w1 ++
             [Progress (negb (verbose E)) pc
                (bytes_sent + Z.of_nat (length (take 256 f)) - 256)
                (bytes_sent + Z.of_nat (length (take 256 f)))]) w1)).
    { rewrite (bind_Ret _ _ _ _ _ Hpc). unfold print_progress.
      by destruct (verbose E). }
    run_with (exact Hinner).
    cbv beta iota.
    cbn [sent_frames stops].
    destruct (bytes_sent + Z.of_nat (length (take 256 f)) =? mem_size).
    + unfold write_loop_ends.
      match goal with |- context [ret true ?W] => exists W end.
      match type of Hc1 with connected _ ?q _ => exists q end.
      split; [split; [cbn; apply Hc1|apply Hc1]|].
      split; [|left; reflexivity]. cbn. by rewrite <- !(assoc_L (++)).
    + match type of Hc1 with
      | connected _ ?q _ =>
          destruct (IH (drop 256 f) (bytes_sent + Z.of_nat (length (take 256 f)))
                      (set_stdout (stdout w1 ++
                         [Progress (negb (verbose E)) pc
                            (bytes_sent + Z.of_nat (length (take 256 f)) - 256)
                            (bytes_sent + Z.of_nat (length (take 256 f)))]) w1)
                      q acks) as (w' & p' & Hc' & Htx & Hr)
      end.
      * rewrite length_drop. destruct f; [done|simpl in *; lia].
      * split; [cbn; apply Hc1|apply Hc1].
      * reflexivity.
      * exact Hacks.
      * lia.
      * intros _. by apply Hsize.
      * exists w', p'. split; [done|]. split; [|exact Hr].
        rewrite Htx. cbn. by rewrite <- !(assoc_L (++)).
Qed.

Section SentFrames.

Context (mem_size : Z).

Lemma total_cons (d : list byte) (bl : list (list byte)) :
  total (d :: bl) = Z.of_nat (length d) + total bl.
Proof. unfold total. simpl. rewrite length_app. lia. Qed.

Lemma sent_frames_all (bl : list (list byte)) (bytes_sent : Z) :
  (forall j, (1 <= j <= length bl)%nat -> bytes_sent + total (take j bl) <> mem_size) ->
  sent_frames mem_size bytes_sent bl = framed bl ++ [terminator]
  /\ stops mem_size bytes_sent bl = false.
Proof.
  revert bytes_sent. induction bl as [|d bl IH]; intros bytes_sent Hno; [done|].
  cbn [sent_frames stops].
  pose proof (Hno 1%nat ltac:(simpl; lia)) as H1.
  cbn [take] in H1. rewrite total_cons in H1. unfold total in H1. simpl in H1.
  destruct (Z.eqb_spec (bytes_sent + Z.of_nat (length d)) mem_size); [lia|].
  destruct (IH (bytes_sent + Z.of_nat (length d))) as [-> ->]; [|done].
  intros j Hj. specialize (Hno (S j) ltac:(simpl; lia)).
  cbn [take] in Hno. rewrite total_cons in Hno. lia.
Qed.

Lemma sent_frames_stop (bl : list (list byte)) (bytes_sent : Z) (j : nat) :
  (1 <= j <= length bl)%nat ->
  bytes_sent + total (take j bl) = mem_size ->
  (forall i, (1 <= i < j)%nat -> bytes_sent + total (take i bl) <> mem_size) ->
  sent_frames mem_size bytes_sent bl = framed (take j bl)
  /\ stops mem_size bytes_sent bl = true.
Proof.
  revert bytes_sent j. induction bl as [|d bl IH]; intros bytes_sent j Hj Hat Hbefore;
    [simpl in Hj; lia|].
  cbn [sent_frames stops].
  destruct j as [|[|j]]; [lia| |].
  - cbn [take] in Hat. rewrite total_cons in Hat. unfold total in Hat. simpl in Hat.
    destruct (Z.eqb_spec (bytes_sent + Z.of_nat (length d)) mem_size); [done|lia].
  - pose proof (Hbefore 1%nat ltac:(lia)) as H1.
    cbn [take] in H1. rewrite total_cons in H1. unfold total in H1. simpl in H1.
    destruct (Z.eqb_spec (bytes_sent + Z.of_nat (length d)) mem_size); [lia|].
    destruct (IH (bytes_sent + Z.of_nat (length d)) (S j)) as [-> ->].
    + simpl in Hj. lia.
    + cbn [take] in Hat. rewrite total_cons in Hat. lia.
    + intros i Hi. specialize (Hbefore (S i) ltac:(lia)).
      cbn [take] in Hbefore. rewrite total_cons in Hbefore. lia.
    + done.
Qed.

End SentFrames.

Lemma cumulative_increases (S : Z) (i j : nat) :
  (i < j)%nat -> Z.of_nat j <= (S + 255) / 256 -> cumulative S i < cumulative S j.
Proof.
  intros Hij Hj. unfold cumulative.
  assert (256 * Z.of_nat j <= S + 255).
  { etrans; [apply Z.mul_le_mono_nonneg_l; [lia|exact Hj]|].
    apply Z.mul_div_le. lia. }
  lia.
Qed.

(** C5: with every block acknowledged by OK, [write_chip] sends the file
    of [S] bytes as [ceil(S/256)] blocks of at most 256 bytes, each behind
    its length on two bytes, and then the two zero bytes of the terminator;
    but as soon as the count of bytes sent equals the memory size behind a
    block, the loop is left at once, the command ends normally and no
    terminator is sent: so it is for a non-empty file whose size is the
    memory size, a multiple of 256 or not.  An empty file is sent as the
    terminator alone, whatever the memory size. *)
Theorem write_chip_frames (E : env) (eprom input_file : string)
    (address : option string) (data : eprom_data) (d : gmap string jval)
    (content : list byte) (w w1 : world) (ser : string) (p : serial_port)
    (acks rest : list rx_event) :
  get_eprom E eprom = Some data ->
  fs w !! input_file = Some content ->
  write_envelope data address = Some d ->
  find_programmer E (json_dumps E (<["state" := JInt STATE_WRITE]> d))
    (if memory_size data =? Z.of_nat (length content) then w
     else set_stdout (stdout w ++ [Print "The file size dont match the memory size"]) w)
  = Ret (Some ser) w1 ->
  fs w1 !! input_file = Some content ->
  connected ser p w1 ->
  rx p = acks ++ rest ->
  Forall says_OK acks ->
  length acks = length (blocks content) ->
  let S := Z.of_nat (length content) in
  let n := length (blocks content) in
  Z.of_nat n = (S + 255) / 256
  /\ ((forall j, (1 <= j <= n)%nat -> cumulative S j <> memory_size data) ->
      tx_at_exit ser (write_chip E eprom input_file address w)
      = Some (tx p ++ framed (blocks content) ++ [terminator]))
  /\ (forall j, (1 <= j <= n)%nat -> cumulative S j = memory_size data ->
      exists w', write_chip E eprom input_file address w = Ret tt w'
        /\ tx <$> ports w' !! ser = Some (tx p ++ framed (take j (blocks content))))
  /\ (0 < S -> S = memory_size data ->
      tx_at_exit ser (write_chip E eprom input_file address w)
      = Some (tx p ++ framed (blocks content)))
  /\ (S = 0 ->
      tx_at_exit ser (write_chip E eprom input_file address w)
      = Some (tx p ++ [terminator])).
Proof.
  intros Hget Hfile Henv Hfind Hfile1 Hc Hrx Hacks Hlen S n.
  assert (Hn : Z.of_nat n = (S + 255) / 256).
  { unfold n, S. rewrite blocks_length.
    rewrite Nat2Z.inj_div, Nat2Z.inj_add. reflexivity. }
  assert (Hrun : exists w2, connected ser p w2 /\
            write_chip E eprom input_file address w =
            released ser
              (write_chip_loop E (length content) ser content S (memory_size data) 0
               ≫= fun finished : bool =>
                    if finished then
                      now ← time_time;
                      print "";;
                      emit (Duration "File sent successfully in" (now - clock w))
                    else ret tt) w2).
  { unfold write_chip. rewrite Hget.
    run_pure. unfold getsize. rewrite Hfile.
    fold S.
    assert (Haddr : (match address with
                     | Some a =>
                         if String.eqb a "" then ret (envelope data)
                         else match Py.int (if Py.contains "0x" a then 16 else 10) a with
                              | Some n => ret (<["address" := JInt n]> (envelope data))
                              | None => raise ValueError
                              end
                     | None => ret (envelope data)
                     end : M (gmap string jval)) w = Ret d w).
    { unfold write_envelope in Henv. destruct address as [a|]; [|by simplify_eq].
      destruct (String.eqb a ""); [by simplify_eq|].
      destruct (Py.int _ a); by simplify_eq/=. }
    run_with (exact Haddr).
    assert (Hsz : ((if memory_size data =? S then ret ()
                    else print "The file size dont match the memory size") : M unit) w
                  = Ret tt (if memory_size data =? S then w
                            else set_stdout (stdout w ++
                                   [Print "The file size dont match the memory size"]) w)).
    { by destruct (memory_size data =? S). }
    run_with (exact Hsz).
    assert (Hclock : clock (if memory_size data =? S then w
                            else set_stdout (stdout w ++
                                   [Print "The file size dont match the memory size"]) w)
                     = clock w) by (by destruct (memory_size data =? S)).
    run_pure. rewrite Hclock.
    run_with (exact Hfind).
    cbv beta iota zeta.
    eexists (set_stdout _ (set_stdout _ (set_stdout _ w1))). split; [conn Hc|].
    apply released_ext.
    run_pure. run_pure. run_pure.
    cbn [fs set_stdout]. rewrite Hfile1.
    run_pure. reflexivity. }
  destruct Hrun as (w2 & Hc2 & Hrun).
  destruct (write_chip_loop_tx E ser S (memory_size data) rest (length content)
              content 0 w2 p acks) as (w' & p' & Hc' & Htx & Hr);
    [done|done|done|done|done|intros Hne; unfold S; destruct content; [done|simpl; lia]|].
  assert (Hcum : forall j, (j <= n)%nat -> 0 + total (take j (blocks content)) = cumulative S j).
  { intros j Hj. unfold total. rewrite blocks_cumulative by done. fold S. lia. }
  assert (Hexit : forall sent early,
            tx p' = sent ->
            (write_chip_loop E (length content) ser content S (memory_size data) 0 w2
               = Ret early w' \/
             (early = false /\ exists e,
                write_chip_loop E (length content) ser content S (memory_size data) 0 w2
                = Raise e w')) ->
            tx_at_exit ser (write_chip E eprom input_file address w) = Some sent).
  { intros sent early Hsent [Hret|[-> [e Hraise]]]; rewrite Hrun.
    - destruct early.
      + erewrite released_Ret;
          [|rewrite (bind_Ret _ _ _ _ _ Hret); do 2 run_pure; reflexivity|cbn; apply Hc'].
        cbn. rewrite lookup_insert_eq. cbn. by rewrite Hsent.
      + erewrite released_Ret;
          [|rewrite (bind_Ret _ _ _ _ _ Hret); reflexivity|apply Hc'].
        cbn. rewrite lookup_insert_eq. cbn. by rewrite Hsent.
    - erewrite released_Raise; [|rewrite (bind_Raise _ _ _ _ _ Hraise); reflexivity].
      cbn. destruct Hc' as [-> _]. by rewrite <- Hsent. }
  split; [exact Hn|]. split; [|split; [|split]].
  - intros Hno. destruct (sent_frames_all (memory_size data) (blocks content) 0) as [Hs He].
    { intros j Hj. rewrite Hcum by (unfold n; lia). apply Hno. unfold n. lia. }
    rewrite Hs, He in *. by apply (Hexit _ false).
  - intros j Hj Hat.
    destruct (sent_frames_stop (memory_size data) (blocks content) 0 j) as [Hs He].
    { done. }
    { rewrite Hcum by lia. done. }
    { intros i Hi. rewrite Hcum by lia.
      pose proof (cumulative_increases S i j ltac:(lia) ltac:(lia)). lia. }
    rewrite Hs, He in *. destruct Hr as [Hret|[? _]]; [|done].
    rewrite Hrun.
    erewrite released_Ret;
      [|rewrite (bind_Ret _ _ _ _ _ Hret); do 2 run_pure; reflexivity|cbn; apply Hc'].
    eexists. split; [reflexivity|].
    cbn. rewrite lookup_insert_eq. cbn. by rewrite Htx.
  - intros Hpos HS.
    assert (Hn1 : (1 <= n)%nat).
    { assert (1 <= (S + 255) / 256) by (apply Z.div_le_lower_bound; lia). lia. }
    destruct (sent_frames_stop (memory_size data) (blocks content) 0 n) as [Hs He].
    { unfold n in *. lia. }
    { rewrite Hcum by lia. unfold cumulative. rewrite <- HS.
      assert (S <= 256 * Z.of_nat n); [|lia].
      rewrite Hn. pose proof (Z.mod_pos_bound (S + 255) 256 ltac:(lia)).
      pose proof (Z.div_mod (S + 255) 256 ltac:(lia)). lia. }
    { intros i Hi. rewrite Hcum by lia.
      pose proof (cumulative_increases S i n ltac:(lia) ltac:(lia)).
      assert (cumulative S n <= S) by (unfold cumulative; lia). lia. }
    rewrite Hs, He in *. unfold n in *. rewrite firstn_all in Htx.
    by apply (Hexit _ true).
  - intros HS. assert (content = []) as Hnil by (destruct content; [done|simpl in *; lia]).
    subst content. by apply (Hexit _ false).
Qed.

Lemma write_chip_frames_witness :
  let S := Z.of_nat (length rom) in
  let n := length (blocks rom) in
  Z.of_nat n = (S + 255) / 256
  /\ ((forall j, (1 <= j <= n)%nat -> cumulative S j <> memory_size
          {| name := "27C256"; manufacturer_name := "ST"; verified := true;
             memory_size := 512; params := ∅ |}) ->
      tx_at_exit "COM1"
        (write_chip (chips 512) "27C256" "rom.bin" (Some "0x100")
           (bench_with_file [line "OK:"; line "OK: 1"; line "OK: 2"; line "OK: 3"]
              "rom.bin" rom))
      = Some (tx (handshaken [line "OK: 1"; line "OK: 2"; line "OK: 3"])
              ++ framed (blocks rom) ++ [terminator]))
  /\ (forall j, (1 <= j <= n)%nat -> cumulative S j = memory_size
          {| name := "27C256"; manufacturer_name := "ST"; verified := true;
             memory_size := 512; params := ∅ |} ->
      exists w',
        write_chip (chips 512) "27C256" "rom.bin" (Some "0x100")
          (bench_with_file [line "OK:"; line "OK: 1"; line "OK: 2"; line "OK: 3"]
             "rom.bin" rom) = Ret tt w'
        /\ tx <$> ports w' !! "COM1"
           = Some (tx (handshaken [line "OK: 1"; line "OK: 2"; line "OK: 3"])
                   ++ framed (take j (blocks rom))))
  /\ (0 < S -> S = memory_size
          {| name := "27C256"; manufacturer_name := "ST"; verified := true;
             memory_size := 512; params := ∅ |} ->
      tx_at_exit "COM1"
        (write_chip (chips 512) "27C256" "rom.bin" (Some "0x100")
           (bench_with_file [line "OK:"; line "OK: 1"; line "OK: 2"; line "OK: 3"]
              "rom.bin" rom))
      = Some (tx (handshaken [line "OK: 1"; line "OK: 2"; line "OK: 3"])
              ++ framed (blocks rom)))
  /\ (S = 0 ->
      tx_at_exit "COM1"
        (write_chip (chips 512) "27C256" "rom.bin" (Some "0x100")
           (bench_with_file [line "OK:"; line "OK: 1"; line "OK: 2"; line "OK: 3"]
              "rom.bin" rom))
      = Some (tx (handshaken [line "OK: 1"; line "OK: 2"; line "OK: 3"])
              ++ [terminator])).
Proof.
  eapply (write_chip_frames (chips 512) "27C256" "rom.bin" (Some "0x100") _ _ rom
            (bench_with_file [line "OK:"; line "OK: 1"; line "OK: 2"; line "OK: 3"]
               "rom.bin" rom)
            _ "COM1" (handshaken [line "OK: 1"; line "OK: 2"; line "OK: 3"])
            [line "OK: 1"; line "OK: 2"; line "OK: 3"] []).
  - reflexivity.
  - reflexivity.
  - reflexivity.
  - vm_compute. reflexivity.
  - reflexivity.
  - split; reflexivity.
  - reflexivity.
  - repeat constructor; eexists _, _, _; (split; [reflexivity|]); (split; [reflexivity|]);
      exists 0%nat; apply occurs_0; reflexivity.
  - reflexivity.
Defined.

(** With an empty file and a chip of memory size 0 the size of the file
    equals the memory size and is a multiple of 256, and the terminator is
    sent all the same: the test of the count stands behind a block, and
    there is none. *)
Lemma empty_file_gets_terminator :
  Z.of_nat (length (@nil byte)) = memory_size
    {| name := "27C256"; manufacturer_name := "ST"; verified := true;
       memory_size := 0; params := ∅ |}
  /\ Z.of_nat (length (@nil byte)) mod 256 = 0
  /\ get_eprom (chips 0) "27C256"
     = Some {| name := "27C256"; manufacturer_name := "ST"; verified := true;
               memory_size := 0; params := ∅ |}
  /\ tx_at_exit "COM1"
       (write_chip (chips 0) "27C256" "rom.bin" None
          (bench_with_file [line "OK:"; line "OK:"] "rom.bin" []))
     = Some [Py.encode "{}"; terminator].
Proof. vm_compute. repeat split. Qed.

(** The same run, evaluated: two framed blocks of 256 bytes, no terminator;
    and a file of 300 bytes for the same chip: two blocks and the
    terminator. *)
Example write_chip_stops_at_memory_size :
  tx_at_exit "COM1"
    (write_chip (chips 512) "27C256" "rom.bin" None
       (bench_with_file [line "OK:"; line "OK: 1"; line "OK: 2"; line "OK: 3"]
          "rom.bin" rom))
  = Some [Py.encode "{}"; [x01; x00]; replicate 256 xff; [x01; x00]; replicate 256 xff].
Proof. vm_compute. reflexivity. Qed.

Example write_chip_sends_terminator :
  tx_at_exit "COM1"
    (write_chip (chips 512) "27C256" "rom.bin" None
       (bench_with_file [line "OK:"; line "OK: 1"; line "OK: 2"; line "OK: 3"]
          "rom.bin" (replicate 300 xff)))
  = Some [Py.encode "{}"; [x01; x00]; replicate 256 xff; [x00; x2c]; replicate 44 xff;
          [x00; x00]].
Proof. vm_compute. reflexivity. Qed.

(** ** Facts about the binary64 model *)
Module Float64Facts.
Import Float64.
Local Open Scope Q_scope.

Lemma pow2_pos (k : Z) : 0 < 2 ^ k.
Proof. apply Qpower_0_lt. reflexivity. Qed.

Lemma pow2_succ (k : Z) : 2 ^ (k + 1) == 2 * 2 ^ k.
Proof. rewrite Qpower_plus by discriminate. change (2 ^ 1) with 2. ring. Qed.

Lemma pow2_le (j k : Z) : (j <= k)%Z -> 2 ^ j <= 2 ^ k.
Proof. intros H. apply Qpower_le_compat_l; [done|discriminate]. Qed.

Lemma pow2_lt (j k : Z) : (j < k)%Z -> 2 ^ j < 2 ^ k.
Proof. intros H. apply Qpower_lt_compat_l; [done|reflexivity]. Qed.

Lemma pow2_Z (k : Z) : (0 <= k)%Z -> inject_Z (2 ^ k) == 2 ^ k.
Proof. intros H. by rewrite Zpower_Qpower. Qed.

Lemma log2_bounds (n : Z) :
  (0 < n)%Z -> 2 ^ (Z.log2 n) <= inject_Z n /\ inject_Z n < 2 ^ (Z.log2 n + 1).
Proof.
  intros Hn. destruct (Z.log2_spec n Hn) as [H1 H2].
  pose proof (Z.log2_nonneg n).
  rewrite <- !pow2_Z by lia. split.
  - by rewrite <- Zle_Qle.
  - rewrite <- Zlt_Qlt. by rewrite Z.add_1_r.
Qed.

Lemma ilog2_spec (x : Q) :
  0 < x -> 2 ^ (ilog2 x) <= x /\ x < 2 ^ (ilog2 x + 1).
Proof.
  intros Hx. unfold ilog2.
  destruct x as [n d]. simpl Qnum. simpl Qden.
  assert (Hn : (0 < n)%Z).
  { unfold Qlt in Hx. simpl in Hx. lia. }
  set (a := Z.log2 n). set (b := Z.log2 (Z.pos d)).
  destruct (log2_bounds n Hn) as [Ha1 Ha2]. fold a in Ha1, Ha2.
  destruct (log2_bounds (Z.pos d) ltac:(lia)) as [Hb1 Hb2]. fold b in Hb1, Hb2.
  assert (Hxd : (n # d) * inject_Z (Z.pos d) == inject_Z n).
  { rewrite (Qmake_Qdiv n d). field. discriminate. }
  assert (Hd : 0 < inject_Z (Z.pos d)) by reflexivity.
  assert (Hup : n # d < 2 ^ (a - b + 1)).
  { apply (Qmult_lt_r _ _ (inject_Z (Z.pos d)) Hd). rewrite Hxd.
    eapply Qlt_le_trans; [exact Ha2|].
    replace (a + 1)%Z with ((a - b + 1) + b)%Z by ring.
    rewrite (Qpower_plus 2 (a - b + 1) b) by discriminate.
    apply Qmult_le_l; [apply pow2_pos|exact Hb1]. }
  assert (Hlow : 2 ^ (a - b - 1) < n # d).
  { apply (Qmult_lt_r _ _ (inject_Z (Z.pos d)) Hd). rewrite Hxd.
    eapply Qlt_le_trans; [|exact Ha1].
    replace a with ((a - b - 1) + (b + 1))%Z at 2 by ring.
    rewrite (Qpower_plus 2 (a - b - 1) (b + 1)) by discriminate.
    apply Qmult_lt_l; [apply pow2_pos|exact Hb2]. }
  destruct (Qle_bool (2 ^ (a - b)) (n # d)) eqn:Hk.
  - apply Qle_bool_iff in Hk. by split.
  - split; [by apply Qlt_le_weak|].
    replace (a - b - 1 + 1)%Z with (a - b)%Z by ring.
    apply Qnot_le_lt. intros Hle. apply Qle_bool_iff in Hle. congruence.
Qed.

Lemma ilog2_mono (x y : Q) : 0 < x -> x <= y -> (ilog2 x <= ilog2 y)%Z.
Proof.
  intros Hx Hxy.
  destruct (ilog2_spec x Hx) as [Hx1 _].
  destruct (ilog2_spec y (Qlt_le_trans _ _ _ Hx Hxy)) as [_ Hy2].
  assert (H : 2 ^ ilog2 x < 2 ^ (ilog2 y + 1)).
  { eapply Qle_lt_trans; [exact Hx1|]. eapply Qle_lt_trans; [exact Hxy|exact Hy2]. }
  apply Qpower_lt_compat_l_inv in H; [lia|reflexivity].
Qed.

Lemma rne_floor (x : Q) : (Qfloor x <= rne x <= Qfloor x + 1)%Z.
Proof.
  unfold rne. destruct (Qcompare _ _); [destruct (Z.even _)| |]; lia.
Qed.

Lemma rne_mono (x y : Q) : x <= y -> (rne x <= rne y)%Z.
Proof.
  intros Hxy. pose proof (Qfloor_resp_le x y Hxy) as Hf.
  destruct (Z.eq_dec (Qfloor x) (Qfloor y)) as [Heq|Hne].
  - unfold rne. rewrite <- Heq.
    assert (Hfrac : x - inject_Z (Qfloor x) <= y - inject_Z (Qfloor x)) by lra.
    destruct (Qcompare_spec (x - inject_Z (Qfloor x)) (1 # 2)) as [Hx|Hx|Hx];
      destruct (Qcompare_spec (y - inject_Z (Qfloor x)) (1 # 2)) as [Hy|Hy|Hy];
      try destruct (Z.even (Qfloor x)); try lia; lra.
  - pose proof (rne_floor x). pose proof (rne_floor y). lia.
Qed.

Lemma rne_Z (z : Z) : rne (inject_Z z) = z.
Proof.
  unfold rne. rewrite Qfloor_Z.
  destruct (Qcompare_spec (inject_Z z - inject_Z z) (1 # 2)) as [H|H|H]; [lra|done|lra].
Qed.

Lemma round_pos_nonneg (x : Q) : 0 < x -> 0 <= round_pos x.
Proof.
  intros Hx. unfold round_pos. set (e := (ilog2 x - 52)%Z).
  apply Qmult_le_0_compat; [|apply Qlt_le_weak, pow2_pos].
  change 0 with (inject_Z 0). rewrite <- Zle_Qle.
  etrans; [|apply rne_floor].
  change 0%Z with (Qfloor 0). apply Qfloor_resp_le.
  apply Qle_shift_div_l; [apply pow2_pos|]. lra.
Qed.

Lemma round_pos_mono (x y : Q) : 0 < x -> x <= y -> round_pos x <= round_pos y.
Proof.
  intros Hx Hxy. pose proof (Qlt_le_trans _ _ _ Hx Hxy) as Hy.
  pose proof (ilog2_mono x y Hx Hxy) as He.
  unfold round_pos.
  set (ex := (ilog2 x - 52)%Z). set (ey := (ilog2 y - 52)%Z).
  destruct (Z.eq_dec ex ey) as [Heq|Hne].
  - rewrite <- Heq. apply Qmult_le_compat_r; [|apply Qlt_le_weak, pow2_pos].
    rewrite <- Zle_Qle. apply rne_mono.
    apply Qmult_le_compat_r; [done|]. apply Qlt_le_weak, Qinv_lt_0_compat, pow2_pos.
  - assert (Hlt : (ex + 1 <= ey)%Z) by (unfold ex, ey in *; lia).
    destruct (ilog2_spec x Hx) as [_ Hx2]. destruct (ilog2_spec y Hy) as [Hy1 _].
    assert (Hmx : (rne (x / 2 ^ ex) <= 2 ^ 53)%Z).
    { assert (Hq : x / 2 ^ ex < inject_Z (2 ^ 53)).
      { apply Qlt_shift_div_r; [apply pow2_pos|].
        rewrite pow2_Z by lia. rewrite <- Qpower_plus by discriminate.
        replace (53 + ex)%Z with (ilog2 x + 1)%Z by (unfold ex; ring). done. }
      pose proof (Qfloor_le (x / 2 ^ ex)) as Hfl.
      assert (Hf : (Qfloor (x / 2 ^ ex) < 2 ^ 53)%Z).
      { rewrite Zlt_Qlt. eapply Qle_lt_trans; [exact Hfl|exact Hq]. }
      pose proof (rne_floor (x / 2 ^ ex)). lia. }
    assert (Hmy : (2 ^ 52 <= rne (y / 2 ^ ey))%Z).
    { assert (Hq : inject_Z (2 ^ 52) <= y / 2 ^ ey).
      { apply Qle_shift_div_l; [apply pow2_pos|].
        rewrite pow2_Z by lia. rewrite <- Qpower_plus by discriminate.
        replace (52 + ey)%Z with (ilog2 y) by (unfold ey; ring). done. }
      apply Qfloor_resp_le in Hq. rewrite Qfloor_Z in Hq.
      pose proof (rne_floor (y / 2 ^ ey)). lia. }
    rewrite Zle_Qle in Hmx, Hmy.
    pose proof (pow2_pos ex) as Hpx. pose proof (pow2_pos ey) as Hpy.
    assert (H1 : inject_Z (rne (x / 2 ^ ex)) * 2 ^ ex <= inject_Z (2 ^ 53) * 2 ^ ex).
    { apply Qmult_le_compat_r; [done|lra]. }
    assert (H2 : inject_Z (2 ^ 52) * 2 ^ ey <= inject_Z (rne (y / 2 ^ ey)) * 2 ^ ey).
    { apply Qmult_le_compat_r; [done|lra]. }
    assert (H3 : inject_Z (2 ^ 53) * 2 ^ ex <= inject_Z (2 ^ 52) * 2 ^ ey).
    { rewrite !pow2_Z by lia. rewrite <- !Qpower_plus by discriminate.
      apply pow2_le. lia. }
    lra.
Qed.

Lemma round_nonneg (x : Q) : 0 <= x -> 0 <= round x.
Proof.
  intros Hx. unfold round. destruct (Qcompare_spec x 0) as [H|H|H]; [lra|lra|].
  by apply round_pos_nonneg.
Qed.

Lemma round_mono (x y : Q) : 0 <= x -> x <= y -> round x <= round y.
Proof.
  intros Hx Hxy. unfold round at 1.
  destruct (Qcompare_spec x 0) as [H|H|H]; [|lra|].
  - apply round_nonneg. lra.
  - unfold round. destruct (Qcompare_spec y 0) as [H'|H'|H']; [lra|lra|].
    by apply round_pos_mono.
Qed.

Lemma round_1 : round 1 == 1.
Proof. vm_compute. reflexivity. Qed.

Lemma round_100 : round (inject_Z 100) == inject_Z 100.
Proof. vm_compute. reflexivity. Qed.

Lemma trunc_floor (x : Q) : 0 <= x -> trunc x = Qfloor x.
Proof.
  intros Hx. destruct x as [n d]. unfold trunc, Qfloor. simpl.
  apply Z.quot_div_nonneg; [|lia]. unfold Qle in Hx. simpl in Hx. lia.
Qed.

Lemma trunc_mono (x y : Q) : 0 <= x -> x <= y -> (trunc x <= trunc y)%Z.
Proof.
  intros Hx Hxy. rewrite !trunc_floor by lra. by apply Qfloor_resp_le.
Qed.

Lemma trunc_nonneg (x : Q) : 0 <= x -> (0 <= trunc x)%Z.
Proof.
  intros Hx. rewrite trunc_floor by done.
  change 0%Z with (Qfloor 0). by apply Qfloor_resp_le.
Qed.

Lemma ratio_nonneg (a b : Z) : (0 <= a)%Z -> (0 < b)%Z -> 0 <= inject_Z a / inject_Z b.
Proof.
  intros Ha Hb. apply Qle_shift_div_l.
  - change 0 with (inject_Z 0). by rewrite <- Zlt_Qlt.
  - rewrite Qmult_0_l. change 0 with (inject_Z 0). by rewrite <- Zle_Qle.
Qed.

Lemma ratio_mono (a a' b : Z) :
  (a <= a')%Z -> (0 < b)%Z -> inject_Z a / inject_Z b <= inject_Z a' / inject_Z b.
Proof.
  intros Ha Hb. apply Qmult_le_compat_r; [by rewrite <- Zle_Qle|].
  apply Qlt_le_weak, Qinv_lt_0_compat. change 0 with (inject_Z 0). by rewrite <- Zlt_Qlt.
Qed.

Lemma ratio_le_1 (a b : Z) : (a <= b)%Z -> (0 < b)%Z -> inject_Z a / inject_Z b <= 1.
Proof.
  intros Ha Hb. apply Qle_shift_div_r.
  - change 0 with (inject_Z 0). by rewrite <- Zlt_Qlt.
  - rewrite Qmult_1_l. by rewrite <- Zle_Qle.
Qed.

End Float64Facts.

(** The percentage of the progress line grows with the count of bytes and
    stays within 0..100 as long as the count does not pass the total. *)
Section Percent.

Import Float64 Float64Facts.

Lemma percent_Some (a b : Z) :
  b <> 0 ->
  percent a b = Some (trunc (mul (truediv a b) (inject_Z 100))).
Proof. intros Hb. unfold percent. by destruct (Z.eqb_spec b 0). Qed.

Lemma percent_mono (a a' b p p' : Z) :
  0 <= a <= a' -> 0 < b ->
  percent a b = Some p -> percent a' b = Some p' -> p <= p'.
Proof.
  intros Ha Hb. rewrite !percent_Some by lia. intros [= <-] [= <-].
  unfold mul, truediv.
  assert (H0 : (0 <= inject_Z a / inject_Z b)%Q) by (apply ratio_nonneg; lia).
  assert (H1 : (inject_Z a / inject_Z b <= inject_Z a' / inject_Z b)%Q)
    by (apply ratio_mono; lia).
  pose proof (round_nonneg _ H0) as H2.
  pose proof (round_mono _ _ H0 H1) as H3.
  apply trunc_mono.
  - apply round_nonneg. apply Qmult_le_0_compat; [done|discriminate].
  - apply round_mono.
    + apply Qmult_le_0_compat; [done|discriminate].
    + apply Qmult_le_compat_r; [done|discriminate].
Qed.

Lemma percent_range (a b p : Z) :
  0 <= a <= b -> 0 < b -> percent a b = Some p -> 0 <= p <= 100.
Proof.
  intros Ha Hb. rewrite percent_Some by lia. intros [= <-].
  unfold mul, truediv.
  assert (H0 : (0 <= inject_Z a / inject_Z b)%Q) by (apply ratio_nonneg; lia).
  assert (H1 : (inject_Z a / inject_Z b <= 1)%Q) by (apply ratio_le_1; lia).
  pose proof (round_nonneg _ H0) as H2.
  pose proof (round_mono _ _ H0 H1) as H3. rewrite round_1 in H3.
  assert (H4 : (0 <= round (inject_Z a / inject_Z b) * inject_Z 100)%Q).
  { apply Qmult_le_0_compat; [done|discriminate]. }
  split.
  - apply trunc_nonneg. by apply round_nonneg.
  - change 100 with (trunc (round (inject_Z 100))).
    apply trunc_mono; [by apply round_nonneg|].
    apply round_mono; [done|].
    rewrite <- (Qmult_1_l (inject_Z 100)) at 2.
    apply Qmult_le_compat_r; [done|discriminate].
Qed.

Lemma percent_nonneg (a b p : Z) :
  0 <= a -> 0 < b -> percent a b = Some p -> 0 <= p.
Proof.
  intros Ha Hb. rewrite percent_Some by lia. intros [= <-].
  unfold mul, truediv.
  apply trunc_nonneg, round_nonneg.
  apply Qmult_le_0_compat; [|discriminate].
  apply round_nonneg, ratio_nonneg; lia.
Qed.

End Percent.

Lemma percent_full (b : Z) : 0 < b -> percent b b = Some 100.
Proof.
  intros Hb. rewrite percent_Some by lia. f_equal.
  unfold Float64.truediv, Float64.mul.
  assert (H1 : (inject_Z b / inject_Z b == 1)%Q).
  { apply Qmult_inv_r. intros H. apply Qeq_alt in H. unfold Qcompare in H. cbn in H.
    rewrite Z.mul_1_r in H. apply Z.compare_eq in H. lia. }
  assert (Hr1 : (Float64.round (inject_Z b / inject_Z b) == 1)%Q).
  { assert (Ha : (Float64.round (inject_Z b / inject_Z b) <= Float64.round 1)%Q)
      by (apply Float64Facts.round_mono; rewrite H1; lra).
    assert (Hb' : (Float64.round 1 <= Float64.round (inject_Z b / inject_Z b))%Q)
      by (apply Float64Facts.round_mono; rewrite ?H1; lra).
    rewrite Float64Facts.round_1 in Ha, Hb'. by apply Qle_antisym. }
  assert (H100 : (0 <= inject_Z 100)%Q) by (unfold inject_Z; lra).
  assert (Hr2 : (Float64.round (Float64.round (inject_Z b / inject_Z b) * inject_Z 100)
                 == inject_Z 100)%Q).
  { assert (Ha : (Float64.round (Float64.round (inject_Z b / inject_Z b) * inject_Z 100)
                  <= Float64.round (inject_Z 100))%Q)
      by (apply Float64Facts.round_mono; rewrite Hr1; lra).
    assert (Hb' : (Float64.round (inject_Z 100)
                   <= Float64.round (Float64.round (inject_Z b / inject_Z b) * inject_Z 100))%Q)
      by (apply Float64Facts.round_mono; rewrite ?Hr1; lra).
    rewrite Float64Facts.round_100 in Ha, Hb'. by apply Qle_antisym. }
  rewrite Float64Facts.trunc_floor by (rewrite Hr2; exact H100).
  rewrite Hr2. apply Qfloor_Z.
Qed.

Example percent_is_binary64 :
  agrees_up_to 100 = true /\ agrees_up_to 300 = true /\ agrees_up_to 777 = true
  /\ percent 29 100 = Some 28 /\ percent 512 300 = Some 170.
Proof. vm_compute. repeat split. Qed.

(** ** The read transfer *)

Lemma says_DATA_wait (E : env) (ser : string) (w : world) (p : serial_port)
    (e : rx_event) (rest : list rx_event) :
  connected ser p w -> rx p = e :: rest -> says_DATA e ->
  exists msg w',
    wait_for_response E ser w = Ret ("DATA", msg) w'
    /\ connected ser (set_rx rest p) w'
    /\ fs w' = fs w /\ readonly w' = readonly w
    /\ progress_of (stdout w') = progress_of (stdout w).
Proof.
  intros Hc Hrx (dt & bs & res & -> & Hres & Hocc & Hno).
  apply contains_iff in Hocc.
  assert (Hc' : forall T, T ∈ ["OK"; "WARN"; "ERROR"] -> Py.contains (T +:+ ":") res = false).
  { intros T HT. apply contains_false. by apply Hno. }
  destruct Hc as [Hp Ho].
  rewrite (wait_for_response_eq E ser w p Hp Ho), Hrx.
  rewrite (wait_loop_DATA _ _ _ _ _ _ _ _ Hres
             (Hc' "OK" ltac:(set_solver)) (Hc' "WARN" ltac:(set_solver))
             (Hc' "ERROR" ltac:(set_solver)) Hocc).
  eexists _, _. split; [reflexivity|]. split; [split; [apply lookup_insert_eq|done]|].
  repeat split. cbn. unfold write_feedback, progress_of.
  destruct (verbose E); [|done]. by rewrite omap_app, app_nil_r.
Qed.

Lemma says_OK_wait_quiet (E : env) (ser : string) (w : world) (p : serial_port)
    (e : rx_event) (rest : list rx_event) :
  connected ser p w -> rx p = e :: rest -> says_OK e ->
  exists msg w',
    wait_for_response E ser w = Ret ("OK", msg) w'
    /\ connected ser (set_rx rest p) w'
    /\ fs w' = fs w /\ readonly w' = readonly w
    /\ progress_of (stdout w') = progress_of (stdout w).
Proof.
  intros Hc Hrx (dt & bs & res & -> & Hres & Hocc).
  apply contains_iff in Hocc.
  destruct Hc as [Hp Ho].
  rewrite (wait_for_response_eq E ser w p Hp Ho), Hrx.
  rewrite (wait_loop_OK _ _ _ _ _ _ _ _ Hres Hocc).
  eexists _, _. split; [reflexivity|]. split; [split; [apply lookup_insert_eq|done]|].
  repeat split. cbn. unfold write_feedback, progress_of.
  destruct (verbose E); [|done]. by rewrite omap_app, app_nil_r.
Qed.

Lemma ser_read_eq (ser : string) (size : nat) (w : world) (p : serial_port)
    (dt : N) (data : list byte) (rest : list rx_event) :
  connected ser p w -> rx p = Rx dt data :: rest -> (length data <= size)%nat ->
  ser_read ser size w =
  Ret data (with_port ser (set_rx rest p) (set_clock (clock w + dt) w)).
Proof.
  intros [Hp Ho] Hrx Hlen. unfold ser_read, the_port, mbind, M_bind, bind.
  rewrite Hp, Ho, Hrx. cbn.
  rewrite drop_ge, take_ge by done. reflexivity.
Qed.

Lemma read_chip_loop_finish (E : env) (fuel : nat) (ser f : string)
    (mem_size bytes_read : Z) (w : world) (msg : string) (w1 : world) :
  wait_for_response E ser w = Ret ("OK", msg) w1 ->
  read_chip_loop E fuel ser f mem_size bytes_read w =
  Ret true (set_stdout ((stdout w1 ++ [Print ""]) ++ [Print "Finished reading data"]) w1).
Proof.
  intros H. destruct fuel; cbn [read_chip_loop]; by rewrite (bind_Ret _ _ _ _ _ H).
Qed.

Lemma read_chip_loop_run (E : env) (ser f : string) (mem_size : Z)
    (ok : rx_event) (rest : list rx_event) (lines : list (rx_event * N)) :
  forall (bl : list (list byte)) (fuel : nat) (bytes_read : Z) (w : world)
         (p : serial_port) (content : list byte),
  connected ser p w ->
  rx p = data_script lines bl ++ ok :: rest ->
  Forall says_DATA lines.*1 ->
  length lines = length bl ->
  Forall (fun b => (length b <= 256)%nat) bl ->
  says_OK ok ->
  (length lines <= fuel)%nat ->
  (lines <> [] -> mem_size <> 0) ->
  fs w !! f = Some content ->
  exists w' p',
    read_chip_loop E fuel ser f mem_size bytes_read w = Ret true w'
    /\ connected ser p' w'
    /\ fs w' !! f = Some (content ++ concat bl)
    /\ progress_of (stdout w') =
       progress_of (stdout w) ++ progress_list mem_size bytes_read (length bl).
Proof.
  induction lines as [|[d dt] lines IH];
    intros bl fuel bytes_read w p content Hc Hrx Hd Hlen Hbl Hok Hfuel Hmem Hfs.
  - destruct bl; [|done]. simpl in Hrx.
    destruct (says_OK_wait_quiet E ser w p ok rest Hc Hrx Hok)
      as (msg & w1 & Hwait & Hc1 & Hfs1 & _ & Hpr1).
    rewrite (read_chip_loop_finish E fuel ser f mem_size bytes_read w msg w1 Hwait).
    eexists _, _. split; [reflexivity|]. split; [split; [cbn; apply Hc1|apply Hc1]|].
    cbn. rewrite Hfs1, Hfs, !app_nil_r. split; [done|].
    unfold progress_of in *. by rewrite !omap_app, Hpr1, !app_nil_r.
  - destruct bl as [|b bl]; [done|]. simpl in Hrx, Hlen.
    apply Forall_cons in Hd as [Hd Hds]. apply Forall_cons in Hbl as [Hb Hbl].
    destruct fuel as [|fuel]; [simpl in Hfuel; lia|]. simpl in Hfuel.
    destruct (says_DATA_wait E ser w p d _ Hc Hrx Hd)
      as (msg & w1 & Hwait & Hc1 & Hfs1 & _ & Hpr1).
    cbn [read_chip_loop].
    run_with (exact Hwait).
    change (String.eqb ("DATA", msg).1 "DATA") with true. cbv iota.
    run_with (eapply (ser_read_eq ser 256 w1 _ dt b); [exact Hc1|reflexivity|exact Hb]).
    run_pure.
    destruct (percent_of_eq (bytes_read + 256) mem_size
                (set_fs (alter (fun old => old ++ b) f
                           (fs (with_port ser
                                  (set_rx (data_script lines bl ++ ok :: rest)
                                     (set_rx (Rx dt b :: data_script lines bl ++ ok :: rest) p))
                                  (set_clock (clock w1 + dt) w1))))
                   (with_port ser
                      (set_rx (data_script lines bl ++ ok :: rest)
                         (set_rx (Rx dt b :: data_script lines bl ++ ok :: rest) p))
                      (set_clock (clock w1 + dt) w1)))
                (Hmem ltac:(done))) as [pc Hpc].
    run_with (exact Hpc).
    match goal with
    | |- context [mbind _ (print_progress E pc ?a ?b) ?W] =>
        assert (Hpp : print_progress E pc a b W
                      = Ret tt (set_stdout (stdout W ++ [Progress (negb (verbose E)) pc a b]) W))
          by (unfold print_progress; by destruct (verbose E))
    end.
    run_with (exact Hpp).
    run_with (eapply (ser_write_eq ser _ _ (set_rx (data_script lines bl ++ ok :: rest) _));
              conn Hc).
    run_with (eapply (ser_flush_eq ser _ (set_tx _ (set_rx (data_script lines bl ++ ok :: rest) _)));
              conn Hc).
    cbv beta iota zeta.
    match goal with
    | |- context [read_chip_loop E fuel ser f mem_size (bytes_read + 256) ?W] =>
        edestruct (IH bl fuel (bytes_read + 256) W) as (w' & p' & Hrun & Hc' & Hfs' & Hpr');
          [conn Hc|reflexivity|exact Hds|lia|exact Hbl|exact Hok|lia| | |]
    end.
    + intros _. by apply Hmem.
    + cbn. rewrite Hfs1. rewrite lookup_alter_eq, Hfs. reflexivity.
    + exists w', p'. split; [exact Hrun|]. split; [exact Hc'|].
      split; [by rewrite Hfs', <- (assoc_L (++))|].
      rewrite Hpr'. cbn [stdout set_stdout with_port set_ports set_fs set_clock].
      unfold progress_of at 1. rewrite omap_app. fold (progress_of (stdout w1)).
      rewrite Hpr1. cbn [omap progress_list length]. 
      unfold percent_of in Hpc. destruct (percent (bytes_read + 256) mem_size); [|done].
      injection Hpc as ->. by rewrite <- (assoc_L (++)).
Qed.

Lemma try_except_Ret {A} (c : M A) (catches : exn -> bool) (h : exn -> M A)
    (w w' : world) (a : A) :
  c w = Ret a w' -> try_except c catches h w = Ret a w'.
Proof. intros H. unfold try_except. by rewrite H. Qed.

Lemma try_finally_Ret {A} (c : M A) (f : M unit) (w w' w'' : world) (a : A) :
  c w = Ret a w' -> f w' = Ret tt w'' -> try_finally c f w = Ret a w''.
Proof. intros H1 H2. unfold try_finally. by rewrite H1, H2. Qed.

Lemma open_wb_eq (path : string) (w : world) :
  path ∉ readonly w ->
  open_wb path w = Ret path (set_fs (<[path := []]> (fs w)) w).
Proof. intros H. unfold open_wb. by rewrite bool_decide_false. Qed.

Lemma blocks_small (f : list byte) : Forall (fun b => (length b <= 256)%nat) (blocks f).
Proof.
  induction f as [f IH] using (induction_ltof1 _ (@length byte)). unfold ltof in IH.
  destruct (decide (f = [])) as [->|Hne]; [constructor|].
  rewrite blocks_cons by done. constructor.
  - rewrite length_take. lia.
  - apply IH. rewrite length_drop. destruct f; [done|simpl; lia].
Qed.

Lemma data_script_length (lines : list (rx_event * N)) (bl : list (list byte)) :
  (length lines = length bl -> length lines <= length (data_script lines bl))%nat.
Proof.
  revert bl. induction lines as [|[d dt] lines IH]; intros [|b bl] Hlen; simpl in *; try lia.
  specialize (IH bl ltac:(lia)). lia.
Qed.

Section ProgressList.

Context (mem_size : Z) (Hmem : 0 < mem_size).

Lemma progress_list_length (bytes_read : Z) (n : nat) :
  length (progress_list mem_size bytes_read n) = n.
Proof. revert bytes_read. induction n as [|n IH]; intros b; simpl; [done|]. by rewrite IH. Qed.

Lemma progress_list_lookup (n : nat) (bytes_read : Z) (i : nat) (x : Z) :
  progress_list mem_size bytes_read n !! i = Some x ->
  (i < n)%nat /\ percent (bytes_read + 256 * (Z.of_nat i + 1)) mem_size = Some x.
Proof.
  revert bytes_read i. induction n as [|n IH]; intros b i Hi; [done|].
  destruct i as [|i]; simpl in Hi.
  - injection Hi as <-. split; [lia|].
    replace (b + 256 * (Z.of_nat 0 + 1)) with (b + 256) by lia.
    rewrite percent_Some by lia. reflexivity.
  - apply IH in Hi as [Hlt Hp]. split; [lia|].
    rewrite <- Hp. f_equal. lia.
Qed.

Lemma progress_list_sorted (n : nat) (bytes_read : Z) (i j : nat) (pi pj : Z) :
  0 <= bytes_read -> (i <= j)%nat ->
  progress_list mem_size bytes_read n !! i = Some pi ->
  progress_list mem_size bytes_read n !! j = Some pj ->
  pi <= pj.
Proof.
  intros Hb Hij Hi Hj.
  apply progress_list_lookup in Hi as [_ Hi]. apply progress_list_lookup in Hj as [_ Hj].
  eapply percent_mono; [|exact Hmem|exact Hi|exact Hj]. lia.
Qed.

Lemma progress_list_nonneg (n : nat) (bytes_read : Z) :
  0 <= bytes_read -> Forall (fun x => 0 <= x) (progress_list mem_size bytes_read n).
Proof.
  intros Hb. apply Forall_lookup. intros i x Hi.
  apply progress_list_lookup in Hi as [_ Hi].
  eapply percent_nonneg; [|exact Hmem|exact Hi]. lia.
Qed.

Lemma progress_list_le_100 (n : nat) (bytes_read : Z) :
  0 <= bytes_read -> bytes_read + 256 * Z.of_nat n <= mem_size ->
  Forall (fun x => x <= 100) (progress_list mem_size bytes_read n).
Proof.
  intros Hb Hn. apply Forall_lookup. intros i x Hi.
  apply progress_list_lookup in Hi as [Hlt Hi].
  eapply percent_range; [|exact Hmem|exact Hi]. lia.
Qed.

End ProgressList.

(** C3 (as the program has it): for a chip of [S] bytes, a device that
    sends [ceil(S/256)] DATA events, each followed by its block of the
    payload (the last block shorter when 256 does not divide [S]), and then
    OK, makes [read_chip] write exactly the [S] bytes of the payload to the
    output file and close the connection; one percentage is reported for
    each block, the one of block [j] being [int(256 * j / S * 100)]; the
    percentages never decrease and are not negative; all but the last stay
    within 0..100, the last is at least 100, and all stay within 0..100
    when [S] is a multiple of 256. *)
Theorem read_chip_transfer (E : env) (eprom path : string) (data : eprom_data)
    (payload : list byte) (w w1 : world) (ser : string) (p : serial_port)
    (lines : list (rx_event * N)) (ok : rx_event) (rest : list rx_event) :
  get_eprom E eprom = Some data ->
  memory_size data = Z.of_nat (length payload) ->
  path <> "" ->
  find_programmer E (json_dumps E (<["state" := JInt STATE_READ]> (envelope data))) w
  = Ret (Some ser) w1 ->
  connected ser p w1 ->
  path ∉ readonly w1 ->
  rx p = data_script lines (blocks payload) ++ ok :: rest ->
  Forall says_DATA lines.*1 ->
  length lines = length (blocks payload) ->
  says_OK ok ->
  let S := memory_size data in
  exists w' ps,
    read_chip E eprom (Some path) w = Ret tt w'
    /\ fs w' !! path = Some payload
    /\ progress_of (stdout w') = progress_of (stdout w1) ++ ps
    /\ Z.of_nat (length ps) = (S + 255) / 256
    /\ (forall i x, ps !! i = Some x -> percent (256 * (Z.of_nat i + 1)) S = Some x)
    /\ (forall i j pi pj, (i <= j)%nat -> ps !! i = Some pi -> ps !! j = Some pj -> pi <= pj)
    /\ Forall (fun x => 0 <= x) ps
    /\ (forall i x, (i + 1 < length ps)%nat -> ps !! i = Some x -> x <= 100)
    /\ (forall x, last ps = Some x -> 100 <= x)
    /\ (S mod 256 = 0 -> Forall (fun x => x <= 100) ps)
    /\ is_open <$> ports w' !! ser = Some false.
Proof.
  intros Hget HS Hpath Hfind Hc Hro Hrx Hd Hlen Hok S.
  set (n := length (blocks payload)).
  assert (Hn : Z.of_nat n = (S + 255) / 256).
  { unfold n, S. rewrite HS, blocks_length, Nat2Z.inj_div, Nat2Z.inj_add. reflexivity. }
  unfold read_chip. rewrite Hget.
  run_with (exact Hfind).
  run_pure.
  assert (Hname : String.eqb path "" = false) by (by apply String.eqb_neq).
  rewrite Hname. run_pure.
  (* the [try] block up to [open] *)
  erewrite bind_Ret; cycle 1.
  { apply try_except_Ret.
    run_with (eapply (ser_write_eq ser _ _ p); conn Hc).
    run_with (eapply (ser_flush_eq ser _ (set_tx _ p)); conn Hc).
    run_with (apply open_wb_eq; cbn; exact Hro).
    reflexivity. }
  cbv beta iota.
  (* the loop *)
  match goal with
  | |- context [try_finally _ _ ?W] =>
      destruct (read_chip_loop_run E ser path S ok rest lines (blocks payload)
                  (length (data_script lines (blocks payload) ++ ok :: rest)) 0 W
                  (set_tx (tx p ++ [Py.encode "OK"]) p) [])
        as (w2 & p2 & Hloop & Hc2 & Hfs2 & Hpr2)
  end.
  { conn Hc. }
  { exact Hrx. }
  { exact Hd. }
  { exact Hlen. }
  { apply blocks_small. }
  { exact Hok. }
  { rewrite length_app. pose proof (data_script_length lines (blocks payload) Hlen). lia. }
  { intros Hne. unfold S. rewrite HS. destruct payload; [|simpl; lia].
    destruct lines; [done|]. simpl in Hlen. done. }
  { cbn. apply lookup_insert_eq. }
  eexists _, (progress_list S 0 n).
  split.
  { eapply try_finally_Ret.
    - apply try_except_Ret.
      run_pure.
      erewrite bind_Ret; cycle 1.
      { unfold pending. cbn. rewrite lookup_insert_eq. cbn. rewrite Hrx. reflexivity. }
      run_with (exact Hloop).
      run_pure. reflexivity.
    - apply (ser_close_eq ser _ p2). cbn. apply Hc2. }
  cbn. rewrite lookup_insert_eq.
  split; [by rewrite Hfs2, blocks_concat|].
  split.
  { rewrite omap_app. change (omap _ (stdout w2)) with (progress_of (stdout w2)).
    rewrite Hpr2. cbn. unfold progress_of. by rewrite !omap_app, !app_nil_r. }
  split; [by rewrite progress_list_length|].
  destruct (decide (S = 0)) as [HS0|HS0].
  { assert (n = 0%nat) as ->
      by (rewrite HS0 in Hn; change ((0 + 255) / 256) with 0 in Hn; lia).
    simpl. repeat split; try done. }
  assert (HSpos : 0 < S) by (unfold S in *; lia).
  assert (Hceil : 256 * (Z.of_nat n - 1) < S <= 256 * Z.of_nat n).
  { rewrite Hn. pose proof (Z.div_mod (S + 255) 256 ltac:(lia)).
    pose proof (Z.mod_pos_bound (S + 255) 256 ltac:(lia)). lia. }
  split.
  { intros i x Hi. apply progress_list_lookup in Hi as [_ Hi]; [|done].
    by rewrite Z.add_0_l in Hi. }
  split; [intros i j pi pj; by apply progress_list_sorted|].
  split; [by apply progress_list_nonneg|].
  split.
  { intros i x Hi Hx. rewrite progress_list_length in Hi.
    apply progress_list_lookup in Hx as [_ Hx]; [|done].
    eapply percent_range; [|exact HSpos|exact Hx]. lia. }
  split.
  { intros x Hx. rewrite last_lookup, progress_list_length in Hx.
    apply progress_list_lookup in Hx as [Hlt Hx]; [|done].
    eapply (percent_mono S _ S); [|exact HSpos|by apply percent_full|exact Hx]. lia. }
  split; [|done].
  intros Hmod. apply progress_list_le_100; [done|lia|].
  rewrite Hn. pose proof (Z.div_mod S 256 ltac:(lia)).
  assert ((S + 255) / 256 = S / 256); [|lia].
  replace (S + 255) with (255 + (S / 256) * 256) by lia.
  rewrite Z.div_add by lia. reflexivity.
Qed.

Lemma read_chip_transfer_witness :
  let S := memory_size {| name := "27C256"; manufacturer_name := "ST"; verified := true;
                          memory_size := 512; params := ∅ |} in
  exists w' ps,
    read_chip (chips 512) "27C256" (Some "out.bin") (bench (line "OK:" :: two_blocks))
    = Ret tt w'
    /\ fs w' !! "out.bin" = Some (replicate 512 xff)
    /\ progress_of (stdout w') = progress_of [] ++ ps
    /\ Z.of_nat (length ps) = (S + 255) / 256
    /\ (forall i x, ps !! i = Some x -> percent (256 * (Z.of_nat i + 1)) S = Some x)
    /\ (forall i j pi pj, (i <= j)%nat -> ps !! i = Some pi -> ps !! j = Some pj -> pi <= pj)
    /\ Forall (fun x => 0 <= x) ps
    /\ (forall i x, (i + 1 < length ps)%nat -> ps !! i = Some x -> x <= 100)
    /\ (forall x, last ps = Some x -> 100 <= x)
    /\ (S mod 256 = 0 -> Forall (fun x => x <= 100) ps)
    /\ is_open <$> ports w' !! "COM1" = Some false.
Proof.
  eapply (read_chip_transfer (chips 512) "27C256" "out.bin" _ (replicate 512 xff)
            (bench (line "OK:" :: two_blocks))
            {| clock := 2; ports := {["COM1" := handshaken two_blocks]};
               comports := comports (bench []); config := {["port" := "COM1"]};
               config_file := Some {["port" := "COM1"]}; stdout := []; fs := ∅;
               readonly := ∅; unreadable := ∅ |}
            "COM1" (handshaken two_blocks)
            [(line "DATA:", 0%N); (line "DATA:", 0%N)] (line "OK:") []).
  - reflexivity.
  - reflexivity.
  - discriminate.
  - vm_compute. reflexivity.
  - split; reflexivity.
  - set_solver.
  - reflexivity.
  - repeat constructor; eexists _, _, _; (split; [reflexivity|]); (split; [reflexivity|]);
      (split; [exists 0%nat; apply occurs_0; reflexivity|]);
      intros T HT; apply contains_false;
      set_unfold in HT; destruct HT as [->|[->|[->|[]]]]; reflexivity.
  - reflexivity.
  - eexists _, _, _. split; [reflexivity|]. split; [reflexivity|].
    exists 0%nat. apply occurs_0. reflexivity.
Defined.

(** C3, as stated, fails for a size that is not a multiple of 256: with
    300 bytes in two blocks (256 and 44) the file gets its 300 bytes, but
    the counter advances by 256 for the short block too and the second
    percentage is 170. *)
Lemma short_last_block_passes_100 :
  exists w',
    read_chip (chips 300) "27C256" (Some "out.bin")
      (bench [line "OK:"; line "DATA:"; Rx 0 (replicate 256 xff);
              line "DATA:"; Rx 0 (replicate 44 xff); line "OK:"])
    = Ret tt w'
    /\ fs w' !! "out.bin" = Some (replicate 300 xff)
    /\ progress_of (stdout w') = [85; 170]
    /\ ~ Forall (fun x => x <= 100) (progress_of (stdout w')).
Proof.
  eexists. split; [vm_compute; reflexivity|].
  split; [reflexivity|]. split; [reflexivity|].
  intros H. apply Forall_cons in H as [_ H]. apply Forall_cons in H as [H _].
  revert H. cbn. lia.
Qed.

(** A last block that is shorter need not take the percentage past 100:
    a chip of 255 bytes is read in one block, counted as 256 bytes, and the
    percentage is [int(256 / 255 * 100)], which is 100. *)
Example short_last_block_at_100 :
  exists w',
    read_chip (chips 255) "27C256" (Some "out.bin")
      (bench [line "OK:"; line "DATA:"; Rx 0 (replicate 255 xff); line "OK:"])
    = Ret tt w'
    /\ fs w' !! "out.bin" = Some (replicate 255 xff)
    /\ progress_of (stdout w') = [100].
Proof. eexists. split; [vm_compute; reflexivity|]. split; reflexivity. Qed.

(** ** The loop bounds of the model

    The loops of [read_voltage] and [read_chip] are bounded by the number
    of scripted reads and the loop of [write_chip] by the length of the
    file.  On a scripted device the bound of [read_chip] is never met.  (A
    device that never stops sending is outside the scripts: nothing is
    said here of the program in front of one.) *)

Lemma bind_terminates {A B} (c : M A) (k : A -> M B) (w : world) :
  terminates (c w) ->
  (forall a w', c w = Ret a w' -> terminates (k a w')) ->
  terminates ((c ≫= k) w).
Proof.
  intros Hc Hk. unfold mbind, M_bind, bind.
  destruct (c w) as [a w'| |] eqn:Hcw; [by apply Hk|done|done].
Qed.

Lemma wait_loop_consumes (v : bool) (script : list rx_event) (timeout now : N)
    (o : list out) :
  script <> [] ->
  (length (w_rx (wait_loop v timeout now o script)) < length script)%nat.
Proof.
  revert timeout now o. induction script as [|e script IH]; intros timeout now o Hne; [done|].
  assert (Hrest : forall t n o', (length (w_rx (wait_loop v t n o' script)) <= length script)%nat).
  { intros t n o'. destruct script as [|e' script']; [simpl; lia|].
    specialize (IH t n o' ltac:(done)). lia. }
  assert (Hcheck : forall t o',
    (length (w_rx (if (t + 5 <? now + match e with Rx dt _ => dt | RxError => 0 end)%N
                   then {| answer := inl ("ERROR", "Timeout");
                           w_clock := (now + match e with Rx dt _ => dt | RxError => 0 end)%N;
                           w_rx := script; w_out := o' ++ [Print " --  Timeout"] |}
                   else wait_loop v t (now + match e with Rx dt _ => dt | RxError => 0 end)%N
                          o' script))
     < S (length script))%nat).
  { intros t o'. destruct (_ <? _)%N; simpl; [lia|]. specialize (Hrest t (now + match e with Rx dt _ => dt | RxError => 0 end)%N o'). lia. }
  destruct e as [dt bs|]; simpl; [|lia].
  destruct (read_filterd_bytes bs) as [res|]; [|apply Hcheck].
  destruct (0 <? Py.len res); [|apply Hcheck].
  repeat (destruct (Py.contains _ res); [simpl; lia|]).
  apply Hcheck.
Qed.

Lemma wait_loop_silent_answer (v : bool) (timeout now : N) (o : list out) :
  answer (wait_loop v timeout now o []) = inl ("ERROR", "Timeout").
Proof. reflexivity. Qed.

(** A call of the wait loop ends, and an answer other than the timeout of
    a silent device has used up at least one read. *)
Lemma wait_for_response_step (E : env) (ser : string) (w : world) :
  terminates (wait_for_response E ser w)
  /\ forall t w', wait_for_response E ser w = Ret t w' ->
       (exists p', connected ser p' w') /\
       (t.1 = "DATA" -> (pending_of ser w' < pending_of ser w)%nat).
Proof.
  unfold wait_for_response, time_time, the_port, mbind, M_bind, bind, pending_of.
  destruct (ports w !! ser) as [p|] eqn:Hp; [|done].
  destruct (is_open p) eqn:Ho; [|done]. simpl.
  destruct (answer _) as [t|e] eqn:Ha; simpl; [|done].
  split; [done|]. intros t' w' [= <- <-]. simpl. rewrite lookup_insert_eq. simpl.
  split; [eexists; split; [apply lookup_insert_eq|done]|].
  intros Hdata. apply wait_loop_consumes. intros Hnil. rewrite Hnil in Ha.
  rewrite wait_loop_silent_answer in Ha. injection Ha as <-. done.
Qed.

Lemma ser_write_step (ser : string) (data : list byte) (w : world) :
  terminates (ser_write ser data w)
  /\ forall n w', ser_write ser data w = Ret n w' ->
       pending_of ser w' = pending_of ser w.
Proof.
  unfold ser_write, the_port, mbind, M_bind, bind, pending_of.
  destruct (ports w !! ser) as [p|] eqn:Hp; [|done].
  destruct (is_open p); [|done]. simpl. split; [done|].
  intros n w' [= <- <-]. simpl. by rewrite lookup_insert_eq.
Qed.

Lemma ser_flush_step (ser : string) (w : world) :
  terminates (ser_flush ser w)
  /\ forall u w', ser_flush ser w = Ret u w' -> w' = w.
Proof.
  unfold ser_flush, the_port, mbind, M_bind, bind.
  destruct (ports w !! ser) as [p|]; [|done].
  destruct (is_open p); [|done]. simpl. split; [done|]. by intros u w' [= <- <-].
Qed.

Lemma ser_read_step (ser : string) (size : nat) (w : world) :
  terminates (ser_read ser size w)
  /\ forall d w', ser_read ser size w = Ret d w' ->
       (pending_of ser w' <= pending_of ser w)%nat.
Proof.
  unfold ser_read, the_port, mbind, M_bind, bind, pending_of.
  destruct (ports w !! ser) as [p|] eqn:Hp; [|done].
  destruct (is_open p); [|done].
  destruct (rx p) as [|[dt data|] rest] eqn:Hrx; simpl.
  - split; [done|]. intros d w' [= <- <-]. simpl. by rewrite Hp, Hrx.
  - split; [done|]. intros d w' [= <- <-]. simpl. rewrite lookup_insert_eq.
    destruct (drop size data); simpl; lia.
  - split; [done|]. by intros d w' [=].
Qed.

Lemma read_chip_loop_terminates (E : env) (ser f : string) (mem_size : Z)
    (fuel : nat) (bytes_read : Z) (w : world) :
  (pending_of ser w <= fuel)%nat ->
  terminates (read_chip_loop E fuel ser f mem_size bytes_read w).
Proof.
  revert bytes_read w. induction fuel as [|fuel IH]; intros bytes_read w Hfuel;
    cbn [read_chip_loop];
    destruct (wait_for_response_step E ser w) as [Hwt Hwp];
    (apply bind_terminates; [exact Hwt|]); intros t w1 Hw1;
    destruct (Hwp t w1 Hw1) as [_ Hdec];
    (destruct (String.eqb_spec t.1 "DATA") as [Hd|Hd];
     [specialize (Hdec Hd)
     |destruct (String.eqb t.1 "OK"); [done|];
      apply bind_terminates; [done|]; intros [] w2 _;
      apply bind_terminates; [apply wait_for_response_step|]; by intros t' w3 _]).
  - lia.
  - destruct (ser_read_step ser 256 w1) as [Hrt Hrp].
    apply bind_terminates; [exact Hrt|]. intros d w2 Hw2. specialize (Hrp d w2 Hw2).
    apply bind_terminates; [done|]. intros [] w3 [= <-].
    apply bind_terminates; [unfold percent_of; by destruct (percent _ _)|].
    intros pc w4 Hw4.
    assert (w4 = set_fs (alter (fun old => old ++ d) f (fs w2)) w2) as ->.
    { unfold percent_of in Hw4. destruct (percent _ _); [|discriminate Hw4].
      by injection Hw4. }
    apply bind_terminates; [unfold print_progress; by destruct (verbose E)|].
    intros [] w5 Hw5.
    assert (Hp5 : pending_of ser w5 = pending_of ser w2).
    { unfold print_progress in Hw5. destruct (verbose E); by injection Hw5 as <-. }
    destruct (ser_write_step ser (Py.encode (String.app "OK" (String "010" ""))) w5)
      as [Hst Hsp].
    apply bind_terminates; [exact Hst|]. intros n w6 Hw6.
    destruct (ser_flush_step ser w6) as [Hft Hfp].
    apply bind_terminates; [exact Hft|]. intros u w7 Hw7.
    apply IH. rewrite (Hfp u w7 Hw7), (Hsp n w6 Hw6), Hp5. lia.
Qed.

Lemma try_except_terminates {A} (c : M A) (catches : exn -> bool) (h : exn -> M A)
    (w : world) :
  terminates (c w) -> (forall e w', terminates (h e w')) ->
  terminates (try_except c catches h w).
Proof.
  intros Hc Hh. unfold try_except. destruct (c w) as [a w'|e w'|]; [done| |done].
  destruct (catches e); [apply Hh|done].
Qed.

Lemma try_finally_terminates {A} (c : M A) (f : M unit) (w : world) :
  terminates (c w) -> (forall w', terminates (f w')) ->
  terminates (try_finally c f w).
Proof.
  intros Hc Hf. unfold try_finally.
  destruct (c w) as [a w'|e w'|]; [| |done];
    specialize (Hf w'); by destruct (f w').
Qed.

Lemma serial_open_terminates (port : string) (w : world) :
  terminates (serial_open port w).
Proof. unfold serial_open. by destruct (ports w !! port). Qed.

Lemma ser_close_terminates (ser : string) (w : world) : terminates (ser_close ser w).
Proof. unfold ser_close. by destruct (ports w !! ser). Qed.

Lemma released_terminates {A} (ser : string) (c : M A) (w : world) :
  terminates (c w) -> terminates (released ser c w).
Proof.
  intros Hc. unfold released. apply bind_terminates; [done|]. intros a w1 _.
  apply bind_terminates; [apply ser_close_terminates|]. done.
Qed.

Lemma save_config_terminates (w : world) : terminates (save_config w).
Proof. unfold save_config. by case_bool_decide. Qed.

Section Terminates.

Context (E : env).

Lemma check_port_terminates (port data : string) (w : world) :
  terminates (check_port E port data w).
Proof.
  unfold check_port. apply bind_terminates.
  - apply try_except_terminates; [|done].
    apply bind_terminates; [by destruct (verbose E)|]. intros [] w1 _.
    apply bind_terminates; [apply serial_open_terminates|]. intros ser w2 _.
    apply bind_terminates; [done|]. intros [] w3 _.
    apply bind_terminates; [apply ser_write_step|]. intros n w4 _.
    apply bind_terminates; [apply ser_flush_step|]. intros u w5 _.
    apply bind_terminates; [apply wait_for_response_step|]. intros [res msg] w6 _.
    by destruct (String.eqb res "OK").
  - intros [ser|] w1 _; [done|]. apply released_terminates. done.
Qed.

Lemma add_comports_terminates (serial_ports : list port_info) (ports : list string)
    (w : world) :
  terminates (add_comports serial_ports ports w).
Proof.
  revert ports. induction serial_ports as [|port serial_ports IH]; intros ports; [done|].
  simpl. destruct (manufacturer port); [|done]. destruct (_ && _); apply IH.
Qed.

Lemma try_ports_terminates (data : string) (ports : list string) (w : world) :
  terminates (try_ports E data ports w).
Proof.
  revert w. induction ports as [|port ports IH]; intros w; [done|]. simpl.
  apply bind_terminates; [apply check_port_terminates|]. intros [ser|] w1 _; [|apply IH].
  apply bind_terminates; [done|]. intros [] w2 _.
  apply bind_terminates; [apply save_config_terminates|]. done.
Qed.

Lemma find_programmer_terminates (data : string) (w : world) :
  terminates (find_programmer E data w).
Proof.
  unfold find_programmer.
  apply bind_terminates; [by destruct (verbose E)|]. intros [] w1 _.
  apply bind_terminates; [apply add_comports_terminates|]. intros ports w2 _.
  apply try_ports_terminates.
Qed.

Lemma read_chip_terminates (eprom : string) (output_file : option string) (w : world) :
  terminates (read_chip E eprom output_file w).
Proof.
  unfold read_chip. destruct (get_eprom E eprom) as [data|]; [|done].
  apply bind_terminates; [apply find_programmer_terminates|]. intros [ser|] w1 _; [|done].
  apply bind_terminates; [done|]. intros [] w2 _.
  apply bind_terminates; [done|]. intros [] w3 _.
  apply bind_terminates.
  - apply try_except_terminates; [|done].
    apply bind_terminates; [apply ser_write_step|]. intros n w4 _.
    apply bind_terminates; [apply ser_flush_step|]. intros u w5 _.
    apply bind_terminates; [unfold open_wb; by case_match|]. done.
  - intros [f|] w4 _; [|done].
    apply try_finally_terminates; [|apply ser_close_terminates].
    apply try_except_terminates; [|done].
    apply bind_terminates; [done|]. intros start_time w5 _.
    apply bind_terminates; [done|]. intros fuel w6 [= <- <-].
    apply bind_terminates; [by apply read_chip_loop_terminates|].
    intros [|] w7 _; [|done].
    apply bind_terminates; done.
Qed.

End Terminates.

(** ** The connection that the handshake returns *)

Lemma bind_connected {A B} (ser : string) (c : M A) (k : A -> M B) (w : world) :
  still_connected ser (c w) ->
  (forall a w', c w = Ret a w' -> (exists p, connected ser p w') ->
                still_connected ser (k a w')) ->
  still_connected ser ((c ≫= k) w).
Proof.
  intros Hc Hk. unfold mbind, M_bind, bind.
  destruct (c w) as [a w'|e w'|] eqn:Hcw; [by apply Hk|done|done].
Qed.

Lemma wait_for_response_connected (E : env) (ser : string) (w : world) :
  (exists p, connected ser p w) -> still_connected ser (wait_for_response E ser w).
Proof.
  intros [p [Hp Ho]]. rewrite (wait_for_response_eq E ser w p Hp Ho). cbv zeta.
  destruct (answer _); simpl; eexists; (split; [apply lookup_insert_eq|done]).
Qed.

Lemma ser_write_connected (ser : string) (data : list byte) (w : world) :
  (exists p, connected ser p w) -> still_connected ser (ser_write ser data w).
Proof.
  intros [p Hc]. rewrite (ser_write_eq ser data w p Hc). simpl.
  eexists. split; [apply lookup_insert_eq|apply Hc].
Qed.

Lemma bind_inv {A B} (c : M A) (k : A -> M B) (w w' : world) (b : B) :
  (c ≫= k) w = Ret b w' -> exists a w1, c w = Ret a w1 /\ k a w1 = Ret b w'.
Proof.
  unfold mbind, M_bind, bind. destruct (c w) as [a w1| |]; [|done|done]. eauto.
Qed.

Lemma save_config_inv (w w' : world) :
  save_config w = Ret tt w' -> w' = set_config_file (Some (config w)) w.
Proof. unfold save_config. case_bool_decide; [done|]. by intros [= <-]. Qed.

(** The connection that the handshake returns is open. *)
Lemma check_port_connected (E : env) (port data ser : string) (w w' : world) :
  check_port E port data w = Ret (Some ser) w' ->
  ser = port /\ exists p, connected ser p w'.
Proof.
  unfold check_port. intros H.
  apply bind_inv in H as (r & w0 & H & Hr).
  destruct r as [ser'|]; cycle 1.
  { unfold released in Hr. apply bind_inv in Hr as (a & w1 & [= <- <-] & Hr).
    apply bind_inv in Hr as ([] & w2 & _ & Hr). done. }
  injection Hr as -> ->. unfold try_except in H.
  match type of H with
  | match ?c with _ => _ end = _ =>
      destruct c as [a w1|e w1|] eqn:Hc; [|by destruct (is_os_error e)|done]
  end.
  injection H as -> ->.
  apply bind_inv in Hc as ([] & w1 & _ & Hc).
  apply bind_inv in Hc as (ser' & w2 & Hopen & Hc).
  assert (Hser : ser' = port /\ exists p, connected port p w2).
  { unfold serial_open in Hopen. destruct (ports w1 !! port) as [p|]; [|done].
    injection Hopen as <- <-. split; [done|]. eexists. split; [apply lookup_insert_eq|done]. }
  destruct Hser as [-> Hc2].
  apply bind_inv in Hc as ([] & w3 & [= <-] & Hc).
  apply bind_inv in Hc as (n & w4 & Hwrite & Hc).
  pose proof (ser_write_connected port (Py.encode data) (set_clock (clock w2 + 2) w2) Hc2)
    as Hc4. rewrite Hwrite in Hc4.
  apply bind_inv in Hc as (u & w5 & Hflush & Hc).
  apply ser_flush_step in Hflush as ->.
  apply bind_inv in Hc as ([res msg] & w6 & Hwait & Hc).
  pose proof (wait_for_response_connected E port _ Hc4) as Hc6. rewrite Hwait in Hc6.
  destruct (String.eqb res "OK"); [|done].
  by injection Hc as <- <-.
Qed.

Lemma find_programmer_connected (E : env) (data ser : string) (w w' : world) :
  find_programmer E data w = Ret (Some ser) w' -> exists p, connected ser p w'.
Proof.
  unfold find_programmer. intros H.
  apply bind_inv in H as ([] & w1 & _ & H).
  apply bind_inv in H as (ports & w2 & _ & H).
  revert w2 H. induction ports as [|port ports IH]; intros w2 H; [done|].
  simpl in H. apply bind_inv in H as (r & w3 & Hcheck & H).
  destruct r as [ser'|]; [|by apply (IH w3)].
  apply check_port_connected in Hcheck as [-> Hc].
  apply bind_inv in H as ([] & w4 & [= <-] & H).
  apply bind_inv in H as ([] & w5 & ->%save_config_inv & H).
  injection H as <- <-. exact Hc.
Qed.

(** * The program, function by function *)

(** ** The filter of the wait loop *)

Lemma encode_join_chr (l : list byte) : Py.encode (Py.join (List.map Py.chr l)) = l.
Proof.
  unfold Py.encode, String.list_byte_of_string.
  induction l as [|b l IH]; [done|]. cbn. f_equal; [apply byte_of_ascii_of_byte|exact IH].
Qed.

Lemma join_chr_encode (s : string) : Py.join (List.map Py.chr (Py.encode s)) = s.
Proof.
  unfold Py.encode, String.list_byte_of_string.
  induction s as [|c s IH]; [done|]. cbn. f_equal; [apply ascii_of_byte_of_ascii|exact IH].
Qed.

Lemma filter_all (l : list byte) :
  Forall (fun b => printable b = true) l -> List.filter printable l = l.
Proof.
  induction 1 as [|b l Hb _ IH]; [done|]. simpl. rewrite Hb. by f_equal.
Qed.

Lemma filter_none (l : list byte) :
  List.filter printable l = [] <-> Forall (fun b => printable b = false) l.
Proof.
  induction l as [|b l IH]; simpl; [done|].
  destruct (printable b) eqn:Hb.
  - split; [done|]. intros H. apply Forall_cons in H as [H _]. congruence.
  - rewrite IH. split; [by constructor|]. by intros [_ H]%Forall_cons.
Qed.

Lemma filter_filter (l : list byte) :
  List.filter printable (List.filter printable l) = List.filter printable l.
Proof.
  induction l as [|b l IH]; [done|]. simpl.
  destruct (printable b) eqn:Hb; [|exact IH]. simpl. rewrite Hb. by f_equal.
Qed.

Lemma read_filterd_bytes_filter (byte_array : list byte) :
  read_filterd_bytes (List.filter printable byte_array) = read_filterd_bytes byte_array.
Proof. unfold read_filterd_bytes. by rewrite filter_filter. Qed.

(** X1: [read_filterd_bytes] answers [None] exactly when no byte of the
    line lies in 32..126; otherwise it answers a string that is not empty
    and holds the bytes in that range, all of them and in their order. *)
Theorem read_filterd_bytes_keeps_printable (byte_array : list byte) :
  match read_filterd_bytes byte_array with
  | None =>
      Forall (fun b => ~ (32 <= Byte.to_N b <= 126)%N) byte_array
  | Some res =>
      res <> ""
      /\ Py.encode res =
         List.filter (fun b => (32 <=? Byte.to_N b)%N && (Byte.to_N b <=? 126)%N) byte_array
  end.
Proof.
  unfold read_filterd_bytes.
  change (fun b => (32 <=? Byte.to_N b)%N && (Byte.to_N b <=? 126)%N) with printable.
  destruct (List.filter printable byte_array) as [|b l] eqn:Hf.
  - apply filter_none in Hf. eapply Forall_impl; [exact Hf|].
    intros b Hb [H1 H2]. unfold printable in Hb.
    apply N.leb_le in H1, H2. by rewrite H1, H2 in Hb.
  - split; [done|]. apply encode_join_chr.
Qed.

(** X2: a text that is not empty and is made of printable ASCII
    characters comes out of the filter as it went into [encode]. *)
Theorem read_filterd_bytes_of_text (s : string) :
  s <> "" ->
  Forall (fun b => (32 <= Byte.to_N b <= 126)%N) (Py.encode s) ->
  read_filterd_bytes (Py.encode s) = Some s.
Proof.
  intros Hs Hp. unfold read_filterd_bytes. rewrite filter_all.
  - destruct (Py.encode s) as [|b l] eqn:He.
    + destruct s; [done|discriminate He].
    + rewrite <- He. by rewrite join_chr_encode.
  - eapply Forall_impl; [exact Hp|]. intros b [H1 H2]. unfold printable.
    apply N.leb_le in H1, H2. by rewrite H1, H2.
Qed.

Lemma read_filterd_bytes_of_text_witness :
  read_filterd_bytes (Py.encode "OK: 1.2.3") = Some "OK: 1.2.3".
Proof.
  apply (read_filterd_bytes_of_text "OK: 1.2.3"); [done|].
  repeat constructor; vm_compute; done.
Defined.

Lemma wait_loop_without_noise (v : bool) (script : list rx_event) :
  forall (timeout now : N) (o : list out),
  let r := wait_loop v timeout now o script in
  wait_loop v timeout now o (without_noise <$> script) =
  {| answer := answer r; w_clock := w_clock r;
     w_rx := without_noise <$> w_rx r; w_out := w_out r |}.
Proof.
  induction script as [|e script IH]; intros timeout now o; [done|].
  destruct e as [dt bs|]; [|done].
  cbn [fmap list_fmap without_noise wait_loop]. rewrite read_filterd_bytes_filter.
  change (list_fmap rx_event rx_event without_noise script) with (without_noise <$> script).
  assert (Hcheck : forall t o',
    (if (t + 5 <? now + dt)%N
     then {| answer := inl ("ERROR", "Timeout"); w_clock := (now + dt)%N;
             w_rx := without_noise <$> script; w_out := o' ++ [Print " --  Timeout"] |}
     else wait_loop v t (now + dt) o' (without_noise <$> script)) =
    (let r := if (t + 5 <? now + dt)%N
              then {| answer := inl ("ERROR", "Timeout"); w_clock := (now + dt)%N;
                      w_rx := script; w_out := o' ++ [Print " --  Timeout"] |}
              else wait_loop v t (now + dt) o' script in
     {| answer := answer r; w_clock := w_clock r;
        w_rx := without_noise <$> w_rx r; w_out := w_out r |})).
  { intros t o'. destruct (_ <? _)%N; [done|]. apply IH. }
  destruct (read_filterd_bytes bs) as [res|]; [|apply Hcheck].
  destruct (0 <? Py.len res); [|apply Hcheck].
  repeat (destruct (Py.contains _ res); [done|]).
  apply Hcheck.
Qed.

(** X3: bytes outside 32..126 never change what the wait loop answers:
    with every such byte taken out of the lines of the device beforehand,
    [wait_for_response] gives the same pair or the same exception, at the
    same time, with the same console output, and stops at the same line. *)
Theorem wait_for_response_ignores_noise (E : env) (ser : string) (w : world)
    (p : serial_port) :
  ports w !! ser = Some p -> is_open p = true ->
  let clean := with_port ser (set_rx (without_noise <$> rx p) p) w in
  match wait_for_response E ser w, wait_for_response E ser clean with
  | Ret t w1, Ret t' w1' =>
      t = t' /\ clock w1 = clock w1' /\ stdout w1 = stdout w1'
      /\ (rx <$> ports w1' !! ser) = (fmap without_noise ∘ rx <$> ports w1 !! ser)
  | Raise e w1, Raise e' w1' =>
      e = e' /\ clock w1 = clock w1' /\ stdout w1 = stdout w1'
      /\ (rx <$> ports w1' !! ser) = (fmap without_noise ∘ rx <$> ports w1 !! ser)
  | _, _ => False
  end.
Proof.
  intros Hp Ho clean.
  rewrite (wait_for_response_eq E ser w p Hp Ho).
  rewrite (wait_for_response_eq E ser clean (set_rx (without_noise <$> rx p) p));
    [|apply lookup_insert_eq|exact Ho].
  cbv zeta. cbn [rx set_rx clock stdout clean with_port set_ports].
  rewrite wait_loop_without_noise. cbv zeta. cbn [answer].
  destruct (answer _) as [t|e]; cbn; rewrite !lookup_insert_eq; done.
Qed.

Lemma wait_for_response_ignores_noise_witness :
  let clean := with_port "COM1" (set_rx (without_noise <$> rx noisy_port) noisy_port)
                 (host {["COM1" := noisy_port]}) in
  match wait_for_response quiet "COM1" (host {["COM1" := noisy_port]}),
        wait_for_response quiet "COM1" clean with
  | Ret t w1, Ret t' w1' =>
      t = t' /\ clock w1 = clock w1' /\ stdout w1 = stdout w1'
      /\ (rx <$> ports w1' !! "COM1") = (fmap without_noise ∘ rx <$> ports w1 !! "COM1")
  | Raise e w1, Raise e' w1' =>
      e = e' /\ clock w1 = clock w1' /\ stdout w1 = stdout w1'
      /\ (rx <$> ports w1' !! "COM1") = (fmap without_noise ∘ rx <$> ports w1 !! "COM1")
  | _, _ => False
  end.
Proof.
  apply (wait_for_response_ignores_noise quiet "COM1" (host {["COM1" := noisy_port]})
           noisy_port); [vm_compute; reflexivity|reflexivity].
Defined.

(** ** What a run leaves alone *)

Lemma outcome_bind {A B} (c : M A) (k : A -> M B) (w : world)
    (Q : B -> world -> Prop) (X : exn -> world -> Prop) :
  outcome (c w) (fun a w' => outcome (k a w') Q X) X ->
  outcome ((c ≫= k) w) Q X.
Proof. unfold mbind, M_bind, bind. by destruct (c w). Qed.

Lemma outcome_impl {A} (r : result A) (Q Q' : A -> world -> Prop)
    (X X' : exn -> world -> Prop) :
  outcome r Q X -> (forall a w, Q a w -> Q' a w) -> (forall e w, X e w -> X' e w) ->
  outcome r Q' X'.
Proof. destruct r; simpl; eauto. Qed.

Lemma outcome_try_except {A} (c : M A) (catches : exn -> bool) (h : exn -> M A)
    (w : world) (Q : A -> world -> Prop) (X : exn -> world -> Prop) :
  outcome (c w) Q (fun e w' => if catches e then outcome (h e w') Q X else X e w') ->
  outcome (try_except c catches h w) Q X.
Proof. unfold try_except. destruct (c w) as [a w'|e w'|]; simpl; [done| |done]. by destruct (catches e). Qed.

Lemma outcome_try_finally {A} (c : M A) (f : M unit) (w : world)
    (Q : A -> world -> Prop) (X : exn -> world -> Prop) :
  outcome (c w) (fun a w' => outcome (f w') (fun _ => Q a) X)
                (fun e w' => outcome (f w') (fun _ => X e) X) ->
  outcome (try_finally c f w) Q X.
Proof.
  unfold try_finally. destruct (c w) as [a w'|e w'|]; simpl; [| |done];
    by destruct (f w').
Qed.

Lemma only_port_refl (ser : string) (w : world) : only_port ser w w.
Proof. by repeat split. Qed.

Lemma only_port_trans (ser : string) (w1 w2 w3 : world) :
  only_port ser w1 w2 -> only_port ser w2 w3 -> only_port ser w1 w3.
Proof.
  intros (H1 & H2 & H3 & H4 & H5 & H6 & H7) (G1 & G2 & G3 & G4 & G5 & G6 & G7).
  repeat split; try congruence. intros q Hq. rewrite G7, H7; done.
Qed.

Lemma keeps_to_bind {A B} (ser : string) (c : M A) (k : A -> M B) :
  keeps_to ser c -> (forall a, keeps_to ser (k a)) -> keeps_to ser (c ≫= k).
Proof.
  intros Hc Hk w. apply outcome_bind. eapply outcome_impl; [apply Hc| |done].
  intros a w' Hw'. eapply outcome_impl; [apply Hk| |];
    intros ? w'' Hw''; by apply (only_port_trans ser w w' w'').
Qed.

Lemma keeps_to_ret {A} (ser : string) (a : A) : keeps_to ser (mret a : M A).
Proof. intros w. apply only_port_refl. Qed.

Lemma keeps_to_raise {A} (ser : string) (e : exn) : keeps_to ser (raise e : M A).
Proof. intros w. apply only_port_refl. Qed.

Lemma keeps_to_try_except {A} (ser : string) (c : M A) (catches : exn -> bool)
    (h : exn -> M A) :
  keeps_to ser c -> (forall e, keeps_to ser (h e)) -> keeps_to ser (try_except c catches h).
Proof.
  intros Hc Hh w. apply outcome_try_except. eapply outcome_impl; [apply Hc|done|].
  intros e w' Hw'. destruct (catches e); [|done].
  eapply outcome_impl; [apply Hh| |]; intros ? w'' Hw''; by apply (only_port_trans ser w w' w'').
Qed.

Lemma keeps_to_try_finally {A} (ser : string) (c : M A) (f : M unit) :
  keeps_to ser c -> keeps_to ser f -> keeps_to ser (try_finally c f).
Proof.
  intros Hc Hf w. apply outcome_try_finally. eapply outcome_impl; [apply Hc| |];
    intros ? w' Hw'; (eapply outcome_impl; [apply Hf| |]);
    intros ? w'' Hw''; by apply (only_port_trans ser w w' w'').
Qed.

Lemma keeps_to_print (ser s : string) : keeps_to ser (print s).
Proof. intros w. by repeat split. Qed.

Lemma keeps_to_print_inline (ser s : string) : keeps_to ser (print_inline s).
Proof. intros w. by repeat split. Qed.

Lemma keeps_to_emit (ser : string) (o : out) : keeps_to ser (emit o).
Proof. intros w. by repeat split. Qed.

Lemma keeps_to_time_time (ser : string) : keeps_to ser time_time.
Proof. intros w. apply only_port_refl. Qed.

Lemma keeps_to_time_sleep (ser : string) (d : N) : keeps_to ser (time_sleep d).
Proof. intros w. by repeat split. Qed.

Lemma keeps_to_get (ser : string) : keeps_to ser get.
Proof. intros w. apply only_port_refl. Qed.

Lemma keeps_to_pending (ser : string) : keeps_to ser (pending ser).
Proof. intros w. apply only_port_refl. Qed.

Lemma only_port_put (ser : string) (p : serial_port) (w : world) :
  only_port ser w (set_ports (<[ser := p]> (ports w)) w).
Proof. repeat split. intros q Hq. cbn. by rewrite lookup_insert_ne. Qed.

Lemma keeps_to_serial_open (port : string) : keeps_to port (serial_open port).
Proof.
  intros w. unfold serial_open. destruct (ports w !! port); simpl;
    [apply only_port_put|apply only_port_refl].
Qed.

Lemma keeps_to_the_port (ser : string) : keeps_to ser (the_port ser).
Proof.
  intros w. unfold the_port. destruct (ports w !! ser) as [p|]; [destruct (is_open p)|];
    apply only_port_refl.
Qed.

Lemma keeps_to_put_port (ser : string) (p : serial_port) : keeps_to ser (put_port ser p).
Proof. intros w. apply only_port_put. Qed.

Lemma keeps_to_ser_write (ser : string) (data : list byte) : keeps_to ser (ser_write ser data).
Proof.
  apply keeps_to_bind; [apply keeps_to_the_port|]. intros p.
  apply keeps_to_bind; [apply keeps_to_put_port|]. intros _. apply keeps_to_ret.
Qed.

Lemma keeps_to_ser_flush (ser : string) : keeps_to ser (ser_flush ser).
Proof.
  apply keeps_to_bind; [apply keeps_to_the_port|]. intros _. apply keeps_to_ret.
Qed.

Lemma keeps_to_ser_close (ser : string) : keeps_to ser (ser_close ser).
Proof.
  intros w. unfold ser_close. destruct (ports w !! ser); simpl;
    [apply only_port_put|apply only_port_refl].
Qed.

Lemma keeps_to_released {A} (ser : string) (c : M A) :
  keeps_to ser c -> keeps_to ser (released ser c).
Proof.
  intros Hc. apply keeps_to_bind; [done|]. intros a.
  apply keeps_to_bind; [apply keeps_to_ser_close|]. intros _. apply keeps_to_ret.
Qed.

Lemma keeps_to_ser_read (ser : string) (size : nat) : keeps_to ser (ser_read ser size).
Proof.
  apply keeps_to_bind; [apply keeps_to_the_port|]. intros p.
  destruct (rx p) as [|[dt data|] rest].
  - apply keeps_to_bind; [apply keeps_to_time_sleep|]. intros _. apply keeps_to_ret.
  - apply keeps_to_bind; [apply keeps_to_time_sleep|]. intros _.
    apply keeps_to_bind; [apply keeps_to_put_port|]. intros _. apply keeps_to_ret.
  - apply keeps_to_bind; [apply keeps_to_put_port|]. intros _. apply keeps_to_raise.
Qed.

Lemma keeps_to_wait_for_response (E : env) (ser : string) :
  keeps_to ser (wait_for_response E ser).
Proof.
  apply keeps_to_bind; [apply keeps_to_time_time|]. intros timeout.
  apply keeps_to_bind; [apply keeps_to_the_port|]. intros p.
  apply keeps_to_bind; [apply keeps_to_get|]. intros w0.
  apply keeps_to_bind; [intros w; by repeat split|]. intros _.
  apply keeps_to_bind; [apply keeps_to_put_port|]. intros _.
  destruct (answer _); [apply keeps_to_ret|apply keeps_to_raise].
Qed.

Lemma keeps_to_bind_with {A B} (ser : string) (c : M A) (k : A -> M B) (P : A -> Prop) :
  keeps_to ser c -> (forall w a w', c w = Ret a w' -> P a) ->
  (forall a, P a -> keeps_to ser (k a)) -> keeps_to ser (c ≫= k).
Proof.
  intros Hc HP Hk w. apply outcome_bind. specialize (Hc w). specialize (HP w).
  destruct (c w) as [a w'|e w'|]; simpl in *; [|done|done].
  eapply outcome_impl; [apply (Hk a (HP a w' eq_refl))| |];
    intros ? w'' Hw''; by apply (only_port_trans ser w w' w'').
Qed.

Lemma serial_open_handle (port ser : string) (w w' : world) :
  serial_open port w = Ret ser w' -> ser = port.
Proof. unfold serial_open. destruct (ports w !! port); [|done]. by intros [= <- _]. Qed.

Lemma keeps_to_check_port (E : env) (port data : string) :
  keeps_to port (check_port E port data).
Proof.
  apply keeps_to_bind; cycle 1.
  { intros [ser|]; [apply keeps_to_ret|]. by apply keeps_to_released, keeps_to_ret. }
  apply keeps_to_try_except; [|intros _; apply keeps_to_ret].
  apply keeps_to_bind; [destruct (verbose E); [apply keeps_to_print|apply keeps_to_ret]|].
  intros _.
  apply (keeps_to_bind_with port _ _ (fun ser => ser = port));
    [apply keeps_to_serial_open|intros w ser w'; apply serial_open_handle|].
  intros ser ->.
  apply keeps_to_bind; [apply keeps_to_time_sleep|]. intros _.
  apply keeps_to_bind; [apply keeps_to_ser_write|]. intros _.
  apply keeps_to_bind; [apply keeps_to_ser_flush|]. intros _.
  apply keeps_to_bind; [apply keeps_to_wait_for_response|]. intros [res msg].
  destruct (String.eqb res "OK"); [apply keeps_to_ret|].
  apply keeps_to_bind; [apply keeps_to_print|]. intros _. apply keeps_to_ret.
Qed.

(** ** Port discovery *)

Lemma add_comports_known (serial_ports : list port_info) :
  forall (ports : list string) (w : world),
  Forall (fun port => manufacturer port <> None) serial_ports ->
  exists l, add_comports serial_ports ports w = Ret l w.
Proof.
  induction serial_ports as [|port serial_ports IH]; intros ports w H; [by eexists|].
  apply Forall_cons in H as [Hm H]. simpl.
  destruct (manufacturer port) as [m|]; [|done].
  destruct (_ && _); by apply IH.
Qed.

Lemma add_comports_unknown (serial_ports : list port_info) :
  forall (ports : list string) (w : world),
  Exists (fun port => manufacturer port = None) serial_ports ->
  add_comports serial_ports ports w = Raise TypeError w.
Proof.
  induction serial_ports as [|port serial_ports IH]; intros ports w H;
    [by apply Exists_nil in H|].
  simpl. destruct (manufacturer port) as [m|] eqn:Hm; [|done].
  apply Exists_cons in H as [H|H]; [congruence|].
  destruct (_ && _); by apply IH.
Qed.

(** X4: [find_comports] raises TypeError exactly when the system lists a
    port without a manufacturer text ([port.manufacturer] is None), and
    then nothing has been changed; otherwise it returns a list. *)
Theorem find_comports_manufacturer_None (w : world) :
  ((exists port, port ∈ comports w /\ manufacturer port = None)
   <-> find_comports w = Raise TypeError w)
  /\ ((forall port, port ∈ comports w -> manufacturer port <> None)
      <-> exists l, find_comports w = Ret l w).
Proof.
  assert (Hfc : find_comports w =
                add_comports (comports w)
                  (match config w !! "port" with Some port => [port] | None => [] end) w)
    by done.
  rewrite Hfc.
  destruct (decide (Exists (fun port => manufacturer port = None) (comports w))) as [He|He].
  - pose proof (add_comports_unknown _ (match config w !! "port" with
                                        | Some port => [port] | None => [] end) w He) as Hr.
    rewrite Hr. apply Exists_exists in He. split; [done|].
    split; [|by intros [l Hl]].
    intros Hall. destruct He as (port & Hin & Hn). by destruct (Hall port Hin).
  - apply not_Exists_Forall in He; [|intros port; apply _].
    pose proof (add_comports_known _ (match config w !! "port" with
                                      | Some port => [port] | None => [] end) w He)
      as [l Hr].
    rewrite Hr. rewrite Forall_forall in He. split.
    + split; [|done]. intros (port & Hin & Hn). by destruct (He port Hin).
    + split; [by eexists|]. intros _ port Hin. apply (He port Hin).
Qed.

(** A port of the system's list that [find_comports] takes: its
    manufacturer text holds Arduino or FTDI. *)
Lemma add_comports_spec (serial_ports : list port_info) :
  forall (ports l : list string) (w w' : world),
  add_comports serial_ports ports w = Ret l w' ->
  w' = w
  /\ (exists more, l = ports ++ more)
  /\ (NoDup ports -> NoDup l)
  /\ (forall d, d ∈ l <-> d ∈ ports \/ exists port, port ∈ serial_ports /\ device port = d /\ programmer_like port = true).
Proof.
  induction serial_ports as [|port serial_ports IH]; intros ports l w w' H.
  - injection H as <- <-. split; [done|]. split; [exists []; by rewrite app_nil_r|].
    split; [done|]. intros d. split; [by left|]. intros [Hd|(port & Hin & _)]; [done|].
    by apply elem_of_nil in Hin.
  - simpl in H. unfold programmer_like at 1.
    destruct (manufacturer port) as [m|] eqn:Hm; [|done].
    destruct (Py.contains "Arduino" m || Py.contains "FTDI" m) eqn:Hc; simpl in H.
    + destruct (bool_decide (device port ∈ ports)) eqn:Hin; simpl in H.
      * apply bool_decide_eq_true in Hin.
        apply IH in H as (-> & Hpre & Hnd & Hmem). split; [done|]. split; [done|].
        split; [done|]. intros d. rewrite Hmem. split.
        -- intros [Hd|(q & Hq & Hdev & Hpl)]; [by left|]. right. exists q.
           split; [by apply list_elem_of_further|done].
        -- intros [Hd|(q & Hq & Hdev & Hpl)]; [by left|].
           apply elem_of_cons in Hq as [->|Hq]; [left; by rewrite <- Hdev|].
           right. by exists q.
      * apply bool_decide_eq_false in Hin.
        apply IH in H as (-> & [more Hpre] & Hnd & Hmem). split; [done|].
        split; [exists (device port :: more); by rewrite Hpre, <- app_assoc|].
        split.
        -- intros Hp. apply Hnd. apply NoDup_app. split; [done|].
           split; [|apply NoDup_singleton].
           intros x Hx Hx'. apply list_elem_of_singleton in Hx'. by subst.
        -- intros d. rewrite Hmem, elem_of_app, list_elem_of_singleton. split.
           ++ intros [[Hd| ->]|(q & Hq & Hdev & Hpl)]; [by left| |].
              ** right. exists port. split; [apply list_elem_of_here|].
                 split; [done|]. unfold programmer_like. by rewrite Hm.
              ** right. exists q. split; [by apply list_elem_of_further|done].
           ++ intros [Hd|(q & Hq & Hdev & Hpl)]; [by left; left|].
              apply elem_of_cons in Hq as [->|Hq]; [left; by right|].
              right. by exists q.
    + apply IH in H as (-> & Hpre & Hnd & Hmem). split; [done|]. split; [done|].
      split; [done|]. intros d. rewrite Hmem. split.
      * intros [Hd|(q & Hq & Hdev & Hpl)]; [by left|]. right. exists q.
        split; [by apply list_elem_of_further|done].
      * intros [Hd|(q & Hq & Hdev & Hpl)]; [by left|].
        apply elem_of_cons in Hq as [->|Hq].
        -- unfold programmer_like in Hpl. rewrite Hm in Hpl. congruence.
        -- right. by exists q.
Qed.

(** X5: the list that [find_comports] returns has no port twice; it
    starts with the port remembered in the settings, when there is one;
    and it holds, besides that port, exactly the devices of the system's
    list whose manufacturer text contains Arduino or FTDI.  The host is
    left as it was. *)
Theorem find_comports_candidates (w w' : world) (l : list string) :
  find_comports w = Ret l w' ->
  w' = w
  /\ NoDup l
  /\ (forall port, config w !! "port" = Some port -> head l = Some port)
  /\ (forall d, d ∈ l <->
        config w !! "port" = Some d \/
        exists port m, port ∈ comports w /\ device port = d
          /\ manufacturer port = Some m
          /\ (Py.contains "Arduino" m = true \/ Py.contains "FTDI" m = true)).
Proof.
  intros H.
  apply (add_comports_spec (comports w)
           (match config w !! "port" with Some port => [port] | None => [] end)) in H
    as (-> & [more Hpre] & Hnd & Hmem).
  split; [done|]. split.
  { apply Hnd. destruct (config w !! "port"); [apply NoDup_singleton|apply NoDup_nil_2]. }
  split.
  { intros port Hport. rewrite Hpre, Hport. done. }
  intros d. rewrite Hmem. split.
  - intros [Hd|(port & Hin & Hdev & Hpl)].
    + left. destruct (config w !! "port") as [c|]; [|by apply elem_of_nil in Hd].
      apply list_elem_of_singleton in Hd. by subst.
    + right. unfold programmer_like in Hpl.
      destruct (manufacturer port) as [m|] eqn:Hm; [|done].
      exists port, m. repeat (split; [done|]). by apply orb_true_iff.
  - intros [Hd|(port & m & Hin & Hdev & Hm & Hc)].
    + left. rewrite Hd. apply list_elem_of_singleton. done.
    + right. exists port. repeat (split; [done|]). unfold programmer_like.
      rewrite Hm. by apply orb_true_iff.
Qed.

Lemma find_comports_candidates_witness :
  two_ports = two_ports
  /\ NoDup ["COM1"; "COM2"]
  /\ (forall port, config two_ports !! "port" = Some port -> head ["COM1"; "COM2"] = Some port)
  /\ (forall d, d ∈ ["COM1"; "COM2"] <->
        config two_ports !! "port" = Some d \/
        exists port m, port ∈ comports two_ports /\ device port = d
          /\ manufacturer port = Some m
          /\ (Py.contains "Arduino" m = true \/ Py.contains "FTDI" m = true)).
Proof. apply (find_comports_candidates two_ports two_ports ["COM1"; "COM2"]). reflexivity. Defined.

Lemma silence_later (fuel : nat) (timeout now : N) : (now < silence fuel timeout now)%N.
Proof.
  revert now. induction fuel as [|fuel IH]; intros now; simpl.
  - destruct (_ <? _)%N; lia.
  - destruct (_ <? _)%N; [lia|]. specialize (IH (now + 1)%N). lia.
Qed.

Lemma wait_loop_clock (v : bool) (script : list rx_event) :
  forall (timeout now : N) (o : list out),
  (now <= w_clock (wait_loop v timeout now o script))%N.
Proof.
  induction script as [|e script IH]; intros timeout now o.
  - simpl. pose proof (silence_later (N.to_nat (timeout + 5 - now)) timeout now). lia.
  - destruct e as [dt bs|]; [|simpl; lia]. cbn [wait_loop].
    assert (Hcheck : forall t o',
      (now <= w_clock (if (t + 5 <? now + dt)%N
                       then {| answer := inl ("ERROR", "Timeout"); w_clock := (now + dt)%N;
                               w_rx := script; w_out := o' ++ [Print " --  Timeout"] |}
                       else wait_loop v t (now + dt) o' script))%N).
    { intros t o'. destruct (_ <? _)%N; simpl; [lia|].
      specialize (IH t (now + dt)%N o'). lia. }
    destruct (read_filterd_bytes bs) as [res|]; [|apply Hcheck].
    destruct (0 <? Py.len res); [|apply Hcheck].
    repeat (destruct (Py.contains _ res); [simpl; lia|]).
    apply Hcheck.
Qed.

Lemma wait_loop_out (v : bool) (script : list rx_event) :
  forall (timeout now : N) (o : list out),
  exists l, w_out (wait_loop v timeout now o script) = o ++ l /\ Forall is_print l.
Proof.
  assert (Hfb : forall msg o, exists l, write_feedback v msg o = o ++ l /\ Forall is_print l).
  { intros msg o. unfold write_feedback. destruct v.
    - exists [Print msg]. split; [done|]. by repeat constructor.
    - exists []. by rewrite app_nil_r. }
  induction script as [|e script IH]; intros timeout now o.
  - simpl. exists [Print " --  Timeout"]. split; [done|]. by repeat constructor.
  - destruct e as [dt bs|]; [|exists []; by rewrite app_nil_r]. cbn [wait_loop].
    assert (Hcheck : forall t l0, Forall is_print l0 ->
      exists l,
        w_out (if (t + 5 <? now + dt)%N
               then {| answer := inl ("ERROR", "Timeout"); w_clock := (now + dt)%N;
                       w_rx := script; w_out := (o ++ l0) ++ [Print " --  Timeout"] |}
               else wait_loop v t (now + dt) (o ++ l0) script) = o ++ l
        /\ Forall is_print l).
    { intros t l0 Hl0. destruct (_ <? _)%N; simpl.
      - exists (l0 ++ [Print " --  Timeout"]). split; [by rewrite app_assoc|].
        apply Forall_app. split; [done|]. by repeat constructor.
      - destruct (IH t (now + dt)%N (o ++ l0)) as (l & -> & Hl).
        exists (l0 ++ l). split; [by rewrite app_assoc|]. by apply Forall_app. }
    assert (Hcheck0 : forall t,
      exists l,
        w_out (if (t + 5 <? now + dt)%N
               then {| answer := inl ("ERROR", "Timeout"); w_clock := (now + dt)%N;
                       w_rx := script; w_out := o ++ [Print " --  Timeout"] |}
               else wait_loop v t (now + dt) o script) = o ++ l
        /\ Forall is_print l).
    { intros t. specialize (Hcheck t [] ltac:(constructor)).
      by rewrite app_nil_r in Hcheck. }
    destruct (read_filterd_bytes bs) as [res|]; [|apply Hcheck0].
    destruct (0 <? Py.len res); [|apply Hcheck0].
    do 4 (destruct (Py.contains _ res); [apply Hfb|]).
    destruct (Py.contains "INFO:" res); [|apply Hcheck0].
    destruct (Hfb (Py.slice_from res (Py.rfind res "INFO:")) o) as (l0 & -> & Hl0).
    by apply Hcheck.
Qed.

(** What the wait loop answers depends on the reads alone, and not on the
    moment the wait starts, on the console or on the verbose mode. *)
Lemma wait_loop_answer_shift (v v' : bool) (script : list rx_event) :
  forall (d timeout now : N) (o o' : list out),
  answer (wait_loop v (timeout + d) (now + d) o script)
  = answer (wait_loop v' timeout now o' script).
Proof.
  induction script as [|e script IH]; intros d timeout now o o'; [done|].
  destruct e as [dt bs|]; [|done]. cbn [wait_loop].
  replace (now + d + dt)%N with (now + dt + d)%N by lia.
  assert (Hcheck : forall t o1 o2,
    answer (if (t + d + 5 <? now + dt + d)%N
            then {| answer := inl ("ERROR", "Timeout"); w_clock := (now + dt + d)%N;
                    w_rx := script; w_out := o1 ++ [Print " --  Timeout"] |}
            else wait_loop v (t + d) (now + dt + d) o1 script)
    = answer (if (t + 5 <? now + dt)%N
              then {| answer := inl ("ERROR", "Timeout"); w_clock := (now + dt)%N;
                      w_rx := script; w_out := o2 ++ [Print " --  Timeout"] |}
              else wait_loop v' t (now + dt) o2 script)).
  { intros t o1 o2.
    replace (t + d + 5 <? now + dt + d)%N with (t + 5 <? now + dt)%N
      by (destruct (N.ltb_spec (t + 5) (now + dt)), (N.ltb_spec (t + d + 5) (now + dt + d));
          (done || lia)).
    destruct (_ <? _)%N; [done|]. apply IH. }
  destruct (read_filterd_bytes bs) as [res|]; [|apply Hcheck].
  destruct (0 <? Py.len res); [|apply Hcheck].
  do 4 (destruct (Py.contains _ res); [done|]).
  apply Hcheck.
Qed.

Lemma wait_loop_first_answer (v : bool) (c : N) (o : list out) (p : serial_port) :
  answer (wait_loop v c c o (rx p)) = first_answer p.
Proof.
  unfold first_answer. rewrite <- (N.add_0_l c) at 1 2.
  apply wait_loop_answer_shift.
Qed.

(** What [check_port] does with a port: one that cannot be opened is
    given up with nothing changed but the console; one that can be opened
    is sent the envelope two time units later; it is returned, open, when
    its first answer is OK, and closed again otherwise, the text of the
    answer on the console. *)
Lemma check_port_run (E : env) (port data : string) (w : world) :
  exists r w',
    check_port E port data w = Ret r w'
    /\ only_port port w w'
    /\ stdout w `prefix_of` stdout w'
    /\ match ports w !! port with
       | None => r = None /\ ports w' = ports w /\ clock w' = clock w
       | Some p =>
           tx <$> ports w' !! port = Some (tx p ++ [Py.encode data])
           /\ (clock w + 2 <= clock w')%N
           /\ match first_answer p with
              | inl (kind, msg) =>
                  if String.eqb kind "OK"
                  then r = Some port /\ is_open <$> ports w' !! port = Some true
                  else r = None /\ is_open <$> ports w' !! port = Some false
                       /\ last (stdout w') = Some (Print msg)
              | inr _ => r = None /\ is_open <$> ports w' !! port = Some false
              end
       end.
Proof.
  enough (exists r w',
    check_port E port data w = Ret r w'
    /\ stdout w `prefix_of` stdout w'
    /\ match ports w !! port with
       | None => r = None /\ ports w' = ports w /\ clock w' = clock w
       | Some p =>
           tx <$> ports w' !! port = Some (tx p ++ [Py.encode data])
           /\ (clock w + 2 <= clock w')%N
           /\ match first_answer p with
              | inl (kind, msg) =>
                  if String.eqb kind "OK"
                  then r = Some port /\ is_open <$> ports w' !! port = Some true
                  else r = None /\ is_open <$> ports w' !! port = Some false
                       /\ last (stdout w') = Some (Print msg)
              | inr _ => r = None /\ is_open <$> ports w' !! port = Some false
              end
       end) as (r & w' & Heq & Hpre & Hm).
  { exists r, w'. pose proof (keeps_to_check_port E port data w) as Hk.
    rewrite Heq in Hk. done. }
  assert (Hv : exists o, (if verbose E then print ("Check port: " +:+ port) else ret tt) w
                         = Ret tt (set_stdout (stdout w ++ o) w)).
  { destruct (verbose E); [by eexists|]. exists []. rewrite app_nil_r. by destruct w. }
  destruct Hv as [o Hv].
  unfold check_port.
  destruct (ports w !! port) as [p|] eqn:Hp.
  - assert (Hopen : serial_open port (set_stdout (stdout w ++ o) w) =
                    Ret port (with_port port (set_open true p) (set_stdout (stdout w ++ o) w))).
    { unfold serial_open. cbn. by rewrite Hp. }
    set (w2 := set_clock (clock w + 2)
                 (with_port port (set_open true p) (set_stdout (stdout w ++ o) w))).
    assert (Hc2 : connected port (set_open true p) w2).
    { split; [apply lookup_insert_eq|done]. }
    set (p3 := set_tx (tx p ++ [Py.encode data]) (set_open true p)).
    set (w3 := with_port port p3 w2).
    assert (Hp3 : ports w3 !! port = Some p3) by apply lookup_insert_eq.
    pose proof (wait_for_response_eq E port w3 p3 Hp3 eq_refl) as Hw. cbv zeta in Hw.
    pose proof (wait_loop_clock (verbose E) (rx p3) (clock w3) (clock w3) (stdout w3)) as Hclk.
    pose proof (wait_loop_ends (verbose E) (rx p3) (clock w3) (clock w3) (stdout w3)) as He.
    destruct (wait_loop_out (verbose E) (rx p3) (clock w3) (clock w3) (stdout w3))
      as (l & Hout & _).
    rewrite (wait_loop_first_answer (verbose E) (clock w3) (stdout w3) p3) in Hw, He.
    change (first_answer p3) with (first_answer p) in Hw, He.
    set (r3 := wait_loop (verbose E) (clock w3) (clock w3) (stdout w3) (rx p3)) in *.
    assert (Hbody : forall k : string -> string * string -> M (option string),
      ((if verbose E then print ("Check port: " +:+ port) else ret tt);;
       ser ← serial_open port;
       time_sleep 2;;
       ser_write ser (Py.encode data);;
       ser_flush ser;;
       t ← wait_for_response E ser;
       k ser t) w
      = (wait_for_response E port ≫= k port) w3).
    { intros k. rewrite (bind_Ret _ _ _ _ _ Hv), (bind_Ret _ _ _ _ _ Hopen).
      erewrite bind_Ret; [|reflexivity].
      rewrite (bind_Ret _ _ _ _ _ (ser_write_eq port _ w2 _ Hc2)).
      by rewrite (bind_Ret _ _ _ _ _ (ser_flush_eq port w3 p3 (conj Hp3 eq_refl))). }
    assert (Hclock : (clock w + 2 <= w_clock r3)%N).
    { assert (clock w3 = (clock w + 2)%N) by reflexivity. lia. }
    assert (Hpre : stdout w `prefix_of` w_out r3).
    { rewrite Hout. change (stdout w3) with (stdout w ++ o).
      exists (o ++ l). by rewrite (assoc_L (++)). }
    destruct (first_answer p) as [[res msg]|e] eqn:Ha.
    + destruct (String.eqb res "OK") eqn:Hres.
      * eexists _, _. split.
        { erewrite bind_Ret; cycle 1.
          { unfold try_except. rewrite Hbody.
            rewrite (bind_Ret _ _ _ _ _ Hw). cbv beta iota. rewrite Hres. reflexivity. }
          reflexivity. }
        cbn. rewrite lookup_insert_eq. done.
      * eexists _, _. split.
        { erewrite bind_Ret; cycle 1.
          { unfold try_except. rewrite Hbody.
            rewrite (bind_Ret _ _ _ _ _ Hw). cbv beta iota. rewrite Hres. reflexivity. }
          cbv beta iota. eapply released_Ret; [reflexivity|].
          cbn. apply lookup_insert_eq. }
        cbn. rewrite lookup_insert_eq. cbn.
        split; [by etrans; [exact Hpre|apply prefix_app_r]|].
        split; [done|]. split; [done|]. split; [done|]. split; [done|]. apply last_snoc.
    + destruct He as [-> _].
      eexists _, _. split.
      { erewrite bind_Ret; cycle 1.
        { unfold try_except. rewrite Hbody.
          rewrite (bind_Raise _ _ _ _ _ Hw). reflexivity. }
        cbv beta iota. eapply released_Ret; [reflexivity|].
        cbn. apply lookup_insert_eq. }
      cbn. rewrite lookup_insert_eq. cbn. done.
  - assert (Hopen : serial_open port (set_stdout (stdout w ++ o) w)
                    = Raise SerialException (set_stdout (stdout w ++ o) w)).
    { unfold serial_open. cbn. by rewrite Hp. }
    eexists None, (set_stdout (stdout w ++ o) w). split.
    { erewrite bind_Ret; cycle 1.
      { unfold try_except. rewrite (bind_Ret _ _ _ _ _ Hv).
        rewrite (bind_Raise _ _ _ _ _ Hopen). reflexivity. }
      cbv beta iota. unfold released. run_pure.
      unfold ser_close, mbind, M_bind, bind. cbn. by rewrite Hp. }
    split; [by apply prefix_app_r|done].
Qed.

(** X6: [check_port] lets no exception out and answers the port itself
    or [None].  A port that cannot be opened is given up with nothing
    changed but the console of the verbose mode.  A port that can be opened
    is sent the envelope, once, two time units after it was opened; when
    [check_port] is done it is open if it is the answer, and closed again
    if it is not; no other port, file or setting is touched. *)
Theorem check_port_lets_nothing_out (E : env) (port data : string) (w : world) :
  match check_port E port data w with
  | Ret r w' =>
      (r = None \/ r = Some port)
      /\ (config w' = config w /\ config_file w' = config_file w /\ fs w' = fs w
          /\ forall q, q <> port -> ports w' !! q = ports w !! q)
      /\ match ports w !! port with
         | None => r = None /\ ports w' = ports w /\ clock w' = clock w
         | Some p =>
             tx <$> ports w' !! port = Some (tx p ++ [Py.encode data])
             /\ is_open <$> ports w' !! port = Some (bool_decide (r = Some port))
             /\ (clock w + 2 <= clock w')%N
         end
  | Raise _ _ => False
  | Diverged => True
  end.
Proof.
  destruct (check_port_run E port data w) as (r & w' & -> & Hk & _ & Hm).
  destruct Hk as (H1 & H2 & H3 & _ & _ & _ & H7).
  destruct (ports w !! port) as [p|].
  - destruct Hm as (Htx & Hclk & Hm). destruct (first_answer p) as [[kind msg]|e].
    + destruct (String.eqb kind "OK").
      * destruct Hm as [-> Ho]. rewrite bool_decide_eq_true_2 by done. by repeat split; auto.
      * destruct Hm as (-> & Ho & _). by repeat split; auto.
    + destruct Hm as [-> Ho]. by repeat split; auto.
  - destruct Hm as (-> & ? & ?). by repeat split; auto.
Qed.

Lemma add_comports_pure (serial_ports : list port_info) :
  forall (ports : list string),
  (exists l, forall w, add_comports serial_ports ports w = Ret l w)
  \/ (forall w, add_comports serial_ports ports w = Raise TypeError w).
Proof.
  induction serial_ports as [|port serial_ports IH]; intros ports; [left; by eexists|].
  simpl. destruct (manufacturer port); [|by right]. destruct (_ && _); apply IH.
Qed.

Lemma find_comports_pure (w : world) :
  (exists l, find_comports w = Ret l w /\
             forall o, find_comports (set_stdout o w) = Ret l (set_stdout o w))
  \/ (find_comports w = Raise TypeError w /\
      forall o, find_comports (set_stdout o w) = Raise TypeError (set_stdout o w)).
Proof.
  destruct (add_comports_pure (comports w)
              (match config w !! "port" with Some port => [port] | None => [] end))
    as [[l H]|H]; [left; exists l|right]; split; try apply H; intros o; apply H.
Qed.

Lemma given_up_later (data q : string) (w w1 w' : world) :
  given_up data q w w1 -> ports w' !! q = ports w1 !! q ->
  stdout w1 `prefix_of` stdout w' -> given_up data q w w'.
Proof.
  unfold given_up. intros H Heq [k Hk]. rewrite Heq, Hk.
  destruct (ports w !! q) as [p|]; [|done].
  destruct H as (? & ? & H). repeat (split; [done|]).
  destruct (first_answer p) as [[kind msg]|e]; [|done].
  destruct H as [? H]. split; [done|]. apply elem_of_app. by left.
Qed.

Lemma given_up_earlier (data q : string) (w w1 w' : world) :
  given_up data q w1 w' -> ports w1 !! q = ports w !! q -> given_up data q w w'.
Proof. unfold given_up. intros H Heq. rewrite <- Heq. exact H. Qed.

Lemma taken_later (data q : string) (w w1 w' : world) :
  taken data q w w1 -> ports w' !! q = ports w1 !! q -> taken data q w w'.
Proof. unfold taken. intros H Heq. by rewrite Heq. Qed.

(** A port that [check_port] has been through is given up or taken. *)
Lemma check_port_verdict (E : env) (port data : string) (w : world) :
  exists r w',
    check_port E port data w = Ret r w'
    /\ only_port port w w'
    /\ stdout w `prefix_of` stdout w'
    /\ ((r = None /\ given_up data port w w')
        \/ (r = Some port /\ taken data port w w')).
Proof.
  destruct (check_port_run E port data w) as (r & w' & Heq & Hk & Hpre & Hm).
  exists r, w'. repeat (split; [done|]). unfold given_up, taken.
  destruct (ports w !! port) as [p|] eqn:Hp.
  - destruct Hm as (Htx & _ & Hm). destruct (first_answer p) as [[kind msg]|e] eqn:Ha.
    + destruct (String.eqb_spec kind "OK") as [->|Hne].
      * right. destruct Hm as [-> Ho]. split; [done|]. by exists p, msg.
      * left. destruct Hm as (-> & Ho & Hlast). repeat (split; [done|]).
        apply last_Some in Hlast as [l' ->].
        apply elem_of_app. right. apply list_elem_of_here.
    + left. by destruct Hm as [-> Ho].
  - left. destruct Hm as (-> & Hports & _). by rewrite Hports.
Qed.

(** The loop of [find_programmer] over candidates that are all different:
    the candidates [l1] are given up one after the other; then either the
    list is used up, or the next candidate is taken and remembered, and
    the settings are saved if they can be. *)
Lemma try_ports_run (E : env) (data : string) (l : list string) :
  forall w, NoDup l ->
  exists l1 w',
    fs w' = fs w /\ readonly w' = readonly w /\ unreadable w' = unreadable w
    /\ comports w' = comports w
    /\ stdout w `prefix_of` stdout w'
    /\ (forall q, q ∉ l -> ports w' !! q = ports w !! q)
    /\ (forall q, q ∈ l1 -> given_up data q w w')
    /\ ((l1 = l /\ try_ports E data l w = Ret None w'
         /\ config w' = config w /\ config_file w' = config_file w)
        \/ exists ser l2,
             l = l1 ++ ser :: l2
             /\ taken data ser w w'
             /\ (forall q, q ∈ l2 -> ports w' !! q = ports w !! q)
             /\ config w' = <["port" := ser]> (config w)
             /\ if bool_decide (CONFIG_FILE ∈ readonly w)
                then try_ports E data l w = Raise OSError w'
                     /\ config_file w' = config_file w
                else try_ports E data l w = Ret (Some ser) w'
                     /\ config_file w' = Some (config w')).
Proof.
  induction l as [|port l IH]; intros w Hnd.
  - exists [], w. repeat (split; [done|]).
    split; [intros q Hq; by apply elem_of_nil in Hq|]. by left.
  - apply NoDup_cons in Hnd as [Hport Hnd].
    destruct (check_port_verdict E port data w) as (r & w1 & Heq & Hk & Hpre & Hr).
    destruct Hk as (K1 & K2 & K3 & K4 & K5 & K6 & K7).
    simpl. rewrite (bind_Ret _ _ _ _ _ Heq). destruct Hr as [[-> Hg]|[-> Ht]].
    + destruct (IH w1 Hnd) as (l1 & w' & F1 & F2 & F3 & F4 & F5 & F6 & F7 & Hr).
      exists (port :: l1), w'. repeat (split; [congruence|]).
      split; [by etrans|].
      split.
      { intros q Hq. apply not_elem_of_cons in Hq as [Hq1 Hq2]. rewrite F6, K7; done. }
      assert (Hl1 : forall q, q ∈ l1 -> q ∈ l).
      { intros q Hq. destruct Hr as [(-> & _)|(ser & l2 & -> & _)]; [done|].
        apply elem_of_app. by left. }
      split.
      { intros q Hq. apply elem_of_cons in Hq as [->|Hq].
        - eapply given_up_later; [exact Hg| |exact F5]. by apply F6.
        - eapply given_up_earlier; [by apply F7|]. apply K7. intros ->.
          by apply Hport, Hl1. }
      destruct Hr as [(-> & Htry & C1 & C2)|(ser & l2 & -> & Ht & C2 & C3 & C4)].
      * left. repeat (split; [done || congruence|]). congruence.
      * right. exists ser, l2. split; [done|].
        split.
        { destruct Ht as (p & msg & Hp & Ht). exists p, msg. split; [|done].
          rewrite <- Hp. symmetry. apply K7. intros ->.
          apply Hport, elem_of_app. right. apply list_elem_of_here. }
        split.
        { intros q Hq. rewrite C2, K7; [done| |done]. intros ->.
          apply Hport, elem_of_app. right. by apply list_elem_of_further. }
        split; [congruence|]. rewrite <- K4.
        case_bool_decide; (split; [apply C4|]); destruct C4 as [_ C4]; congruence.
    + exists [], (if bool_decide (CONFIG_FILE ∈ readonly w)
                  then set_config (<["port" := port]> (config w1)) w1
                  else set_config_file (Some (<["port" := port]> (config w1)))
                         (set_config (<["port" := port]> (config w1)) w1)).
      assert (Hsave : save_config (set_config (<["port" := port]> (config w1)) w1)
                = if bool_decide (CONFIG_FILE ∈ readonly w)
                  then Raise OSError (set_config (<["port" := port]> (config w1)) w1)
                  else Ret tt (set_config_file (Some (<["port" := port]> (config w1)))
                                 (set_config (<["port" := port]> (config w1)) w1))).
      { unfold save_config. cbn [readonly set_config]. rewrite K4. by case_bool_decide. }
      run_pure.
      case_bool_decide.
      * rewrite (bind_Raise _ _ _ _ _ Hsave).
        repeat (split; [done|]).
        split; [intros q Hq; apply not_elem_of_cons in Hq as [Hq1 Hq2]; by apply K7|].
        split; [intros q Hq; by apply elem_of_nil in Hq|].
        right. exists port, l. split; [done|]. split; [exact Ht|].
        split; [intros q Hq; apply K7; by intros ->|].
        split; [by rewrite <- K1|]. done.
      * rewrite (bind_Ret _ _ _ _ _ Hsave).
        repeat (split; [done|]).
        split; [intros q Hq; apply not_elem_of_cons in Hq as [Hq1 Hq2]; by apply K7|].
        split; [intros q Hq; by apply elem_of_nil in Hq|].
        right. exists port, l. split; [done|]. split; [exact Ht|].
        split; [intros q Hq; apply K7; by intros ->|].
        split; [by rewrite <- K1|]. done.
Qed.

Lemma find_comports_NoDup (w w' : world) (l : list string) :
  find_comports w = Ret l w' -> NoDup l.
Proof.
  intros H.
  apply (add_comports_spec (comports w)
           (match config w !! "port" with Some port => [port] | None => [] end)) in H
    as (_ & _ & Hnd & _).
  apply Hnd. destruct (config w !! "port"); [apply NoDup_singleton|apply NoDup_nil_2].
Qed.

(** [find_programmer]: the candidates of [find_comports], tried in their
    order *)
Lemma find_programmer_run (E : env) (data : string) (w : world) :
  (find_comports w = Raise TypeError w
   /\ exists o, find_programmer E data w = Raise TypeError (set_stdout o w))
  \/ exists l l1 w',
       find_comports w = Ret l w /\ NoDup l
       /\ fs w' = fs w /\ readonly w' = readonly w /\ unreadable w' = unreadable w
       /\ comports w' = comports w
       /\ stdout w `prefix_of` stdout w'
       /\ (forall q, q ∉ l -> ports w' !! q = ports w !! q)
       /\ (forall q, q ∈ l1 -> given_up data q w w')
       /\ ((l1 = l /\ find_programmer E data w = Ret None w'
            /\ config w' = config w /\ config_file w' = config_file w)
           \/ exists ser l2,
                l = l1 ++ ser :: l2
                /\ taken data ser w w'
                /\ (forall q, q ∈ l2 -> ports w' !! q = ports w !! q)
                /\ config w' = <["port" := ser]> (config w)
                /\ if bool_decide (CONFIG_FILE ∈ readonly w)
                   then find_programmer E data w = Raise OSError w'
                        /\ config_file w' = config_file w
                   else find_programmer E data w = Ret (Some ser) w'
                        /\ config_file w' = Some (config w')).
Proof.
  assert (Hv : exists o, (if verbose E then print "Config data:";; print data else ret tt) w
                         = Ret tt (set_stdout (stdout w ++ o) w)).
  { destruct (verbose E).
    - exists [Print "Config data:"; Print data].
      replace (stdout w ++ [Print "Config data:"; Print data])
        with ((stdout w ++ [Print "Config data:"]) ++ [Print data])
        by (by rewrite <- (assoc_L (++))).
      reflexivity.
    - exists []. rewrite app_nil_r. by destruct w. }
  destruct Hv as [o Hv]. unfold find_programmer. rewrite (bind_Ret _ _ _ _ _ Hv).
  destruct (find_comports_pure w) as [(l & Hl & Hlo)|[Hl Hlo]].
  - right. rewrite (bind_Ret _ _ _ _ _ (Hlo _)).
    pose proof (find_comports_NoDup _ _ _ Hl) as Hnd.
    destruct (try_ports_run E data l (set_stdout (stdout w ++ o) w) Hnd)
      as (l1 & w' & F1 & F2 & F3 & F4 & F5 & F6 & F7 & Hr).
    exists l, l1, w'. repeat (split; [done|]).
    split; [by etrans; [apply prefix_app_r|exact F5]|].
    split; [exact F6|]. split; [exact F7|]. exact Hr.
  - left. split; [exact Hl|]. eexists. by rewrite (bind_Raise _ _ _ _ _ (Hlo _)).
Qed.

(** What a handshake that has found a programmer leaves *)
Lemma find_programmer_found (E : env) (data ser : string) (w w' : world) :
  find_programmer E data w = Ret (Some ser) w' ->
  config w' = <["port" := ser]> (config w)
  /\ config_file w' = Some (config w')
  /\ fs w' = fs w /\ readonly w' = readonly w /\ unreadable w' = unreadable w
  /\ comports w' = comports w
  /\ stdout w `prefix_of` stdout w'.
Proof.
  intros H.
  destruct (find_programmer_run E data w)
    as [[Hl [o Hf]]|(l & l1 & w0 & Hl & Hnd & F1 & F2 & F3 & F4 & F5 & _ & _ & Hr)];
    [by rewrite Hf in H|].
  destruct Hr as [(-> & Hf & _)|(ser' & l2 & -> & _ & _ & C3 & Hr)];
    [by rewrite Hf in H|].
  case_bool_decide; destruct Hr as [Hf C4]; rewrite Hf in H; [done|].
  by injection H as <- <-.
Qed.

(** X7: [find_programmer] remembers what it finds and nothing else.  When
    it returns a connection, the settings hold that port under the key
    port and have been saved as they are, the port is one of the candidates
    of [find_comports], and the connection is open.  When it returns None,
    the settings and the settings file are as before.  The exceptions it
    lets out are the TypeError of [find_comports], before any port has been
    opened, and the OSError of [save_config] when the settings cannot be
    written: then a port has been found and stands in the settings in
    memory, its connection is open, and the settings file is as before. *)
Theorem find_programmer_persists (E : env) (data : string) (w : world) :
  match find_programmer E data w with
  | Ret (Some ser) w' =>
      config w' = <["port" := ser]> (config w)
      /\ config_file w' = Some (config w')
      /\ (exists l, find_comports w = Ret l w /\ ser ∈ l)
      /\ exists p, connected ser p w'
  | Ret None w' => config w' = config w /\ config_file w' = config_file w
  | Raise e w' =>
      (e = TypeError /\ find_comports w = Raise TypeError w
       /\ ports w' = ports w /\ config w' = config w /\ config_file w' = config_file w)
      \/ (e = OSError /\ CONFIG_FILE ∈ readonly w
          /\ config_file w' = config_file w
          /\ exists ser, config w' = <["port" := ser]> (config w)
               /\ (exists l, find_comports w = Ret l w /\ ser ∈ l)
               /\ exists p, connected ser p w')
  | Diverged => True
  end.
Proof.
  destruct (find_programmer_run E data w)
    as [[Hl [o Hf]]|(l & l1 & w' & Hl & Hnd & _ & _ & _ & _ & _ & _ & _ & Hr)].
  { rewrite Hf. by left. }
  destruct Hr as [(-> & -> & C1 & C2)|(ser & l2 & -> & Ht & _ & C1 & Hr)]; [done|].
  assert (Hin : exists l, find_comports w = Ret l w /\ ser ∈ l).
  { eexists. split; [exact Hl|]. apply elem_of_app. right. apply list_elem_of_here. }
  assert (Hc : exists p, connected ser p w').
  { destruct Ht as (p & msg & _ & _ & Htx & Ho).
    destruct (ports w' !! ser) as [p'|] eqn:Hp'; [|done].
    exists p'. split; [done|]. by injection Ho. }
  case_bool_decide; destruct Hr as [-> C2]; [right; by eauto 10|done].
Qed.

(** What [find_programmer] has done when it returns *)
Lemma find_programmer_result (E : env) (data : string) (w w' : world)
    (r : option string) :
  find_programmer E data w = Ret r w' ->
  exists l,
    find_comports w = Ret l w
    /\ NoDup l
    /\ match r with
       | Some ser =>
           exists l1 l2,
             l = l1 ++ ser :: l2
             /\ (forall q, q ∈ l1 -> given_up data q w w')
             /\ taken data ser w w'
             /\ (forall q, q ∉ l1 -> q <> ser -> ports w' !! q = ports w !! q)
             /\ config w' = <["port" := ser]> (config w)
             /\ config_file w' = Some (config w')
       | None =>
           (forall q, q ∈ l -> given_up data q w w')
           /\ (forall q, q ∉ l -> ports w' !! q = ports w !! q)
           /\ config w' = config w /\ config_file w' = config_file w
       end.
Proof.
  intros H.
  destruct (find_programmer_run E data w)
    as [[Hl [o Hf]]|(l & l1 & w0 & Hl & Hnd & _ & _ & _ & _ & _ & F6 & F7 & Hr)];
    [by rewrite Hf in H|].
  exists l. split; [exact Hl|]. split; [exact Hnd|].
  destruct Hr as [(-> & Hf & C1 & C2)|(ser & l2 & -> & Ht & C2 & C3 & Hr)].
  - rewrite Hf in H. by injection H as <- <-.
  - case_bool_decide; destruct Hr as [Hf C4]; rewrite Hf in H; [done|].
    injection H as <- <-. exists l1, l2. repeat (split; [done|]).
    split; [|done]. intros q Hq1 Hq2.
    destruct (decide (q ∈ l2)) as [Hq|Hq]; [by apply C2|].
    apply F6. rewrite elem_of_app, elem_of_cons. tauto.
Qed.

Lemma taken_accepts (data q : string) (w w' : world) :
  taken data q w w' -> accepts_handshake q w.
Proof. intros (p & msg & Hp & Ha & _). by exists p, msg. Qed.

Lemma accepts_not_refuses (q : string) (w : world) :
  accepts_handshake q w -> refuses_handshake q w -> False.
Proof.
  unfold refuses_handshake. intros (p & msg & -> & Ha) H. by rewrite Ha in H.
Qed.

Lemma accepts_not_given_up (data q : string) (w w' : world) :
  accepts_handshake q w -> given_up data q w w' -> False.
Proof.
  unfold given_up. intros (p & msg & -> & Ha) (_ & _ & H). rewrite Ha in H. by destruct H.
Qed.

(** The place of the first element with a property in a list, all the
    elements before it being without *)
Lemma first_split {A} (yes no : A -> Prop) (l1 l2 l1' l2' : list A) (a a' : A) :
  (forall x, yes x -> no x -> False) ->
  l1 ++ a :: l2 = l1' ++ a' :: l2' ->
  Forall no l1 -> yes a -> Forall no l1' -> yes a' ->
  l1 = l1' /\ a = a' /\ l2 = l2'.
Proof.
  intros Hex. revert l1'. induction l1 as [|x l1 IH]; intros [|x' l1'] Heq Hl1 Ha Hl1' Ha'.
  - by injection Heq as -> ->.
  - injection Heq as -> _. apply Forall_cons in Hl1' as [Hx' _]. by destruct (Hex x').
  - injection Heq as -> _. apply Forall_cons in Hl1 as [Hx _]. by destruct (Hex a').
  - injection Heq as -> Heq. apply Forall_cons in Hl1 as [_ Hl1].
    apply Forall_cons in Hl1' as [_ Hl1'].
    destruct (IH l1' Heq Hl1 Ha Hl1' Ha') as (-> & -> & ->). done.
Qed.

(** C4: [find_programmer] goes through the candidates in the order of
    [find_comports].  A candidate whose first answer is not OK is given
    up: the text of its answer is printed, its port is closed again, and
    the next candidate is tried.  The first candidate that answers OK is
    taken: its port is put into the settings, the settings are saved, and
    its connection is returned, open; the candidates behind it are not
    touched. *)
Theorem find_programmer_handshake (E : env) (data : string) (w : world)
    (l1 l2 : list string) (ser : string) :
  find_comports w = Ret (l1 ++ ser :: l2) w ->
  CONFIG_FILE ∉ readonly w ->
  (forall q, q ∈ l1 -> refuses_handshake q w) ->
  accepts_handshake ser w ->
  exists w',
    find_programmer E data w = Ret (Some ser) w'
    /\ (forall q, q ∈ l1 -> given_up data q w w')
    /\ taken data ser w w'
    /\ (forall q, q ∉ l1 -> q <> ser -> ports w' !! q = ports w !! q)
    /\ config w' = <["port" := ser]> (config w)
    /\ config_file w' = Some (config w').
Proof.
  intros Hl Hsave Hl1 Hser.
  destruct (find_programmer_run E data w)
    as [[Hl' _]|(l & l1' & w' & Hl' & Hnd & _ & _ & _ & _ & _ & F6 & F7 & Hr)];
    [by rewrite Hl in Hl'|].
  rewrite Hl in Hl'. injection Hl' as <-.
  destruct Hr as [(-> & _)|(ser' & l2' & Heq & Ht & C2 & C3 & Hr)].
  { destruct (accepts_not_given_up data ser w w' Hser). apply F7.
    apply elem_of_app. right. apply list_elem_of_here. }
  destruct (first_split (fun q => accepts_handshake q w)
              (fun q => refuses_handshake q w \/ given_up data q w w')
              l1 l2 l1' l2' ser ser') as (<- & <- & <-).
  - intros q Hq [Hr'|Hg];
      [exact (accepts_not_refuses q w Hq Hr')|exact (accepts_not_given_up data q w w' Hq Hg)].
  - exact Heq.
  - apply Forall_forall. intros q Hq. left. by apply Hl1.
  - exact Hser.
  - apply Forall_forall. intros q Hq. right. by apply F7.
  - by apply (taken_accepts data ser' w w').
  - rewrite bool_decide_eq_false_2 in Hr by done. destruct Hr as [Hf C4].
    exists w'. repeat (split; [done|]). split; [|done].
    intros q Hq1 Hq2. destruct (decide (q ∈ l2)) as [Hq|Hq]; [by apply C2|].
    apply F6. rewrite elem_of_app, elem_of_cons. tauto.
Qed.

(** Two candidates, of which the first answers ERROR and the second OK *)
Lemma find_programmer_handshake_witness :
  exists w',
    find_programmer quiet "{}" two_ports = Ret (Some "COM2") w'
    /\ (forall q, q ∈ ["COM1"] -> given_up "{}" q two_ports w')
    /\ taken "{}" "COM2" two_ports w'
    /\ (forall q, q ∉ ["COM1"] -> q <> "COM2" -> ports w' !! q = ports two_ports !! q)
    /\ config w' = <["port" := "COM2"]> (config two_ports)
    /\ config_file w' = Some (config w').
Proof.
  apply (find_programmer_handshake quiet "{}" two_ports ["COM1"] [] "COM2").
  - reflexivity.
  - vm_compute. set_solver.
  - intros q Hq. apply list_elem_of_singleton in Hq as ->.
    unfold refuses_handshake. vm_compute. discriminate.
  - eexists _, _. split; vm_compute; reflexivity.
Defined.

(** Three candidates: the first is given up, with its answer on the
    console and its port closed; the second is taken; the third is as it
    was. *)
Example three_candidate_ports :
  exists w',
    find_programmer quiet "{}" three_ports = Ret (Some "COM2") w'
    /\ find_comports three_ports = Ret ["COM1"; "COM2"; "COM3"] three_ports
    /\ first_answer (closed_port [line "ERROR: busy"]) = inl ("ERROR", "busy")
    /\ stdout w' = [Print "busy"]
    /\ ports w' !! "COM1"
       = Some {| rx := []; tx := [Py.encode "{}"]; is_open := false |}
    /\ ports w' !! "COM2"
       = Some {| rx := []; tx := [Py.encode "{}"]; is_open := true |}
    /\ ports w' !! "COM3" = Some (closed_port [line "OK: ready"])
    /\ config w' = {["port" := "COM2"]}
    /\ config_file w' = Some {["port" := "COM2"]}.
Proof. eexists. split; [vm_compute; reflexivity|]. repeat split. Qed.

(** X9: what [find_programmer] saved is what the next run starts from:
    with the settings file that a successful [find_programmer] left,
    [open_config] followed by [find_comports] lists the port that was found
    as the first candidate. *)
Theorem found_port_is_first_next_time (E : env) (data ser : string) (w w' : world)
    (next next' : world) (l : list string) :
  find_programmer E data w = Ret (Some ser) w' ->
  config_file next = config_file w' ->
  (open_config ≫= fun _ => find_comports) next = Ret l next' ->
  head l = Some ser.
Proof.
  intros Hf Hfile Hl.
  apply find_programmer_found in Hf as (C1 & C2 & _).
  apply bind_inv in Hl as ([] & next1 & Hopen & Hl).
  injection Hopen as <-. rewrite Hfile, C2, C1 in Hl.
  apply (add_comports_spec _ _ l) in Hl as (_ & [more ->] & _).
  cbn. by rewrite lookup_insert_eq.
Qed.

Lemma found_port_is_first_next_time_witness :
  exists w' l next',
    find_programmer quiet "{}" three_ports = Ret (Some "COM2") w'
    /\ (open_config ≫= fun _ => find_comports) (set_config ∅ w') = Ret l next'
    /\ head l = Some "COM2".
Proof.
  eexists _, _, _. split; [vm_compute; reflexivity|]. split; [vm_compute; reflexivity|].
  eapply (found_port_is_first_next_time quiet "{}" "COM2" three_ports _ (set_config ∅ _)).
  - vm_compute; reflexivity.
  - reflexivity.
  - vm_compute; reflexivity.
Defined.

(** ** What the wait loop prints *)

Lemma omap_only_prints {A} (f : out -> option A) (l : list out) :
  (forall s, f (Print s) = None) -> Forall is_print l -> omap f l = [].
Proof.
  intros Hf. induction 1 as [|e l He _ IH]; [done|].
  destruct e; try done. cbn. by rewrite Hf.
Qed.

(** The wait loop prints plain lines only: no progress line and no
    reading is added to the console by it. *)
Lemma wait_for_response_console (E : env) (ser : string) (w : world) :
  outcome (wait_for_response E ser w)
    (fun _ w' => progress_of (stdout w') = progress_of (stdout w)
                 /\ inline_of (stdout w') = inline_of (stdout w))
    (fun e w' => e = SerialException
                 /\ progress_of (stdout w') = progress_of (stdout w)
                 /\ inline_of (stdout w') = inline_of (stdout w)).
Proof.
  unfold wait_for_response, time_time, the_port, mbind, M_bind, bind.
  destruct (ports w !! ser) as [p|]; [|done]. destruct (is_open p); [|done]. cbn.
  destruct (wait_loop_out (verbose E) (rx p) (clock w) (clock w) (stdout w)) as (l & Hl & Hp).
  pose proof (wait_loop_ends (verbose E) (rx p) (clock w) (clock w) (stdout w)) as He.
  assert (Hpr : progress_of (stdout w ++ l) = progress_of (stdout w)
                /\ inline_of (stdout w ++ l) = inline_of (stdout w)).
  { unfold progress_of, inline_of. rewrite !omap_app, !(omap_only_prints _ l) by done.
    by rewrite !app_nil_r. }
  destruct (answer _) as [t|e]; cbn; rewrite Hl; [done|]. by destruct He as [-> _].
Qed.

(** ** The voltage readings *)

Lemma read_voltage_loop_run (E : env) (ser : string) (last : rx_event)
    (rest : list rx_event) :
  forall (readings : list rx_event) (fuel : nat) (w : world) (p : serial_port),
  connected ser p w ->
  rx p = readings ++ last :: rest ->
  Forall says_DATA readings ->
  says_OK last ->
  (length readings <= fuel)%nat ->
  exists w' p',
    read_voltage_loop E fuel ser w = Ret tt w'
    /\ connected ser p' w'
    /\ tx p' = tx p ++ replicate (length readings) (Py.encode "OK")
    /\ rx p' = rest
    /\ length (inline_of (stdout w')) = (length (inline_of (stdout w)) + length readings)%nat.
Proof.
  induction readings as [|reading readings IH]; intros fuel w p Hc Hrx Hdata Hok Hfuel.
  - destruct (says_OK_wait E ser w p last rest Hc Hrx Hok) as (msg & w1 & Hwait & Hc1).
    pose proof (wait_for_response_console E ser w) as Hcon. rewrite Hwait in Hcon.
    destruct Hcon as [_ Hin].
    assert (Hgo : read_voltage_loop E fuel ser w = Ret tt w1).
    { destruct fuel; simpl; rewrite (bind_Ret _ _ _ _ _ Hwait); done. }
    exists w1, (set_rx rest p). split; [exact Hgo|]. split; [exact Hc1|].
    split; [cbn; by rewrite app_nil_r|]. split; [done|]. rewrite Hin. simpl. lia.
  - apply Forall_cons in Hdata as [Hd Hdata].
    destruct fuel as [|fuel]; [simpl in Hfuel; lia|].
    destruct (says_DATA_wait E ser w p reading (readings ++ last :: rest) Hc Hrx Hd)
      as (msg & w1 & Hwait & Hc1 & _).
    pose proof (wait_for_response_console E ser w) as Hcon. rewrite Hwait in Hcon.
    destruct Hcon as [_ Hin].
    cbn [read_voltage_loop]. rewrite (bind_Ret _ _ _ _ _ Hwait). cbn [fst snd].
    change (String.eqb "DATA" "DATA") with true. cbv iota.
    run_pure.
    run_with (eapply (ser_write_eq ser _ _ (set_rx _ p)); conn Hc1).
    match goal with
    | |- context [read_voltage_loop E fuel ser ?W] =>
        destruct (IH fuel W (set_tx (tx p ++ [Py.encode "OK"]) (set_rx (readings ++ last :: rest) p)))
          as (w' & p' & Hrun & Hc' & Htx & Hrx' & Hinl)
    end.
    + conn Hc1.
    + done.
    + done.
    + done.
    + simpl in Hfuel. lia.
    + exists w', p'. split; [exact Hrun|]. split; [exact Hc'|].
      split; [rewrite Htx; cbn; by rewrite <- (assoc_L (++))|]. split; [exact Hrx'|].
      rewrite Hinl. cbn [stdout set_stdout with_port set_ports]. unfold inline_of at 1.
      rewrite omap_app. cbn. rewrite length_app. fold (inline_of (stdout w1)).
      rewrite Hin. simpl. lia.
Qed.



(** ** The version check at its edges *)

(** [firmware_check] up to the answer of the device: the world in which
    the answer is looked at has the connection closed. *)
Lemma firmware_check_answer (E : env) (w w1 : world) (ser : string) (p : serial_port) :
  find_programmer E (json_dumps E {["state" := JInt STATE_VERSION]}) w = Ret (Some ser) w1 ->
  connected ser p w1 ->
  let r := wait_loop (verbose E) (clock w1) (clock w1)
             (stdout w1 ++ [Print "Reading version"]) (rx p) in
  let q := set_rx (w_rx r) (set_tx (tx p ++ [Py.encode "OK"]) p) in
  let w3 := set_stdout (w_out r) (set_clock (w_clock r) w1) in
  firmware_check E w =
  match answer r with
  | inl (kind, version) =>
      firmware_check_verdict E ser kind version (with_port ser (set_open false q) w3)
  | inr e => Raise e (with_port ser q w3)
  end.
Proof.
  intros Hfind Hc r q w3. unfold firmware_check. rewrite (bind_Ret _ _ _ _ _ Hfind).
  run_with (eapply (ser_write_eq ser _ _ p); exact Hc).
  run_pure.
  match goal with
  | |- context [mbind _ (wait_for_response E ser) ?W] =>
      pose proof (wait_for_response_eq E ser W (set_tx (tx p ++ [Py.encode "OK"]) p)
                    ltac:(apply lookup_insert_eq) ltac:(apply Hc)) as Hwait
  end.
  cbv zeta in Hwait. cbn [clock stdout rx set_tx set_stdout with_port set_ports] in Hwait.
  fold r in Hwait.
  destruct (answer r) as [[kind version]|e].
  - rewrite (bind_Ret _ _ _ _ _ Hwait).
    erewrite bind_Ret; [|apply ser_close_eq; apply lookup_insert_eq].
    unfold firmware_check_verdict.
    f_equal. unfold waited_world, with_port, w3, q. cbn. by rewrite !insert_insert_eq.
  - rewrite (bind_Raise _ _ _ _ _ Hwait).
    f_equal. unfold waited_world, with_port, w3, q. cbn. by rewrite !insert_insert_eq.
Qed.

(** X11: when the answer to the version request is anything but OK (an
    error of the device, a warning, the timeout of a silent device),
    [firmware_check] prints the kind of the answer and returns
    (False, None, None) with the connection closed: nothing is compared. *)
Theorem firmware_check_not_OK (E : env) (w w1 : world) (ser : string) (p : serial_port)
    (kind msg : string) :
  find_programmer E (json_dumps E {["state" := JInt STATE_VERSION]}) w = Ret (Some ser) w1 ->
  connected ser p w1 ->
  answer (wait_loop (verbose E) (clock w1) (clock w1)
            (stdout w1 ++ [Print "Reading version"]) (rx p)) = inl (kind, msg) ->
  kind <> "OK" ->
  exists w',
    firmware_check E w = Ret (false, None, None) w'
    /\ last (stdout w') = Some (Print kind)
    /\ is_open <$> ports w' !! ser = Some false.
Proof.
  intros Hfind Hc Ha Hkind. rewrite (firmware_check_answer E w w1 ser p Hfind Hc). cbv zeta. rewrite Ha.
  unfold firmware_check_verdict.
  apply String.eqb_neq in Hkind. rewrite Hkind.
  eexists. split; [reflexivity|]. cbn. rewrite lookup_insert_eq. split; [|done].
  by rewrite last_snoc.
Qed.

Lemma firmware_check_not_OK_witness :
  exists w',
    firmware_check (release "1.0.0") (bench [line "OK:"]) = Ret (false, None, None) w'
    /\ last (stdout w') = Some (Print "ERROR")
    /\ is_open <$> ports w' !! "COM1" = Some false.
Proof.
  apply (firmware_check_not_OK (release "1.0.0") (bench [line "OK:"]) (bench_found [])
           "COM1" (handshaken []) "ERROR" "Timeout");
    [vm_compute; reflexivity|split; vm_compute; reflexivity|reflexivity|done].
Defined.

(** X12: a version text of the device that does not have exactly three
    parts between dots makes [firmware_check] raise ValueError; the
    connection has been closed by then and the version has been printed. *)
Theorem firmware_check_malformed_version (E : env) (w w1 : world) (ser : string)
    (p : serial_port) (version : string) :
  find_programmer E (json_dumps E {["state" := JInt STATE_VERSION]}) w = Ret (Some ser) w1 ->
  connected ser p w1 ->
  answer (wait_loop (verbose E) (clock w1) (clock w1)
            (stdout w1 ++ [Print "Reading version"]) (rx p)) = inl ("OK", version) ->
  length (Py.split "." version) <> 3%nat ->
  exists w',
    firmware_check E w = Raise ValueError w'
    /\ last (stdout w') = Some (Print ("Firmware version: " +:+ version))
    /\ is_open <$> ports w' !! ser = Some false.
Proof.
  intros Hfind Hc Ha Hlen. rewrite (firmware_check_answer E w w1 ser p Hfind Hc). cbv zeta. rewrite Ha.
  unfold firmware_check_verdict.
  change (String.eqb "OK" "OK") with true. cbv iota. run_pure.
  destruct (latest_firmware E) as [latest_version url].
  assert (Hun : forall W, unpack3 (Py.split "." version) W = Raise ValueError W).
  { intros W. unfold unpack3. destruct (Py.split "." version) as [|a [|b [|c [|d l]]]]; done. }
  rewrite (bind_Raise _ _ _ _ _ (Hun _)).
  eexists. split; [reflexivity|]. cbn. rewrite lookup_insert_eq. split; [|done].
  by rewrite last_snoc.
Qed.

Lemma firmware_check_malformed_version_witness :
  exists w',
    firmware_check (release "1.0.0") (bench [line "OK:"; line "OK: 1.0"]) = Raise ValueError w'
    /\ last (stdout w') = Some (Print ("Firmware version: " +:+ "1.0"))
    /\ is_open <$> ports w' !! "COM1" = Some false.
Proof.
  apply (firmware_check_malformed_version (release "1.0.0") (bench [line "OK:"; line "OK: 1.0"])
           (bench_found [line "OK: 1.0"]) "COM1" (handshaken [line "OK: 1.0"]) "1.0");
    [vm_compute; reflexivity|split; vm_compute; reflexivity|vm_compute; reflexivity
    |vm_compute; lia].
Defined.

(** ** The release feed *)

Lemma first_firmware_spec (latest_version : string) (l : list Release.asset) :
  match Release.first_firmware latest_version l with
  | (Some v, Some url) =>
      v = latest_version
      /\ exists l1 a l2, l = l1 ++ a :: l2
           /\ url = Release.browser_download_url a
           /\ Py.contains "firmware.hex" (Release.asset_name a) = true
           /\ Forall (fun a' => Py.contains "firmware.hex" (Release.asset_name a') = false) l1
  | (None, None) =>
      Forall (fun a => Py.contains "firmware.hex" (Release.asset_name a) = false) l
  | _ => False
  end.
Proof.
  induction l as [|a l IH]; simpl; [done|].
  destruct (Py.contains "firmware.hex" (Release.asset_name a)) eqn:Ha.
  - split; [done|]. exists [], a, l. done.
  - destruct (Release.first_firmware latest_version l) as [[v|] [url|]]; try done.
    + destruct IH as (-> & l1 & a' & l2 & -> & -> & Ha' & Hl1). split; [done|].
      exists (a :: l1), a', l2. repeat (split; [done|]). by constructor.
    + by constructor.
Qed.

(** X13: [latest_firmware] answers a version and an address together or
    neither.  It answers both exactly when the request succeeded (status
    200) and some asset of the release has firmware.hex in its name; the
    version is then the tag of the release and the address that of the
    first such asset. *)
Theorem latest_firmware_first_asset (r : Release.response) :
  match Release.latest_firmware r with
  | (Some v, Some url) =>
      Release.status_code r = 200
      /\ v = Release.tag_name r
      /\ exists l1 a l2, Release.assets r = l1 ++ a :: l2
           /\ url = Release.browser_download_url a
           /\ Py.contains "firmware.hex" (Release.asset_name a) = true
           /\ Forall (fun a' => Py.contains "firmware.hex" (Release.asset_name a') = false) l1
  | (None, None) =>
      Release.status_code r <> 200
      \/ Forall (fun a => Py.contains "firmware.hex" (Release.asset_name a) = false)
           (Release.assets r)
  | _ => False
  end.
Proof.
  unfold Release.latest_firmware.
  destruct (Z.eqb_spec (Release.status_code r) 200) as [H200|H200]; simpl; [|by left].
  pose proof (first_firmware_spec (Release.tag_name r) (Release.assets r)) as H.
  destruct (Release.first_firmware _ _) as [[v|] [url|]]; [|done|done|by right].
  destruct H as [-> H]. done.
Qed.

(** X14: when the release feed gives no firmware (the request failed, or
    no asset is named after firmware.hex), [firmware_check] cannot compare:
    with a device that answered OK and a version of three parts it raises
    AttributeError, the connection being closed already. *)
Theorem firmware_check_without_release (E : env) (r : Release.response) (w w1 : world)
    (ser : string) (p : serial_port) (version major minor patch : string) :
  latest_firmware E = Release.latest_firmware r ->
  Release.status_code r <> 200
  \/ Forall (fun a => Py.contains "firmware.hex" (Release.asset_name a) = false)
       (Release.assets r) ->
  find_programmer E (json_dumps E {["state" := JInt STATE_VERSION]}) w = Ret (Some ser) w1 ->
  connected ser p w1 ->
  answer (wait_loop (verbose E) (clock w1) (clock w1)
            (stdout w1 ++ [Print "Reading version"]) (rx p)) = inl ("OK", version) ->
  Py.split "." version = [major; minor; patch] ->
  exists w',
    firmware_check E w = Raise AttributeError w'
    /\ is_open <$> ports w' !! ser = Some false.
Proof.
  intros HE Hr Hfind Hc Ha Hsplit.
  assert (Hnone : latest_firmware E = (None, None)).
  { rewrite HE. unfold Release.latest_firmware.
    destruct (Z.eqb_spec (Release.status_code r) 200) as [H200|H200]; simpl; [|done].
    destruct Hr as [Hr|Hr]; [done|].
    pose proof (first_firmware_spec (Release.tag_name r) (Release.assets r)) as H.
    destruct (Release.first_firmware _ _) as [[v|] [url|]]; try done.
    destruct H as (_ & l1 & a & l2 & Hl & _ & Hc' & _). rewrite Hl in Hr.
    apply Forall_app in Hr as [_ Hr]. apply Forall_cons in Hr as [Hr _]. congruence. }
  rewrite (firmware_check_answer E w w1 ser p Hfind Hc). cbv zeta. rewrite Ha.
  unfold firmware_check_verdict.
  change (String.eqb "OK" "OK") with true. cbv iota. run_pure.
  rewrite Hnone, Hsplit. run_pure.
  eexists. split; [reflexivity|]. cbn. by rewrite lookup_insert_eq.
Qed.

Lemma firmware_check_without_release_witness :
  exists w',
    firmware_check (fed_by no_firmware_release) (bench [line "OK:"; line "OK: 1.0.2"])
    = Raise AttributeError w'
    /\ is_open <$> ports w' !! "COM1" = Some false.
Proof.
  apply (firmware_check_without_release (fed_by no_firmware_release) no_firmware_release
           (bench [line "OK:"; line "OK: 1.0.2"])
           (bench_found [line "OK: 1.0.2"]) "COM1" (handshaken [line "OK: 1.0.2"])
           "1.0.2" "1" "0" "2");
    [reflexivity|right; repeat constructor|vm_compute; reflexivity
    |split; vm_compute; reflexivity|vm_compute; reflexivity|vm_compute; reflexivity].
Defined.

(** ** Reading a chip, whatever the device does *)

Lemma outcome_returns {A} (r : result A) (Q : A -> world -> Prop) :
  outcome r Q (fun _ _ => False) -> terminates r -> exists a w', r = Ret a w' /\ Q a w'.
Proof. destruct r as [a w'|e w'|]; simpl; [eauto|done|done]. Qed.

Section Preserves.

Context (P : world -> Prop).

Lemma preserves_bind {A B} (c : M A) (k : A -> M B) :
  preserves P c -> (forall a, preserves P (k a)) -> preserves P (c ≫= k).
Proof.
  intros Hc Hk w Hw. apply outcome_bind. eapply outcome_impl; [by apply Hc| |done].
  intros a w' Hw'. by apply Hk.
Qed.

Lemma preserves_ret {A} (a : A) : preserves P (mret a : M A).
Proof. by intros w Hw. Qed.

Lemma preserves_raise {A} (e : exn) : preserves P (raise e : M A).
Proof. by intros w Hw. Qed.

Lemma preserves_diverge {A} : preserves P (diverge : M A).
Proof. by intros w Hw. Qed.

Lemma preserves_modify (f : world -> world) :
  (forall w, P w -> P (f w)) -> preserves P (modify f).
Proof. intros Hf w Hw. by apply Hf. Qed.

Lemma preserves_try_except {A} (c : M A) (catches : exn -> bool) (h : exn -> M A) :
  preserves P c -> (forall e, preserves P (h e)) -> preserves P (try_except c catches h).
Proof.
  intros Hc Hh w Hw. apply outcome_try_except. eapply outcome_impl; [by apply Hc|done|].
  intros e w' Hw'. destruct (catches e); [by apply Hh|done].
Qed.

End Preserves.

Section Present.

Context (E : env) (ser path : string).

Lemma present_stdout (o : list out) (w : world) :
  present ser path w -> present ser path (set_stdout o w).
Proof. done. Qed.

Lemma present_clock (t : N) (w : world) :
  present ser path w -> present ser path (set_clock t w).
Proof. done. Qed.

Lemma present_put (q : serial_port) (w : world) :
  present ser path w -> present ser path (set_ports (<[ser := q]> (ports w)) w).
Proof. intros [Hp Hf]. split; [|done]. cbn. rewrite lookup_insert_eq. by eexists. Qed.

Lemma preserves_print (s : string) : preserves (present ser path) (print s).
Proof. by apply preserves_modify. Qed.

Lemma preserves_emit (o : out) : preserves (present ser path) (emit o).
Proof. by apply preserves_modify. Qed.

Lemma preserves_the_port : preserves (present ser path) (the_port ser).
Proof.
  intros w Hw. unfold the_port. destruct (ports w !! ser) as [p|]; [|done].
  by destruct (is_open p).
Qed.

Lemma preserves_ser_write (data : list byte) :
  preserves (present ser path) (ser_write ser data).
Proof.
  apply preserves_bind; [apply preserves_the_port|]. intros p.
  apply preserves_bind; [|intros _; apply preserves_ret].
  apply preserves_modify. intros w. apply present_put.
Qed.

Lemma preserves_ser_flush : preserves (present ser path) (ser_flush ser).
Proof.
  apply preserves_bind; [apply preserves_the_port|]. intros _. apply preserves_ret.
Qed.

Lemma preserves_ser_read (size : nat) : preserves (present ser path) (ser_read ser size).
Proof.
  apply preserves_bind; [apply preserves_the_port|]. intros p.
  destruct (rx p) as [|[dt data|] rest].
  - apply preserves_bind; [by apply preserves_modify|]. intros _. apply preserves_ret.
  - apply preserves_bind; [by apply preserves_modify|]. intros _.
    apply preserves_bind; [|intros _; apply preserves_ret].
    apply preserves_modify. intros w. apply present_put.
  - apply preserves_bind; [|intros _; apply preserves_raise].
    apply preserves_modify. intros w. apply present_put.
Qed.

Lemma preserves_wait_for_response : preserves (present ser path) (wait_for_response E ser).
Proof.
  apply preserves_bind; [by intros w Hw|]. intros timeout.
  apply preserves_bind; [apply preserves_the_port|]. intros p.
  apply preserves_bind; [by intros w Hw|]. intros w0.
  apply preserves_bind; [by apply preserves_modify|]. intros _.
  apply preserves_bind; [apply preserves_modify; intros w; apply present_put|]. intros _.
  destruct (answer _); [apply preserves_ret|apply preserves_raise].
Qed.

Lemma preserves_file_write (data : list byte) :
  preserves (present ser path) (file_write path data).
Proof.
  apply preserves_modify. intros w [Hp Hf]. split; [done|]. cbn.
  by apply lookup_alter_is_Some.
Qed.

Lemma preserves_read_chip_loop (mem_size : Z) (fuel : nat) :
  forall bytes_read, preserves (present ser path)
                       (read_chip_loop E fuel ser path mem_size bytes_read).
Proof.
  induction fuel as [|fuel IH]; intros bytes_read; cbn [read_chip_loop];
    (apply preserves_bind; [apply preserves_wait_for_response|]); intros t;
    (destruct (String.eqb t.1 "DATA");
     [|destruct (String.eqb t.1 "OK");
       [apply preserves_bind; [apply preserves_print|]; intros _;
        apply preserves_bind; [apply preserves_print|]; intros _; apply preserves_ret
       |apply preserves_bind; [apply preserves_print|]; intros _;
        apply preserves_bind; [apply preserves_wait_for_response|]; intros t';
        apply preserves_bind; [apply preserves_print|]; intros _; apply preserves_ret]]);
    (apply preserves_bind; [apply preserves_ser_read|]); intros serial_data;
    (apply preserves_bind; [apply preserves_file_write|]); intros _;
    (apply preserves_bind;
      [unfold percent_of; destruct (percent _ _); [apply preserves_ret|apply preserves_raise]|]);
    intros pc;
    (apply preserves_bind;
      [unfold print_progress; destruct (verbose E); apply preserves_emit|]); intros _;
    (apply preserves_bind; [apply preserves_ser_write|]); intros _;
    (apply preserves_bind; [apply preserves_ser_flush|]); intros _.
  - apply preserves_diverge.
  - apply IH.
Qed.

End Present.



Lemma refuses_wait (E : env) (ser : string) (w : world) (p : serial_port)
    (e : rx_event) (rest : list rx_event) :
  connected ser p w -> rx p = e :: rest -> refuses e ->
  exists kind msg w',
    wait_for_response E ser w = Ret (kind, msg) w'
    /\ (kind = "WARN" \/ kind = "ERROR")
    /\ connected ser (set_rx rest p) w'
    /\ fs w' = fs w /\ readonly w' = readonly w
    /\ progress_of (stdout w') = progress_of (stdout w).
Proof.
  intros Hc Hrx (dt & bs & res & -> & Hres & Hocc & Hno).
  apply contains_false in Hno.
  destruct Hc as [Hp Ho].
  rewrite (wait_for_response_eq E ser w p Hp Ho), Hrx.
  assert (Hpr : forall msg, progress_of (write_feedback (verbose E) msg (stdout w))
                            = progress_of (stdout w)).
  { intros msg. unfold write_feedback, progress_of.
    destruct (verbose E); [|done]. by rewrite omap_app, app_nil_r. }
  destruct (Py.contains "WARN:" res) eqn:Hwarn.
  - rewrite (wait_loop_WARN _ _ _ _ _ _ _ _ Hres Hno Hwarn).
    eexists _, _, _. split; [reflexivity|]. split; [by left|].
    split; [split; [apply lookup_insert_eq|done]|]. repeat split. apply Hpr.
  - destruct Hocc as [Hocc|Hocc]; apply contains_iff in Hocc; [congruence|].
    rewrite (wait_loop_ERROR _ _ _ _ _ _ _ _ Hres Hno Hwarn Hocc).
    eexists _, _, _. split; [reflexivity|]. split; [by right|].
    split; [split; [apply lookup_insert_eq|done]|]. repeat split. apply Hpr.
Qed.

(** The loop of [read_chip] with a device that sends blocks and then
    refuses: what has come is in the file. *)
Lemma read_chip_loop_refused (E : env) (ser f : string) (mem_size : Z)
    (bad : rx_event) (rest : list rx_event) (lines : list (rx_event * N)) :
  forall (bl : list (list byte)) (fuel : nat) (bytes_read : Z) (w : world)
         (p : serial_port) (content : list byte),
  connected ser p w ->
  rx p = data_script lines bl ++ bad :: rest ->
  Forall says_DATA lines.*1 ->
  length lines = length bl ->
  Forall (fun b => (length b <= 256)%nat) bl ->
  refuses bad ->
  (length lines <= fuel)%nat ->
  (lines <> [] -> mem_size <> 0) ->
  fs w !! f = Some content ->
  outcome (read_chip_loop E fuel ser f mem_size bytes_read w)
    (fun finished w' =>
       finished = false
       /\ fs w' !! f = Some (content ++ concat bl)
       /\ (exists p', ports w' !! ser = Some p')
       /\ exists msg, Print ("Error reading data " +:+ msg) ∈ stdout w')
    (fun _ w' =>
       fs w' !! f = Some (content ++ concat bl)
       /\ (exists p', ports w' !! ser = Some p')
       /\ exists msg, Print ("Error reading data " +:+ msg) ∈ stdout w').
Proof.
  induction lines as [|[d dt] lines IH];
    intros bl fuel bytes_read w p content Hc Hrx Hd Hlen Hbl Hbad Hfuel Hmem Hfs.
  - destruct bl; [|done]. simpl in Hrx.
    destruct (refuses_wait E ser w p bad rest Hc Hrx Hbad)
      as (kind & msg & w1 & Hwait & Hkind & Hc1 & Hfs1 & _ & _).
    assert (Hgo : read_chip_loop E fuel ser f mem_size bytes_read w =
                  (print ("Error reading data " +:+ msg);;
                   t' ← wait_for_response E ser;
                   print t'.2;;
                   ret false) w1).
    { destruct fuel; cbn [read_chip_loop]; rewrite (bind_Ret _ _ _ _ _ Hwait);
        cbn [fst snd]; by destruct Hkind as [-> | ->]. }
    rewrite Hgo. run_pure.
    set (w2 := set_stdout _ w1).
    pose proof (keeps_to_wait_for_response E ser w2) as Hk.
    pose proof (preserves_wait_for_response E ser f w2) as Hpres.
    assert (Hout : outcome (wait_for_response E ser w2)
                     (fun _ w' => exists l, stdout w' = stdout w2 ++ l)
                     (fun _ w' => exists l, stdout w' = stdout w2 ++ l)).
    { unfold wait_for_response, time_time, the_port, mbind, M_bind, bind.
      destruct (ports w2 !! ser) as [p2|]; [|exists []; by rewrite app_nil_r].
      destruct (is_open p2); [|exists []; by rewrite app_nil_r]. cbn.
      destruct (wait_loop_out (verbose E) (rx p2) (clock w1) (clock w1) (stdout w2))
        as (l & Hl & _).
      destruct (answer _); cbn; by exists l. }
    assert (Hpresent : present ser f w2).
    { split; [cbn; destruct Hc1 as [-> _]; by eexists|].
      cbn. rewrite Hfs1, Hfs. by eexists. }
    specialize (Hpres Hpresent).
    assert (Hfile : fs w2 !! f = Some (content ++ concat [])).
    { cbn. by rewrite Hfs1, Hfs, app_nil_r. }
    assert (Hmsg : forall l, Print ("Error reading data " +:+ msg) ∈ stdout w2 ++ l).
    { intros l. apply elem_of_app. left. cbn. apply elem_of_app. right.
      apply list_elem_of_here. }
    apply outcome_bind.
    destruct (wait_for_response E ser w2) as [t' w3|e w3|]; simpl in *; [| |done].
    + destruct Hk as (_ & _ & Hfs3 & _). destruct Hpres as [[p3 Hp3] _].
      destruct Hout as [l Hl].
      split; [done|]. rewrite Hfs3. split; [done|]. split; [by eexists|].
      exists msg. rewrite Hl. apply elem_of_app. left. apply Hmsg.
    + destruct Hk as (_ & _ & Hfs3 & _). destruct Hpres as [[p3 Hp3] _].
      destruct Hout as [l Hl].
      rewrite Hfs3. split; [done|]. split; [by eexists|].
      exists msg. rewrite Hl. apply Hmsg.
  - destruct bl as [|b bl]; [done|]. simpl in Hrx, Hlen.
    apply Forall_cons in Hd as [Hd Hds]. apply Forall_cons in Hbl as [Hb Hbl].
    destruct fuel as [|fuel]; [simpl in Hfuel; lia|]. simpl in Hfuel.
    destruct (says_DATA_wait E ser w p d _ Hc Hrx Hd)
      as (msg & w1 & Hwait & Hc1 & Hfs1 & _ & Hpr1).
    cbn [read_chip_loop].
    run_with (exact Hwait).
    change (String.eqb ("DATA", msg).1 "DATA") with true. cbv iota.
    run_with (eapply (ser_read_eq ser 256 w1 _ dt b); [exact Hc1|reflexivity|exact Hb]).
    run_pure.
    destruct (percent_of_eq (bytes_read + 256) mem_size
                (set_fs (alter (fun old => old ++ b) f
                           (fs (with_port ser
                                  (set_rx (data_script lines bl ++ bad :: rest)
                                     (set_rx (Rx dt b :: data_script lines bl ++ bad :: rest) p))
                                  (set_clock (clock w1 + dt) w1))))
                   (with_port ser
                      (set_rx (data_script lines bl ++ bad :: rest)
                         (set_rx (Rx dt b :: data_script lines bl ++ bad :: rest) p))
                      (set_clock (clock w1 + dt) w1)))
                (Hmem ltac:(done))) as [pc Hpc].
    run_with (exact Hpc).
    match goal with
    | |- context [mbind _ (print_progress E pc ?a ?b) ?W] =>
        assert (Hpp : print_progress E pc a b W
                      = Ret tt (set_stdout (stdout W ++ [Progress (negb (verbose E)) pc a b]) W))
          by (unfold print_progress; by destruct (verbose E))
    end.
    run_with (exact Hpp).
    run_with (eapply (ser_write_eq ser _ _ (set_rx (data_script lines bl ++ bad :: rest) _));
              conn Hc).
    run_with (eapply (ser_flush_eq ser _ (set_tx _ (set_rx (data_script lines bl ++ bad :: rest) _)));
              conn Hc).
    cbv beta iota zeta.
    match goal with
    | |- context [read_chip_loop E fuel ser f mem_size (bytes_read + 256) ?W] =>
        pose proof (IH bl fuel (bytes_read + 256) W
                      (set_tx (tx p ++ [Py.encode (String.app "OK" (String "010" ""))])
                         (set_rx (data_script lines bl ++ bad :: rest)
                            (set_rx (Rx dt b :: data_script lines bl ++ bad :: rest) p)))
                      (content ++ b)) as IH'
    end.
    cbn [concat]. rewrite (assoc_L (++)). apply IH'.
    + conn Hc.
    + reflexivity.
    + exact Hds.
    + lia.
    + exact Hbl.
    + exact Hbad.
    + lia.
    + intros _. by apply Hmem.
    + cbn. rewrite Hfs1. rewrite lookup_alter_eq, Hfs. reflexivity.
Qed.

(** X16: what has been read stays on disk.  When the device sends some
    blocks and then, in place of the next DATA, a line with WARN or ERROR,
    [read_chip] reports the error, reads one more answer, and ends normally
    with the connection closed; the output file holds the blocks that came
    before, and is not removed. *)
Theorem read_chip_keeps_what_was_read (E : env) (eprom path : string) (data : eprom_data)
    (w w1 : world) (ser : string) (p : serial_port) (lines : list (rx_event * N))
    (bl : list (list byte)) (bad : rx_event) (rest : list rx_event) :
  get_eprom E eprom = Some data ->
  path <> "" ->
  find_programmer E (json_dumps E (<["state" := JInt STATE_READ]> (envelope data))) w
  = Ret (Some ser) w1 ->
  connected ser p w1 ->
  path ∉ readonly w1 ->
  rx p = data_script lines bl ++ bad :: rest ->
  Forall says_DATA lines.*1 ->
  length lines = length bl ->
  Forall (fun b => (length b <= 256)%nat) bl ->
  refuses bad ->
  (lines <> [] -> memory_size data <> 0) ->
  exists w',
    read_chip E eprom (Some path) w = Ret tt w'
    /\ fs w' !! path = Some (concat bl)
    /\ is_open <$> ports w' !! ser = Some false
    /\ exists msg, Print ("Error reading data " +:+ msg) ∈ stdout w'.
Proof.
  intros Hget Hpath Hfind Hc Hro Hrx Hd Hlen Hbl Hbad Hmem.
  pose proof (read_chip_terminates E eprom (Some path) w) as Hterm.
  revert Hterm. unfold read_chip. rewrite Hget.
  run_with (exact Hfind).
  run_pure.
  assert (Hname : String.eqb path "" = false) by (by apply String.eqb_neq).
  rewrite Hname. run_pure.
  erewrite bind_Ret; cycle 1.
  { apply try_except_Ret.
    run_with (eapply (ser_write_eq ser _ _ p); conn Hc).
    run_with (eapply (ser_flush_eq ser _ (set_tx _ p)); conn Hc).
    run_with (apply open_wb_eq; cbn; exact Hro).
    reflexivity. }
  cbv beta iota.
  match goal with
  | |- terminates (try_finally ?c ?f ?W) -> _ =>
      set (body := c); set (W0 := W);
      assert (Hbody : outcome (body W0)
                (fun _ w' => fs w' !! path = Some (concat bl)
                             /\ (exists p', ports w' !! ser = Some p')
                             /\ exists msg, Print ("Error reading data " +:+ msg) ∈ stdout w')
                (fun _ _ => False))
  end.
  { apply outcome_try_except. apply outcome_bind. cbn [time_time outcome].
    apply outcome_bind.
    assert (Hpend : pending ser W0 = Ret (length (rx p)) W0).
    { unfold pending, W0. cbn. by rewrite lookup_insert_eq. }
    rewrite Hpend. cbn [outcome]. apply outcome_bind.
    eapply outcome_impl.
    - apply (read_chip_loop_refused E ser path (memory_size data) bad rest lines bl
               (length (rx p)) 0 W0 (set_tx (tx p ++ [Py.encode "OK"]) p) []).
      + unfold W0. conn Hc.
      + exact Hrx.
      + exact Hd.
      + exact Hlen.
      + exact Hbl.
      + exact Hbad.
      + rewrite Hrx, length_app. pose proof (data_script_length lines bl Hlen). lia.
      + exact Hmem.
      + unfold W0. cbn. apply lookup_insert_eq.
    - intros finished w' (-> & Hfs & Hp & Hmsg). cbn. done.
    - intros e w' (Hfs & Hp & Hmsg). cbn. split; [done|]. split; [done|].
      destruct Hmsg as [msg Hmsg]. exists msg. apply elem_of_app. by left. }
  intros Hterm. unfold try_finally in *.
  destruct (body W0) as [[] w2|e w2|]; [|done|done].
  destruct Hbody as (Hf2 & [p2 Hp2] & Hmsg).
  rewrite (ser_close_eq ser w2 p2 Hp2).
  eexists. split; [reflexivity|]. cbn. rewrite lookup_insert_eq. done.
Qed.

Lemma read_chip_keeps_what_was_read_witness :
  exists w',
    read_chip (chips 512) "27C256" (Some "out.bin")
      (bench [line "OK:"; line "DATA:"; Rx 0 (replicate 256 xff); line "ERROR: no chip"])
    = Ret tt w'
    /\ fs w' !! "out.bin" = Some (concat [replicate 256 xff])
    /\ is_open <$> ports w' !! "COM1" = Some false
    /\ exists msg, Print ("Error reading data " +:+ msg) ∈ stdout w'.
Proof.
  apply (read_chip_keeps_what_was_read (chips 512) "27C256" "out.bin"
           {| name := "27C256"; manufacturer_name := "ST"; verified := true;
              memory_size := 512; params := ∅ |}
           (bench [line "OK:"; line "DATA:"; Rx 0 (replicate 256 xff); line "ERROR: no chip"])
           (bench_found [line "DATA:"; Rx 0 (replicate 256 xff); line "ERROR: no chip"])
           "COM1"
           (handshaken [line "DATA:"; Rx 0 (replicate 256 xff); line "ERROR: no chip"])
           [(line "DATA:", 0%N)] [replicate 256 xff] (line "ERROR: no chip") []).
  - reflexivity.
  - done.
  - vm_compute; reflexivity.
  - split; vm_compute; reflexivity.
  - vm_compute; set_solver.
  - reflexivity.
  - repeat constructor.
    exists 0%N, (Py.encode ("DATA:" +:+ String "010" "")), "DATA:".
    split; [reflexivity|]. split; [vm_compute; reflexivity|]. split.
    + exists 0%nat, "", "". done.
    + intros T HT j Hj. apply (proj1 (contains_false _ _)) in Hj; [done|].
      repeat (apply elem_of_cons in HT as [->|HT]; [vm_compute; reflexivity|]).
      by apply elem_of_nil in HT.
  - reflexivity.
  - apply Forall_singleton. rewrite length_replicate. lia.
  - exists 0%N, (Py.encode ("ERROR: no chip" +:+ String "010" "")), "ERROR: no chip".
    split; [reflexivity|]. split; [vm_compute; reflexivity|]. split.
    + right. exists 0%nat, "", " no chip". done.
    + intros j Hj. apply (proj1 (contains_false _ _)) in Hj; [done|]. vm_compute; reflexivity.
  - done.
Defined.

(** ** Writing a chip that does not accept *)

Lemma says_ERROR_wait (E : env) (ser : string) (w : world) (p : serial_port)
    (e : rx_event) (rest : list rx_event) :
  connected ser p w -> rx p = e :: rest -> says_ERROR e ->
  exists msg w',
    wait_for_response E ser w = Ret ("ERROR", msg) w'
    /\ connected ser (set_rx rest p) w'
    /\ progress_of (stdout w') = progress_of (stdout w).
Proof.
  intros Hc Hrx (dt & bs & res & -> & Hres & Hocc & Hno).
  apply contains_iff in Hocc.
  assert (Hc' : forall T, T ∈ ["OK"; "WARN"] -> Py.contains (T +:+ ":") res = false).
  { intros T HT. apply contains_false. by apply Hno. }
  destruct Hc as [Hp Ho].
  rewrite (wait_for_response_eq E ser w p Hp Ho), Hrx.
  rewrite (wait_loop_ERROR _ _ _ _ _ _ _ _ Hres
             (Hc' "OK" ltac:(set_solver)) (Hc' "WARN" ltac:(set_solver)) Hocc).
  eexists _, _. split; [reflexivity|]. split; [split; [apply lookup_insert_eq|done]|].
  cbn. unfold write_feedback, progress_of.
  destruct (verbose E); [|done]. by rewrite omap_app, app_nil_r.
Qed.

Lemma says_WARN_wait (E : env) (ser : string) (w : world) (p : serial_port)
    (e : rx_event) (rest : list rx_event) :
  connected ser p w -> rx p = e :: rest -> says_WARN e ->
  exists msg w',
    wait_for_response E ser w = Ret ("WARN", msg) w'
    /\ connected ser (set_rx rest p) w'
    /\ progress_of (stdout w') = progress_of (stdout w).
Proof.
  intros Hc Hrx (dt & bs & res & -> & Hres & Hocc & Hno).
  apply contains_iff in Hocc. apply contains_false in Hno.
  destruct Hc as [Hp Ho].
  rewrite (wait_for_response_eq E ser w p Hp Ho), Hrx.
  rewrite (wait_loop_WARN _ _ _ _ _ _ _ _ Hres Hno Hocc).
  eexists _, _. split; [reflexivity|]. split; [split; [apply lookup_insert_eq|done]|].
  cbn. unfold write_feedback, progress_of.
  destruct (verbose E); [|done]. by rewrite omap_app, app_nil_r.
Qed.

Lemma framed_cons (b : list byte) (bl : list (list byte)) :
  framed (b :: bl) = prefix2 (length b) :: b :: framed bl.
Proof. reflexivity. Qed.

Lemma write_chip_loop_error (E : env) (ser : string) (file_size mem_size : Z)
    (bad : rx_event) (rest : list rx_event) (fuel : nat) :
  forall (f : list byte) (bytes_sent : Z) (w : world) (p : serial_port)
         (acks : list rx_event),
  (length f <= fuel)%nat ->
  connected ser p w ->
  rx p = acks ++ bad :: rest ->
  Forall says_OK acks ->
  says_ERROR bad ->
  (length acks < length (blocks f))%nat ->
  (forall j, (1 <= j <= length acks)%nat ->
             bytes_sent + total (take j (blocks f)) <> mem_size) ->
  file_size <> 0 ->
  exists w' p' msg,
    write_chip_loop E fuel ser f file_size mem_size bytes_sent w = Ret false w'
    /\ connected ser p' w'
    /\ tx p' = tx p ++ framed (take (S (length acks)) (blocks f))
    /\ rx p' = rest
    /\ last (stdout w') = Some (Print ("Error writing: " +:+ msg))
    /\ length (progress_of (stdout w')) = (length (progress_of (stdout w)) + length acks)%nat.
Proof.
  induction fuel as [|fuel IH];
    intros f bytes_sent w p acks Hfuel Hc Hrx Hacks Hbad Hlen Hno Hsize.
  - destruct f; [|simpl in Hfuel; lia]. rewrite blocks_nil in Hlen. simpl in Hlen. lia.
  - destruct (decide (f = [])) as [->|Hne].
    { rewrite blocks_nil in Hlen. simpl in Hlen. lia. }
    rewrite (blocks_cons f Hne) in *.
    assert (Hdata : take 256 f <> []) by (by destruct f).
    assert (Hlen256 : (length (take 256 f) <= 256)%nat) by (rewrite length_take; lia).
    cbn [write_chip_loop].
    destruct (take 256 f) as [|x data] eqn:Htake; [done|]. rewrite <- Htake in *.
    unfold to_bytes2. rewrite (to_bytes2_small _ Hlen256).
    run_pure.
    run_with (eapply (ser_write_eq ser _ _ p); exact Hc).
    run_with (eapply (ser_write_eq ser _ _ (set_tx _ p)); conn Hc).
    run_with (eapply (ser_flush_eq ser _ (set_tx _ (set_tx _ p))); conn Hc).
    destruct acks as [|ack acks].
    + match goal with
      | |- context [mbind _ (wait_for_response E ser) ?W] =>
          edestruct (says_ERROR_wait E ser W) as (msg & w1 & Hwait & Hc1 & Hpr1);
            [conn Hc|exact Hrx|exact Hbad|]
      end.
      run_with (exact Hwait).
      cbv beta iota zeta. change (String.eqb "ERROR" "OK") with false.
      change (String.eqb "ERROR" "ERROR") with true. cbv iota.
      run_pure. cbv beta iota.
      eexists _, _, msg. split; [reflexivity|].
      split; [split; [cbn; apply Hc1|apply Hc1]|].
      split; [cbn; by rewrite <- !(assoc_L (++))|]. split; [done|].
      split; [cbn; by rewrite last_snoc|].
      cbn. unfold progress_of in *. rewrite !omap_app, Hpr1. cbn.
      rewrite !app_nil_r. simpl. lia.
    + simpl in Hlen. apply Forall_cons in Hacks as [Hack Hacks].
      match goal with
      | |- context [mbind _ (wait_for_response E ser) ?W] =>
          edestruct (says_OK_wait_quiet E ser W) as (msg & w1 & Hwait & Hc1 & _ & _ & Hpr1);
            [conn Hc|exact Hrx|exact Hack|]
      end.
      run_with (exact Hwait).
      cbv beta iota zeta. change (String.eqb "OK" "OK") with true. cbv iota.
      destruct (percent_of_eq (bytes_sent + Z.of_nat (length (take 256 f))) file_size w1
                  Hsize) as [pc Hpc].
      assert (Hinner :
        (percent_of (bytes_sent + Z.of_nat (length (take 256 f))) file_size
         ≫= fun p0 => print_progress E p0
                        (bytes_sent + Z.of_nat (length (take 256 f)) - 256)
                        (bytes_sent + Z.of_nat (length (take 256 f)))
                      ≫= fun _ => ret (Some (bytes_sent + Z.of_nat (length (take 256 f)))))
          w1
        = Ret (Some (bytes_sent + Z.of_nat (length (take 256 f))))
            (set_stdout (stdout w1 ++
               [Progress (negb (verbose E)) pc
                  (bytes_sent + Z.of_nat (length (take 256 f)) - 256)
                  (bytes_sent + Z.of_nat (length (take 256 f)))]) w1)).
      { rewrite (bind_Ret _ _ _ _ _ Hpc). unfold print_progress.
        by destruct (verbose E). }
      run_with (exact Hinner).
      cbv beta iota.
      pose proof (Hno 1%nat ltac:(simpl; lia)) as H1.
      cbn [take] in H1. rewrite total_cons in H1. unfold total in H1. simpl in H1.
      destruct (Z.eqb_spec (bytes_sent + Z.of_nat (length (take 256 f))) mem_size); [lia|].
      match type of Hc1 with
      | connected _ ?q _ =>
          destruct (IH (drop 256 f) (bytes_sent + Z.of_nat (length (take 256 f)))
                      (set_stdout (stdout w1 ++
                         [Progress (negb (verbose E)) pc
                            (bytes_sent + Z.of_nat (length (take 256 f)) - 256)
                            (bytes_sent + Z.of_nat (length (take 256 f)))]) w1)
                      q acks) as (w' & p' & msg' & Hrun & Hc' & Htx & Hrx' & Hlast & Hprog)
      end.
      * rewrite length_drop. destruct f; [done|simpl in *; lia].
      * split; [cbn; apply Hc1|apply Hc1].
      * reflexivity.
      * exact Hacks.
      * exact Hbad.
      * lia.
      * intros j Hj. specialize (Hno (S j) ltac:(simpl; lia)).
        cbn [take] in Hno. rewrite total_cons in Hno. lia.
      * exact Hsize.
      * exists w', p', msg'. split; [exact Hrun|]. split; [exact Hc'|].
        split; [rewrite Htx; cbn; by rewrite <- !(assoc_L (++))|]. split; [exact Hrx'|].
        split; [exact Hlast|]. rewrite Hprog. cbn. unfold progress_of in *.
        rewrite !omap_app, Hpr1. cbn. rewrite length_app. simpl. lia.
Qed.

(** [write_chip] up to its loop, the handshake being done *)
Lemma write_chip_start (E : env) (eprom input_file : string) (data : eprom_data)
    (content : list byte) (w w1 : world) (ser : string) (p : serial_port) :
  get_eprom E eprom = Some data ->
  fs w !! input_file = Some content ->
  find_programmer E (json_dumps E (<["state" := JInt STATE_WRITE]> (envelope data)))
    (if memory_size data =? Z.of_nat (length content) then w
     else set_stdout (stdout w ++ [Print "The file size dont match the memory size"]) w)
  = Ret (Some ser) w1 ->
  connected ser p w1 ->
  exists w2,
    connected ser p w2
    /\ (exists o, stdout w2 = stdout w1 ++ o /\ Forall is_print o)
    /\ write_chip E eprom input_file None w =
       released ser
         (write_chip_loop E (length content) ser content (Z.of_nat (length content))
            (memory_size data) 0
          ≫= fun finished : bool =>
               if finished then
                 now ← time_time;
                 print "";;
                 emit (Duration "File sent successfully in" (now - clock w))
               else ret tt) w2.
Proof.
  intros Hget Hfile Hfind Hc.
  assert (Hfile1 : fs w1 !! input_file = Some content).
  { pose proof (find_programmer_found _ _ _ _ _ Hfind) as (_ & _ & Hfs & _).
    rewrite Hfs. by destruct (_ =? _). }
  unfold write_chip. rewrite Hget.
  run_pure. unfold getsize. rewrite Hfile. run_pure.
  set (S := Z.of_nat (length content)) in *.
  assert (Hsz : ((if memory_size data =? S then ret ()
                  else print "The file size dont match the memory size") : M unit) w
                = Ret tt (if memory_size data =? S then w
                          else set_stdout (stdout w ++
                                 [Print "The file size dont match the memory size"]) w)).
  { by destruct (memory_size data =? S). }
  run_with (exact Hsz).
  assert (Hclock : clock (if memory_size data =? S then w
                          else set_stdout (stdout w ++
                                 [Print "The file size dont match the memory size"]) w)
                   = clock w) by (by destruct (memory_size data =? S)).
  run_pure. rewrite Hclock.
  run_with (exact Hfind).
  cbv beta iota zeta.
  eexists (set_stdout _ (set_stdout _ (set_stdout _ w1))).
  split; [|split; [|apply released_ext; run_pure; run_pure; run_pure;
                    cbn [fs set_stdout]; rewrite Hfile1; run_pure; reflexivity]].
  - split; [cbn; apply Hc|apply Hc].
  - cbn. eexists. split; [by rewrite <- !(assoc_L (++))|]. by repeat constructor.
Qed.

Lemma progress_of_prints (o1 o : list out) :
  Forall is_print o -> progress_of (o1 ++ o) = progress_of o1.
Proof.
  intros Ho. unfold progress_of. by rewrite omap_app, (omap_only_prints _ o), app_nil_r.
Qed.

(** X17: an ERROR ends the write at once.  When the device has accepted
    some blocks and answers the next one with ERROR, [write_chip] prints
    the error and ends normally: the refused block is the last thing sent,
    no later block and no terminator follows, and one progress line has
    been printed for each block accepted. *)
Theorem write_chip_stops_at_error (E : env) (eprom input_file : string)
    (data : eprom_data) (content : list byte) (w w1 : world) (ser : string)
    (p : serial_port) (acks : list rx_event) (bad : rx_event) (rest : list rx_event) :
  get_eprom E eprom = Some data ->
  fs w !! input_file = Some content ->
  find_programmer E (json_dumps E (<["state" := JInt STATE_WRITE]> (envelope data)))
    (if memory_size data =? Z.of_nat (length content) then w
     else set_stdout (stdout w ++ [Print "The file size dont match the memory size"]) w)
  = Ret (Some ser) w1 ->
  connected ser p w1 ->
  rx p = acks ++ bad :: rest ->
  Forall says_OK acks ->
  says_ERROR bad ->
  (length acks < length (blocks content))%nat ->
  (forall j, (1 <= j <= length acks)%nat ->
             cumulative (Z.of_nat (length content)) j <> memory_size data) ->
  exists w' msg,
    write_chip E eprom input_file None w = Ret tt w'
    /\ tx <$> ports w' !! ser
       = Some (tx p ++ framed (take (S (length acks)) (blocks content)))
    /\ rx <$> ports w' !! ser = Some rest
    /\ last (stdout w') = Some (Print ("Error writing: " +:+ msg))
    /\ length (progress_of (stdout w'))
       = (length (progress_of (stdout w1)) + length acks)%nat.
Proof.
  intros Hget Hfile Hfind Hc Hrx Hacks Hbad Hlen Hno.
  destruct (write_chip_start E eprom input_file data content w w1 ser p Hget Hfile Hfind Hc)
    as (w2 & Hc2 & (o2 & Ho2 & Hprints) & Hrun).
  assert (Hpr2 : progress_of (stdout w2) = progress_of (stdout w1))
    by (rewrite Ho2; by apply progress_of_prints).
  destruct (write_chip_loop_error E ser (Z.of_nat (length content)) (memory_size data)
              bad rest (length content) content 0 w2 p acks)
    as (w' & p' & msg & Hloop & Hc' & Htx & Hrx' & Hlast & Hprog);
    [done|done|done|done|done|done| | |].
  - intros j Hj. unfold total. rewrite blocks_cumulative by lia.
    rewrite Z.add_0_l. by apply Hno.
  - destruct content; [rewrite blocks_nil in Hlen; simpl in Hlen; lia|simpl; lia].
  - exists (with_port ser (set_open false p') w'), msg. rewrite Hrun. split.
    { apply released_Ret; [by rewrite (bind_Ret _ _ _ _ _ Hloop)|apply Hc']. }
    cbn [ports stdout with_port set_ports]. rewrite lookup_insert_eq. cbn [fmap option_fmap
      option_map tx rx set_open]. rewrite Htx, Hrx'.
    repeat (split; [done|]). by rewrite Hprog, Hpr2.
Qed.

Lemma write_chip_stops_at_error_witness :
  exists w' msg,
    write_chip (chips 1024) "27C256" "rom.bin" None
      (bench_with_file [line "OK:"; line "OK: 1"; line "ERROR: verify failed"; line "OK: 3"]
         "rom.bin" rom) = Ret tt w'
    /\ tx <$> ports w' !! "COM1"
       = Some (tx (handshaken [line "OK: 1"; line "ERROR: verify failed"; line "OK: 3"])
               ++ framed (take (S (length [line "OK: 1"])) (blocks rom)))
    /\ rx <$> ports w' !! "COM1" = Some [line "OK: 3"]
    /\ last (stdout w') = Some (Print ("Error writing: " +:+ msg))
    /\ length (progress_of (stdout w'))
       = (length (progress_of (stdout (set_fs {["rom.bin" := rom]}
            (set_stdout [Print "The file size dont match the memory size"]
               (bench_found [line "OK: 1"; line "ERROR: verify failed"; line "OK: 3"])))))
          + length [line "OK: 1"])%nat.
Proof.
  apply (write_chip_stops_at_error (chips 1024) "27C256" "rom.bin"
           {| name := "27C256"; manufacturer_name := "ST"; verified := true;
              memory_size := 1024; params := ∅ |} rom
           (bench_with_file [line "OK:"; line "OK: 1"; line "ERROR: verify failed"; line "OK: 3"]
              "rom.bin" rom)
           (set_fs {["rom.bin" := rom]}
              (set_stdout [Print "The file size dont match the memory size"]
                 (bench_found [line "OK: 1"; line "ERROR: verify failed"; line "OK: 3"])))
           "COM1" (handshaken [line "OK: 1"; line "ERROR: verify failed"; line "OK: 3"])
           [line "OK: 1"] (line "ERROR: verify failed") [line "OK: 3"]).
  - reflexivity.
  - vm_compute; reflexivity.
  - vm_compute; reflexivity.
  - split; vm_compute; reflexivity.
  - reflexivity.
  - repeat constructor.
    exists 0%N, (Py.encode ("OK: 1" +:+ String "010" "")), "OK: 1".
    split; [reflexivity|]. split; [vm_compute; reflexivity|]. exists 0%nat, "", " 1". done.
  - exists 0%N, (Py.encode ("ERROR: verify failed" +:+ String "010" "")), "ERROR: verify failed".
    split; [reflexivity|]. split; [vm_compute; reflexivity|]. split.
    + exists 0%nat, "", " verify failed". done.
    + intros T HT j Hj. apply (proj1 (contains_false _ _)) in Hj; [done|].
      repeat (apply elem_of_cons in HT as [->|HT]; [vm_compute; reflexivity|]).
      by apply elem_of_nil in HT.
  - vm_compute. lia.
  - intros j Hj. simpl in Hj. assert (j = 1%nat) as -> by lia. vm_compute. done.
Defined.

Lemma write_chip_loop_eof_quiet (E : env) (ser : string) (file_size mem_size : Z)
    (fuel : nat) (bytes_sent : Z) (w : world) (p : serial_port) :
  connected ser p w ->
  exists w' p',
    connected ser p' w'
    /\ tx p' = tx p ++ [terminator]
    /\ progress_of (stdout w') = progress_of (stdout w)
    /\ ((write_chip_loop E fuel ser [] file_size mem_size bytes_sent w = Ret false w'
         /\ exists o info, stdout w' = o ++ [Print "End of file reached"; Print info])
        \/ exists e, write_chip_loop E fuel ser [] file_size mem_size bytes_sent w
                     = Raise e w').
Proof.
  intros Hc.
  assert (Hgo : write_chip_loop E fuel ser [] file_size mem_size bytes_sent
                = write_chip_loop E O ser [] file_size mem_size bytes_sent)
    by (by destruct fuel).
  rewrite Hgo. simpl.
  run_pure.
  run_with (eapply (ser_write_eq ser _ _ p); exact Hc).
  run_with (eapply (ser_flush_eq ser _ (set_tx _ p)); conn Hc).
  set (w1 := with_port ser (set_tx (tx p ++ [[x00; x00]]) p) w).
  destruct (wait_for_response_tx E ser w1 (set_tx (tx p ++ [[x00; x00]]) p))
    as (w' & p' & Hc' & Htx & Hr); [conn Hc|].
  pose proof (wait_for_response_console E ser w1) as Hcon.
  destruct Hr as [[[resp info] Hr]|[e Hr]]; rewrite Hr in Hcon.
  - run_with (exact Hr). cbv beta iota zeta.
    eexists _, p'. split; [|split; [exact Htx|split; [|left; split; [reflexivity|]]]].
    + split; [cbn; apply Hc'|apply Hc'].
    + cbn. unfold progress_of in *. rewrite !omap_app. cbn. rewrite !app_nil_r. apply Hcon.
    + cbn. exists (stdout w'), info. by rewrite <- (assoc_L (++)).
  - rewrite (bind_Raise _ _ _ _ _ Hr).
    exists w', p'. split; [done|]. split; [done|]. split; [apply Hcon|]. right. eauto.
Qed.

Lemma write_chip_loop_warned (E : env) (ser : string) (file_size mem_size : Z)
    (rest : list rx_event) (fuel : nat) :
  forall (f : list byte) (bytes_sent : Z) (w : world) (p : serial_port)
         (warns : list rx_event),
  (length f <= fuel)%nat ->
  connected ser p w ->
  rx p = warns ++ rest ->
  Forall says_WARN warns ->
  length warns = length (blocks f) ->
  bytes_sent <> mem_size ->
  exists w' p',
    connected ser p' w'
    /\ tx p' = tx p ++ framed (blocks f) ++ [terminator]
    /\ progress_of (stdout w') = progress_of (stdout w)
    /\ ((write_chip_loop E fuel ser f file_size mem_size bytes_sent w = Ret false w'
         /\ exists o info, stdout w' = o ++ [Print "End of file reached"; Print info])
        \/ exists e, write_chip_loop E fuel ser f file_size mem_size bytes_sent w
                     = Raise e w').
Proof.
  induction fuel as [|fuel IH]; intros f bytes_sent w p warns Hfuel Hc Hrx Hw Hlen Hne.
  - destruct f; [|simpl in Hfuel; lia]. rewrite blocks_nil. by apply write_chip_loop_eof_quiet.
  - destruct (decide (f = [])) as [->|Hf].
    { rewrite blocks_nil. by apply write_chip_loop_eof_quiet. }
    rewrite (blocks_cons f Hf) in *.
    destruct warns as [|warn warns]; [done|]. simpl in Hlen.
    apply Forall_cons in Hw as [Hwarn Hw].
    assert (Hdata : take 256 f <> []) by (by destruct f).
    assert (Hlen256 : (length (take 256 f) <= 256)%nat) by (rewrite length_take; lia).
    cbn [write_chip_loop].
    destruct (take 256 f) as [|x data] eqn:Htake; [done|]. rewrite <- Htake in *.
    unfold to_bytes2. rewrite (to_bytes2_small _ Hlen256).
    run_pure.
    run_with (eapply (ser_write_eq ser _ _ p); exact Hc).
    run_with (eapply (ser_write_eq ser _ _ (set_tx _ p)); conn Hc).
    run_with (eapply (ser_flush_eq ser _ (set_tx _ (set_tx _ p))); conn Hc).
    match goal with
    | |- context [mbind _ (wait_for_response E ser) ?W] =>
        edestruct (says_WARN_wait E ser W) as (msg & w1 & Hwait & Hc1 & Hpr1);
          [conn Hc|exact Hrx|exact Hwarn|]
    end.
    run_with (exact Hwait).
    cbv beta iota zeta. change (String.eqb "WARN" "OK") with false.
    change (String.eqb "WARN" "ERROR") with false. cbv iota.
    run_pure. cbv beta iota.
    destruct (Z.eqb_spec bytes_sent mem_size) as [|_]; [done|].
    match type of Hc1 with
    | connected _ ?q _ =>
        destruct (IH (drop 256 f) bytes_sent w1 q warns)
          as (w' & p' & Hc' & Htx & Hpr & Hr)
    end.
    + rewrite length_drop. destruct f; [done|simpl in *; lia].
    + exact Hc1.
    + reflexivity.
    + exact Hw.
    + lia.
    + exact Hne.
    + exists w', p'. split; [done|]. split; [|split; [|exact Hr]].
      * rewrite Htx. cbn. by rewrite <- !(assoc_L (++)).
      * rewrite Hpr, Hpr1. done.
Qed.

(** X18: a block answered with WARN is neither counted nor sent again:
    the loop goes on with the next block.  When the device answers every
    block with WARN, [write_chip] still sends the whole file and the
    terminator and prints no progress line at all; it ends behind the
    terminator, at the message that the end of the file was reached or with
    the exception of that last read, and never at the message that the file
    was sent. *)
Theorem write_chip_warned_blocks (E : env) (eprom input_file : string)
    (data : eprom_data) (content : list byte) (w w1 : world) (ser : string)
    (p : serial_port) (warns rest : list rx_event) :
  get_eprom E eprom = Some data ->
  fs w !! input_file = Some content ->
  find_programmer E (json_dumps E (<["state" := JInt STATE_WRITE]> (envelope data)))
    (if memory_size data =? Z.of_nat (length content) then w
     else set_stdout (stdout w ++ [Print "The file size dont match the memory size"]) w)
  = Ret (Some ser) w1 ->
  connected ser p w1 ->
  rx p = warns ++ rest ->
  Forall says_WARN warns ->
  length warns = length (blocks content) ->
  memory_size data <> 0 ->
  exists w',
    ((write_chip E eprom input_file None w = Ret tt w'
      /\ exists o info, stdout w' = o ++ [Print "End of file reached"; Print info])
     \/ exists e, write_chip E eprom input_file None w = Raise e w')
    /\ tx <$> ports w' !! ser = Some (tx p ++ framed (blocks content) ++ [terminator])
    /\ progress_of (stdout w') = progress_of (stdout w1).
Proof.
  intros Hget Hfile Hfind Hc Hrx Hw Hlen Hmem.
  destruct (write_chip_start E eprom input_file data content w w1 ser p Hget Hfile Hfind Hc)
    as (w2 & Hc2 & (o2 & Ho2 & Hprints) & Hrun).
  assert (Hpr2 : progress_of (stdout w2) = progress_of (stdout w1))
    by (rewrite Ho2; by apply progress_of_prints).
  destruct (write_chip_loop_warned E ser (Z.of_nat (length content)) (memory_size data)
              rest (length content) content 0 w2 p warns)
    as (w' & p' & Hc' & Htx & Hpr & Hr); [done|done|done|done|done|lia|].
  rewrite Hrun. destruct Hr as [[Hr Hout]|[e Hr]].
  - exists (with_port ser (set_open false p') w'). split.
    { left. split; [|exact Hout].
      apply released_Ret; [by rewrite (bind_Ret _ _ _ _ _ Hr)|apply Hc']. }
    cbn [ports stdout with_port set_ports]. rewrite lookup_insert_eq.
    cbn [fmap option_fmap option_map tx set_open]. rewrite Htx.
    split; [done|]. by rewrite Hpr, Hpr2.
  - exists w'. split.
    { right. exists e. apply released_Raise. by rewrite (bind_Raise _ _ _ _ _ Hr). }
    destruct Hc' as [Hp' _]. rewrite Hp'. cbn. rewrite Htx.
    split; [done|]. by rewrite Hpr, Hpr2.
Qed.

Lemma write_chip_warned_blocks_witness :
  exists w',
    ((write_chip (chips 1024) "27C256" "rom.bin" None
        (bench_with_file [line "OK:"; line "WARN: 1"; line "WARN: 2"; line "WARN: 3"; line "OK:"]
           "rom.bin" rom) = Ret tt w'
      /\ exists o info, stdout w' = o ++ [Print "End of file reached"; Print info])
     \/ exists e,
          write_chip (chips 1024) "27C256" "rom.bin" None
            (bench_with_file [line "OK:"; line "WARN: 1"; line "WARN: 2"; line "WARN: 3"; line "OK:"]
               "rom.bin" rom) = Raise e w')
    /\ tx <$> ports w' !! "COM1"
       = Some (tx (handshaken [line "WARN: 1"; line "WARN: 2"; line "WARN: 3"; line "OK:"])
               ++ framed (blocks rom) ++ [terminator])
    /\ progress_of (stdout w')
       = progress_of (stdout (set_fs {["rom.bin" := rom]}
            (set_stdout [Print "The file size dont match the memory size"]
               (bench_found [line "WARN: 1"; line "WARN: 2"; line "WARN: 3"; line "OK:"])))).
Proof.
  apply (write_chip_warned_blocks (chips 1024) "27C256" "rom.bin"
           {| name := "27C256"; manufacturer_name := "ST"; verified := true;
              memory_size := 1024; params := ∅ |} rom
           (bench_with_file [line "OK:"; line "WARN: 1"; line "WARN: 2"; line "WARN: 3"; line "OK:"]
              "rom.bin" rom)
           (set_fs {["rom.bin" := rom]}
              (set_stdout [Print "The file size dont match the memory size"]
                 (bench_found [line "WARN: 1"; line "WARN: 2"; line "WARN: 3"; line "OK:"])))
           "COM1" (handshaken [line "WARN: 1"; line "WARN: 2"; line "WARN: 3"; line "OK:"])
           [line "WARN: 1"; line "WARN: 2"; line "WARN: 3"] [line "OK:"]).
  - reflexivity.
  - vm_compute; reflexivity.
  - vm_compute; reflexivity.
  - split; vm_compute; reflexivity.
  - reflexivity.
  - repeat constructor.
    + exists 0%N, (Py.encode ("WARN: 1" +:+ String "010" "")), "WARN: 1".
      split; [reflexivity|]. split; [vm_compute; reflexivity|]. split.
      * exists 0%nat, "", " 1". done.
      * intros j Hj. apply (proj1 (contains_false _ _)) in Hj; [done|]. vm_compute; reflexivity.
    + exists 0%N, (Py.encode ("WARN: 2" +:+ String "010" "")), "WARN: 2".
      split; [reflexivity|]. split; [vm_compute; reflexivity|]. split.
      * exists 0%nat, "", " 2". done.
      * intros j Hj. apply (proj1 (contains_false _ _)) in Hj; [done|]. vm_compute; reflexivity.
    + exists 0%N, (Py.encode ("WARN: 3" +:+ String "010" "")), "WARN: 3".
      split; [reflexivity|]. split; [vm_compute; reflexivity|]. split.
      * exists 0%nat, "", " 3". done.
      * intros j Hj. apply (proj1 (contains_false _ _)) in Hj; [done|]. vm_compute; reflexivity.
  - vm_compute; reflexivity.
  - done.
Defined.

(** ** What [write_chip] cannot do *)

(** A step that adds no progress line and raises nothing but the
    exception of the transport *)
Lemma steady_step {A} (c : M A) (w : world) (Q : A -> world -> Prop) :
  percentages_in_range w ->
  outcome (c w) (fun a w' => progress_of (stdout w') = progress_of (stdout w) /\ Q a w')
                (fun e w' => e = SerialException
                             /\ progress_of (stdout w') = progress_of (stdout w)) ->
  outcome (c w) (fun a w' => percentages_in_range w' /\ Q a w')
                (fun e w' => e = SerialException /\ percentages_in_range w').
Proof.
  intros Hw Hc. eapply outcome_impl; [exact Hc| |]; unfold percentages_in_range.
  - intros a w' [Hpr HQ]. by rewrite Hpr.
  - intros e w' [-> Hpr]. by rewrite Hpr.
Qed.

Lemma ser_write_steady (ser : string) (data : list byte) (w : world) :
  outcome (ser_write ser data w)
    (fun n w' => progress_of (stdout w') = progress_of (stdout w)
                 /\ n = Z.of_nat (length data))
    (fun e w' => e = SerialException /\ progress_of (stdout w') = progress_of (stdout w)).
Proof.
  unfold ser_write, the_port, mbind, M_bind, bind.
  destruct (ports w !! ser) as [p|]; [|done]. by destruct (is_open p).
Qed.

Lemma ser_flush_steady (ser : string) (w : world) :
  outcome (ser_flush ser w)
    (fun _ w' => progress_of (stdout w') = progress_of (stdout w) /\ True)
    (fun e w' => e = SerialException /\ progress_of (stdout w') = progress_of (stdout w)).
Proof.
  unfold ser_flush, the_port, mbind, M_bind, bind.
  destruct (ports w !! ser) as [p|]; [|done]. by destruct (is_open p).
Qed.

Lemma wait_for_response_steady (E : env) (ser : string) (w : world) :
  outcome (wait_for_response E ser w)
    (fun _ w' => progress_of (stdout w') = progress_of (stdout w) /\ True)
    (fun e w' => e = SerialException /\ progress_of (stdout w') = progress_of (stdout w)).
Proof.
  eapply outcome_impl; [apply wait_for_response_console| |].
  - by intros t w' [H _].
  - by intros e w' (-> & H & _).
Qed.

Lemma print_in_range (s : string) (w : world) :
  percentages_in_range w -> percentages_in_range (set_stdout (stdout w ++ [Print s]) w).
Proof.
  unfold percentages_in_range, progress_of. cbn. rewrite omap_app. cbn.
  by rewrite app_nil_r.
Qed.

Ltac steady lem H :=
  apply outcome_bind; eapply outcome_impl;
    [apply steady_step; [exact H|apply lem]| |done].

Lemma write_chip_loop_safe (E : env) (ser : string) (file_size mem_size : Z) (fuel : nat) :
  forall (f : list byte) (bytes_sent : Z) (w : world),
  0 <= bytes_sent ->
  bytes_sent + Z.of_nat (length f) <= file_size ->
  percentages_in_range w ->
  outcome (write_chip_loop E fuel ser f file_size mem_size bytes_sent w)
    (fun _ w' => percentages_in_range w')
    (fun e w' => e = SerialException /\ percentages_in_range w').
Proof.
  assert (Heof : forall fuel bytes_sent w,
    percentages_in_range w ->
    outcome (write_chip_loop E fuel ser [] file_size mem_size bytes_sent w)
      (fun _ w' => percentages_in_range w')
      (fun e w' => e = SerialException /\ percentages_in_range w')).
  { intros fuel' bytes_sent w Hw.
    assert (Hgo : write_chip_loop E fuel' ser [] file_size mem_size bytes_sent
                  = write_chip_loop E O ser [] file_size mem_size bytes_sent)
      by (by destruct fuel').
    rewrite Hgo. simpl. run_pure.
    steady ser_write_steady Hw. intros n w1 [Hw1 _].
    steady ser_flush_steady Hw1. intros u w2 [Hw2 _].
    steady wait_for_response_steady Hw2. intros [resp info] w3 [Hw3 _].
    cbn. by do 2 apply print_in_range. }
  assert (Hstep : forall fuel f bytes_sent w,
    (forall f' b' w', 0 <= b' -> b' + Z.of_nat (length f') <= file_size ->
       percentages_in_range w' ->
       outcome (match fuel with
                | O => diverge
                | S fuel' => write_chip_loop E fuel' ser f' file_size mem_size b'
                end w')
         (fun _ w' => percentages_in_range w')
         (fun e w' => e = SerialException /\ percentages_in_range w')) ->
    f <> [] -> 0 <= bytes_sent -> bytes_sent + Z.of_nat (length f) <= file_size ->
    percentages_in_range w ->
    outcome (write_chip_loop E fuel ser f file_size mem_size bytes_sent w)
      (fun _ w' => percentages_in_range w')
      (fun e w' => e = SerialException /\ percentages_in_range w')).
  { intros fuel' f bytes_sent w Hrec Hne Hb Hf Hw.
    assert (Hdata : take 256 f <> []) by (by destruct f).
    assert (Hlen256 : (length (take 256 f) <= 256)%nat) by (rewrite length_take; lia).
    assert (Hlen : (length (take 256 f) <= length f)%nat) by (rewrite length_take; lia).
    assert (Hdrop : (length (drop 256 f) <= length f)%nat) by (rewrite length_drop; lia).
    assert (Hsum : (length (take 256 f) + length (drop 256 f) = length f)%nat)
      by (rewrite length_take, length_drop; lia).
    assert (Hgo : write_chip_loop E fuel' ser f file_size mem_size bytes_sent w =
      (prefix ← to_bytes2 (Z.of_nat (length (take 256 f)));
       ser_write ser prefix;;
       sent ← ser_write ser (take 256 f);
       ser_flush ser;;
       '(resp, info) ← wait_for_response E ser;
       sent_now ←
         (if String.eqb resp "OK" then
            let bytes_sent := bytes_sent + sent in
            p ← percent_of bytes_sent file_size;
            print_progress E p (bytes_sent - 256) bytes_sent;;
            ret (Some bytes_sent)
          else if String.eqb resp "ERROR" then
            print "";;
            print ("Error writing: " +:+ info);;
            ret None
          else ret (Some bytes_sent));
       match sent_now with
       | None => ret false
       | Some bytes_sent =>
           if bytes_sent =? mem_size then ret true
           else match fuel' with
                | O => diverge
                | S fuel' => write_chip_loop E fuel' ser (drop 256 f) file_size mem_size bytes_sent
                end
       end) w).
    { destruct fuel'; cbn [write_chip_loop]; by destruct (take 256 f). }
    rewrite Hgo. unfold to_bytes2. rewrite (to_bytes2_small _ Hlen256). run_pure.
    steady ser_write_steady Hw. intros n w1 [Hw1 _].
    steady ser_write_steady Hw1. intros sent w2 [Hw2 ->].
    steady ser_flush_steady Hw2. intros u w3 [Hw3 _].
    steady wait_for_response_steady Hw3. intros [resp info] w4 [Hw4 _].
    apply outcome_bind.
    destruct (String.eqb resp "OK").
    - assert (Hsize : file_size <> 0) by (destruct f; [done|simpl in Hf; lia]).
      destruct (percent_of_eq (bytes_sent + Z.of_nat (length (take 256 f))) file_size w4
                  Hsize) as [pc Hpc].
      cbv zeta. rewrite (bind_Ret _ _ _ _ _ Hpc).
      assert (Hrange : 0 <= pc <= 100).
      { unfold percent_of in Hpc.
        destruct (percent (bytes_sent + Z.of_nat (length (take 256 f))) file_size) as [pc'|] eqn:Hp;
          [|done].
        injection Hpc as ->.
        assert (Hpos : 0 < file_size) by lia.
        assert (Hin : 0 <= bytes_sent + Z.of_nat (length (take 256 f)) <= file_size) by lia.
        exact (percent_range _ _ _ Hin Hpos Hp). }
      assert (Hpp : forall a b, print_progress E pc a b w4
                    = Ret tt (set_stdout (stdout w4 ++ [Progress (negb (verbose E)) pc a b]) w4))
        by (intros a b; unfold print_progress; by destruct (verbose E)).
      rewrite (bind_Ret _ _ _ _ _ (Hpp _ _)). cbn [outcome mret M_ret ret].
      destruct (_ =? mem_size); [|apply Hrec; [lia|lia|]];
        unfold percentages_in_range, progress_of in *; cbn; rewrite omap_app; cbn;
        apply Forall_app; split; try done; by constructor.
    - destruct (String.eqb resp "ERROR"); cbn.
      + by do 2 apply print_in_range.
      + destruct (_ =? mem_size); [done|]. apply Hrec; [done|lia|done]. }
  induction fuel as [|fuel IH]; intros f bytes_sent w Hb Hf Hw.
  - destruct (decide (f = [])) as [->|Hne]; [by apply Heof|].
    by apply Hstep.
  - destruct (decide (f = [])) as [->|Hne]; [by apply Heof|].
    apply Hstep; [|done..]. intros f' b' w' Hb' Hf' Hw'. by apply IH.
Qed.

Section InRange.

Context (E : env).

Lemma preserves_print_range (s : string) : preserves percentages_in_range (print s).
Proof. intros w Hw. by apply print_in_range. Qed.

Lemma preserves_wait_range (ser : string) : preserves percentages_in_range (wait_for_response E ser).
Proof.
  intros w Hw. eapply outcome_impl;
    [apply steady_step; [exact Hw|apply wait_for_response_steady]| |];
    [by intros ? ? [? _]|by intros ? ? [_ ?]].
Qed.

Lemma preserves_write_range (ser : string) (data : list byte) :
  preserves percentages_in_range (ser_write ser data).
Proof.
  intros w Hw. eapply outcome_impl;
    [apply steady_step; [exact Hw|apply ser_write_steady]| |];
    [by intros ? ? [? _]|by intros ? ? [_ ?]].
Qed.

Lemma preserves_flush_range (ser : string) : preserves percentages_in_range (ser_flush ser).
Proof.
  intros w Hw. eapply outcome_impl;
    [apply steady_step; [exact Hw|apply ser_flush_steady]| |];
    [by intros ? ? [? _]|by intros ? ? [_ ?]].
Qed.

Lemma preserves_close_range (ser : string) : preserves percentages_in_range (ser_close ser).
Proof. intros w Hw. unfold ser_close. by destruct (ports w !! ser). Qed.

Lemma preserves_released_range {A} (ser : string) (c : M A) :
  preserves percentages_in_range c -> preserves percentages_in_range (released ser c).
Proof.
  intros Hc. apply preserves_bind; [done|]. intros a.
  apply preserves_bind; [apply preserves_close_range|]. intros _. apply preserves_ret.
Qed.

Lemma preserves_check_port_range (port data : string) :
  preserves percentages_in_range (check_port E port data).
Proof.
  apply preserves_bind; cycle 1.
  { intros [ser|]; [apply preserves_ret|]. apply preserves_released_range, preserves_ret. }
  apply preserves_try_except; [|intros _; apply preserves_ret].
  apply preserves_bind;
    [destruct (verbose E); [apply preserves_print_range|apply preserves_ret]|].
  intros _. apply preserves_bind.
  { intros w Hw. unfold serial_open. by destruct (ports w !! port). }
  intros ser. apply preserves_bind; [by apply preserves_modify|]. intros _.
  apply preserves_bind; [apply preserves_write_range|]. intros _.
  apply preserves_bind; [apply preserves_flush_range|]. intros _.
  apply preserves_bind; [apply preserves_wait_range|]. intros [res msg].
  destruct (String.eqb res "OK"); [apply preserves_ret|].
  apply preserves_bind; [apply preserves_print_range|]. intros _. apply preserves_ret.
Qed.

Lemma preserves_find_programmer_range (data : string) :
  preserves percentages_in_range (find_programmer E data).
Proof.
  apply preserves_bind.
  { destruct (verbose E); [|apply preserves_ret].
    apply preserves_bind; [apply preserves_print_range|]. intros _.
    apply preserves_print_range. }
  intros _. apply preserves_bind.
  { intros w Hw. destruct (find_comports_pure w) as [(l & -> & _)|[-> _]]; done. }
  intros ports. induction ports as [|port ports IH]; [apply preserves_ret|]. simpl.
  apply preserves_bind; [apply preserves_check_port_range|]. intros [ser|]; [|exact IH].
  apply preserves_bind; [by apply preserves_modify|]. intros _.
  apply preserves_bind; [|intros _; apply preserves_ret].
  intros w Hw. unfold save_config. by case_bool_decide.
Qed.

(** The handshake leaves the files alone, and lets out the TypeError of
    the port list and the OSError of the settings that cannot be saved. *)
Lemma find_programmer_outcome (data : string) (w : world) :
  outcome (find_programmer E data w)
    (fun _ w' => fs w' = fs w)
    (fun e _ => e = TypeError \/ e = OSError).
Proof.
  destruct (find_programmer_run E data w)
    as [[_ [o ->]]|(l & l1 & w' & _ & _ & Hfs & _ & _ & _ & _ & _ & _ & Hr)];
    [by left|].
  destruct Hr as [(_ & -> & _)|(ser & l2 & _ & _ & _ & _ & Hr)]; [done|].
  case_bool_decide; destruct Hr as [-> _]; [by right|done].
Qed.

End InRange.

Lemma released_in_range {A} (ser : string) (c : M A) (w : world) (X : exn -> Prop) :
  outcome (c w) (fun _ w' => percentages_in_range w')
                (fun e w' => X e /\ percentages_in_range w') ->
  outcome (released ser c w) (fun _ w' => percentages_in_range w')
                             (fun e w' => X e /\ percentages_in_range w').
Proof.
  intros H. unfold released, mbind, M_bind, bind.
  destruct (c w) as [a w'|e w'|]; [|done|done].
  unfold ser_close. by destruct (ports w' !! ser).
Qed.

Lemma outcome_and {A} (r : result A) (Q Q' : A -> world -> Prop)
    (X X' : exn -> world -> Prop) :
  outcome r Q X -> outcome r Q' X' ->
  outcome r (fun a w => Q a w /\ Q' a w) (fun e w => X e w /\ X' e w).
Proof. by destruct r. Qed.



(** A file that is there and cannot be opened, and settings that cannot
    be saved: in both runs the port has been found and is left open. *)
Example write_chip_OSError :
  (exists w',
     write_chip (chips 1024) "27C256" "rom.bin" None
       (set_unreadable {["rom.bin" := 1024]} (bench [line "OK:"; line "OK: 1"]))
     = Raise OSError w'
     /\ is_open <$> ports w' !! "COM1" = Some true)
  /\ (exists w',
        write_chip (chips 1024) "27C256" "rom.bin" None
          (set_readonly {[CONFIG_FILE]}
             (bench_with_file [line "OK:"; line "OK: 1"] "rom.bin" rom))
        = Raise OSError w'
        /\ is_open <$> ports w' !! "COM1" = Some true
        /\ config w' !! "port" = Some "COM1"
        /\ config_file w' = None).
Proof.
  split; eexists; (split; [vm_compute; reflexivity|]); repeat split.
Qed.

(** ** The wait loop only reads *)

Lemma wait_loop_suffix (v : bool) (script : list rx_event) :
  forall (timeout now : N) (o : list out),
  exists used, script = used ++ w_rx (wait_loop v timeout now o script).
Proof.
  induction script as [|e script IH]; intros timeout now o; [by exists []|].
  destruct e as [dt bs|]; [|by exists [RxError]]. cbn [wait_loop].
  assert (Hcheck : forall t o',
    exists used,
      Rx dt bs :: script =
      used ++ w_rx (if (t + 5 <? now + dt)%N
                    then {| answer := inl ("ERROR", "Timeout"); w_clock := (now + dt)%N;
                            w_rx := script; w_out := o' ++ [Print " --  Timeout"] |}
                    else wait_loop v t (now + dt) o' script)).
  { intros t o'. destruct (_ <? _)%N; [by exists [Rx dt bs]|].
    destruct (IH t (now + dt)%N o') as [used Hused].
    exists (Rx dt bs :: used). simpl. by rewrite <- Hused. }
  destruct (read_filterd_bytes bs) as [res|]; [|apply Hcheck].
  destruct (0 <? Py.len res); [|apply Hcheck].
  do 4 (destruct (Py.contains _ res); [by exists [Rx dt bs]|]).
  apply Hcheck.
Qed.

(** X20: [wait_for_response] only reads.  However it ends, it has
    written nothing to the port and has not closed it, the settings, the
    settings file, the files and the other ports are as before, the reads
    it has left to the device are the last of those that were there, the
    clock has not gone back and the console has only grown; and the one
    exception that it lets out is that of the transport. *)
Theorem wait_for_response_only_reads (E : env) (ser : string) (w : world) :
  match wait_for_response E ser w with
  | Ret _ w' => only_read ser w w'
  | Raise e w' => e = SerialException /\ only_read ser w w'
  | Diverged => True
  end.
Proof.
  unfold only_read.
  destruct (ports w !! ser) as [p|] eqn:Hp; [destruct (is_open p) eqn:Ho|].
  - rewrite (wait_for_response_eq E ser w p Hp Ho). cbv zeta.
    set (r := wait_loop (verbose E) (clock w) (clock w) (stdout w) (rx p)).
    pose proof (wait_loop_ends (verbose E) (rx p) (clock w) (clock w) (stdout w)) as He.
    pose proof (wait_loop_clock (verbose E) (rx p) (clock w) (clock w) (stdout w)) as Hclk.
    destruct (wait_loop_out (verbose E) (rx p) (clock w) (clock w) (stdout w))
      as (l & Hl & _).
    destruct (wait_loop_suffix (verbose E) (rx p) (clock w) (clock w) (stdout w))
      as [used Hused].
    fold r in He, Hclk, Hl, Hused.
    assert (Hw : only_read ser w (waited_world ser p r w)).
    { unfold only_read. cbn. rewrite lookup_insert_eq, Hp. cbn. repeat split; try done.
      all: first [ by (intros q Hq; rewrite lookup_insert_ne)
                 | by (exists used; rewrite Hused at 1)
                 | by exists l ]. }
    unfold only_read in Hw. rewrite Hp in Hw.
    destruct (answer r) as [t|e]; [exact Hw|]. by destruct He as [-> _].
  - assert (Hr : wait_for_response E ser w = Raise SerialException w).
    { unfold wait_for_response, time_time, the_port, mbind, M_bind, bind.
      by rewrite Hp, Ho. }
    rewrite Hr, Hp. split; [done|]. repeat split; try done.
    all: first [ by exists [] | lia | by (exists []; rewrite app_nil_r) ].
  - assert (Hr : wait_for_response E ser w = Raise SerialException w).
    { unfold wait_for_response, time_time, the_port, mbind, M_bind, bind.
      by rewrite Hp. }
    rewrite Hr, Hp. split; [done|]. repeat split; try done.
    all: first [ by exists [] | lia | by (exists []; rewrite app_nil_r) ].
Qed.

(** A wait over noise, an INFO: line and an answer, and a wait on a port
    that is not open *)
Example wait_for_response_reads :
  (exists w',
     wait_for_response talkative "COM1"
       (host {["COM1" := open_port [Rx 1 [x00]; line "INFO: busy"; line "OK: 1"; line "x"]]})
     = Ret ("OK", "1") w'
     /\ ports w' !! "COM1" = Some (open_port [line "x"])
     /\ clock w' = 1%N
     /\ stdout w' = [Print "INFO: busy"; Print "OK: 1"])
  /\ wait_for_response quiet "COM1" (host {["COM1" := closed_port [line "OK: 1"]]})
     = Raise SerialException (host {["COM1" := closed_port [line "OK: 1"]]}).
Proof. split; [eexists; split; [vm_compute; reflexivity|]|]; repeat split. Qed.

(** ** The catalogue commands *)

Lemma print_each_eq (l : list string) (w : world) :
  print_each l w = Ret tt (set_stdout (stdout w ++ (Print <$> l)) w).
Proof.
  revert w. induction l as [|ic l IH]; intros w.
  - cbn. rewrite app_nil_r. by destruct w.
  - cbn [print_each]. run_pure. rewrite IH. cbn. by rewrite <- (assoc_L (++)).
Qed.

(** X21: the catalogue commands print the entries that the database
    gives, one line each and in its order, and change nothing else.
    [list_eproms] prints no heading in either mode: its test is on the
    builtin [all], which is always true.  [search_eproms] prints the text
    searched for and then the hits of a search with the flag set. *)
Theorem catalogue_prints_entries (get_eproms : bool -> list string)
    (search_eprom : string -> bool -> list string) (verifed : bool) (text : string)
    (w : world) :
  list_eproms get_eproms verifed w
  = Ret tt (set_stdout (stdout w ++ (Print <$> get_eproms verifed)) w)
  /\ search_eproms search_eprom text w
     = Ret tt (set_stdout (stdout w ++ Print ("Searching for: " +:+ text)
                                       :: (Print <$> search_eprom text true)) w).
Proof.
  split.
  - unfold list_eproms. run_pure. apply print_each_eq.
  - unfold search_eproms. run_pure. rewrite print_each_eq. cbn.
    by rewrite <- (assoc_L (++)).
Qed.

(** ** The firmware command *)

(** X22: [firmware] with the install flag goes on to the installer
    whenever [firmware_check] has not reported the latest version, also
    when the version could not be read: if the device answers the version
    request with anything but OK, the installer is run with no port and
    with the address that the release feed gives, behind a line that names
    the version of the feed (None when the feed has none).  Without the
    flag the command ends where [firmware_check] ends. *)
Theorem firmware_installs_without_version (E : env)
    (install_firmware : option string -> option string -> option string -> M unit)
    (avrdude_path : option string) (w w1 : world) (ser : string) (p : serial_port)
    (kind msg : string) :
  find_programmer E (json_dumps E {["state" := JInt STATE_VERSION]}) w = Ret (Some ser) w1 ->
  connected ser p w1 ->
  answer (wait_loop (verbose E) (clock w1) (clock w1)
            (stdout w1 ++ [Print "Reading version"]) (rx p)) = inl (kind, msg) ->
  kind <> "OK" ->
  exists w',
    firmware_check E w = Ret (false, None, None) w'
    /\ firmware E install_firmware false avrdude_path w = Ret tt w'
    /\ firmware E install_firmware true avrdude_path w
       = install_firmware (latest_firmware E).2 avrdude_path None
           (set_stdout (stdout w' ++ [Print ("Trying to install firmware version: "
                                             +:+ str_of (latest_firmware E).1)]) w').
Proof.
  intros Hfind Hc Ha Hkind.
  assert (Hcheck : exists w', firmware_check E w = Ret (false, None, None) w').
  { rewrite (firmware_check_answer E w w1 ser p Hfind Hc). cbv zeta. rewrite Ha.
    unfold firmware_check_verdict. apply String.eqb_neq in Hkind. rewrite Hkind.
    by eexists. }
  destruct Hcheck as [w' Hcheck]. exists w'. split; [exact Hcheck|].
  unfold firmware. rewrite !(bind_Ret _ _ _ _ _ Hcheck). split; [done|].
  cbn [negb andb falsy]. destruct (latest_firmware E) as [latest_version url]. by run_pure.
Qed.

Lemma firmware_installs_without_version_witness :
  exists w',
    firmware_check (release "1.0.0") (bench [line "OK:"]) = Ret (false, None, None) w'
    /\ firmware (release "1.0.0") told_installer false None
         (bench [line "OK:"]) = Ret tt w'
    /\ firmware (release "1.0.0") told_installer true None
         (bench [line "OK:"])
       = told_installer (latest_firmware (release "1.0.0")).2 None None
           (set_stdout (stdout w' ++ [Print ("Trying to install firmware version: "
                                             +:+ str_of (latest_firmware (release "1.0.0")).1)]) w').
Proof.
  apply (firmware_installs_without_version (release "1.0.0") told_installer
           None (bench [line "OK:"]) (bench_found []) "COM1" (handshaken []) "ERROR" "Timeout");
    [vm_compute; reflexivity|split; vm_compute; reflexivity|reflexivity|done].
Defined.

(** ** The configuration command *)

(** X23: [rurp_config] called without calibration values, or with values
    that are zero, sends the bare envelope of the state CONFIG: a zero is
    not sent.  After the handshake it writes OK and a newline, waits for one
    answer and prints the configuration when the answer is OK; for any other
    answer it prints the kind of the answer only, not the text of the
    device. *)
Theorem rurp_config_reports (E : env) (vcc : option Q) (r1 r2 : option Z)
    (w w1 : world) (ser : string) (p : serial_port) (kind msg : string) :
  vcc = None \/ vcc = Some 0%Q ->
  r1 = None \/ r1 = Some 0 ->
  r2 = None \/ r2 = Some 0 ->
  find_programmer E (json_dumps E {["state" := JInt STATE_CONFIG]}) w = Ret (Some ser) w1 ->
  connected ser p w1 ->
  answer (wait_loop (verbose E) (clock w1) (clock w1)
            (stdout w1 ++ [Print "Reading configuration"]) (rx p)) = inl (kind, msg) ->
  exists w',
    rurp_config E vcc r1 r2 w = Ret tt w'
    /\ last (stdout w')
       = Some (Print (if String.eqb kind "OK" then "Config: " +:+ msg else kind))
    /\ tx <$> ports w' !! ser
       = Some (tx p ++ [Py.encode (String.app "OK" (String "010" ""))]).
Proof.
  intros Hvcc Hr1 Hr2 Hfind [Hp Ho] Ha.
  assert (Hgo : rurp_config E vcc r1 r2 = rurp_config E None None None).
  { by destruct Hvcc as [-> | ->], Hr1 as [-> | ->], Hr2 as [-> | ->]. }
  rewrite Hgo. unfold rurp_config. rewrite (bind_Ret _ _ _ _ _ Hfind). cbv beta iota.
  match goal with
  | |- context [released ser ?c w1] =>
      assert (Hbody : exists w' p',
                c w1 = Ret tt w' /\ ports w' !! ser = Some p'
                /\ last (stdout w')
                   = Some (Print (if String.eqb kind "OK" then "Config: " +:+ msg else kind))
                /\ tx p' = tx p ++ [Py.encode (String.app "OK" (String "010" ""))])
  end.
  { run_with (eapply (ser_write_eq ser _ _ p); by split).
    run_pure.
    match goal with
    | |- context [mbind _ (wait_for_response E ser) ?W] =>
        pose proof (wait_for_response_eq E ser W
                      (set_tx (tx p ++ [Py.encode (String.app "OK" (String "010" ""))]) p)
                      ltac:(apply lookup_insert_eq) Ho) as Hwait
    end.
    cbv zeta in Hwait. cbn [clock stdout rx set_tx set_stdout with_port set_ports] in Hwait.
    rewrite Ha in Hwait. rewrite (bind_Ret _ _ _ _ _ Hwait).
    destruct (String.eqb kind "OK"); eexists _, _; (split; [reflexivity|]); cbn;
      rewrite lookup_insert_eq, last_snoc; done. }
  destruct Hbody as (w' & p' & Hrun & Hp' & Hlast & Htx).
  rewrite (released_Ret ser _ _ _ _ _ Hrun Hp').
  eexists. split; [reflexivity|]. cbn. rewrite lookup_insert_eq. cbn. by rewrite Htx.
Qed.

Lemma rurp_config_reports_witness :
  exists w',
    rurp_config quiet None (Some 0) None (bench [line "OK:"; line "ERROR: no calibration"])
    = Ret tt w'
    /\ last (stdout w')
       = Some (Print (if String.eqb "ERROR" "OK" then "Config: " +:+ "no calibration"
                      else "ERROR"))
    /\ tx <$> ports w' !! "COM1"
       = Some (tx (handshaken [line "ERROR: no calibration"])
               ++ [Py.encode (String.app "OK" (String "010" ""))]).
Proof.
  apply (rurp_config_reports quiet None (Some 0) None
           (bench [line "OK:"; line "ERROR: no calibration"])
           (bench_found [line "ERROR: no calibration"]) "COM1"
           (handshaken [line "ERROR: no calibration"]) "ERROR" "no calibration");
    [by left|by right|by left|vm_compute; reflexivity|split; vm_compute; reflexivity
    |vm_compute; reflexivity].
Defined.

(** ** The acknowledgements of the read transfer *)

Lemma read_chip_loop_acks (E : env) (ser f : string) (mem_size : Z)
    (ok : rx_event) (rest : list rx_event) (lines : list (rx_event * N)) :
  forall (bl : list (list byte)) (fuel : nat) (bytes_read : Z) (w : world)
         (p : serial_port),
  connected ser p w ->
  rx p = data_script lines bl ++ ok :: rest ->
  Forall says_DATA lines.*1 ->
  length lines = length bl ->
  Forall (fun b => (length b <= 256)%nat) bl ->
  says_OK ok ->
  (length lines <= fuel)%nat ->
  (lines <> [] -> mem_size <> 0) ->
  exists w' p',
    read_chip_loop E fuel ser f mem_size bytes_read w = Ret true w'
    /\ connected ser p' w'
    /\ tx p' = tx p ++ replicate (length bl) (Py.encode (String.app "OK" (String "010" "")))
    /\ rx p' = rest.
Proof.
  induction lines as [|[d dt] lines IH];
    intros bl fuel bytes_read w p Hc Hrx Hd Hlen Hbl Hok Hfuel Hmem.
  - destruct bl; [|done]. simpl in Hrx.
    destruct (says_OK_wait E ser w p ok rest Hc Hrx Hok) as (msg & w1 & Hwait & Hc1).
    rewrite (read_chip_loop_finish E fuel ser f mem_size bytes_read w msg w1 Hwait).
    eexists _, _. split; [reflexivity|]. split; [split; [cbn; apply Hc1|apply Hc1]|].
    cbn. by rewrite app_nil_r.
  - destruct bl as [|b bl]; [done|]. simpl in Hrx, Hlen.
    apply Forall_cons in Hd as [Hd Hds]. apply Forall_cons in Hbl as [Hb Hbl].
    destruct fuel as [|fuel]; [simpl in Hfuel; lia|]. simpl in Hfuel.
    destruct (says_DATA_wait E ser w p d _ Hc Hrx Hd)
      as (msg & w1 & Hwait & Hc1 & _).
    cbn [read_chip_loop].
    run_with (exact Hwait).
    change (String.eqb ("DATA", msg).1 "DATA") with true. cbv iota.
    run_with (eapply (ser_read_eq ser 256 w1 _ dt b); [exact Hc1|reflexivity|exact Hb]).
    run_pure.
    destruct (percent_of_eq (bytes_read + 256) mem_size
                (set_fs (alter (fun old => old ++ b) f
                           (fs (with_port ser
                                  (set_rx (data_script lines bl ++ ok :: rest)
                                     (set_rx (Rx dt b :: data_script lines bl ++ ok :: rest) p))
                                  (set_clock (clock w1 + dt) w1))))
                   (with_port ser
                      (set_rx (data_script lines bl ++ ok :: rest)
                         (set_rx (Rx dt b :: data_script lines bl ++ ok :: rest) p))
                      (set_clock (clock w1 + dt) w1)))
                (Hmem ltac:(done))) as [pc Hpc].
    run_with (exact Hpc).
    match goal with
    | |- context [mbind _ (print_progress E pc ?a ?b) ?W] =>
        assert (Hpp : print_progress E pc a b W
                      = Ret tt (set_stdout (stdout W ++ [Progress (negb (verbose E)) pc a b]) W))
          by (unfold print_progress; by destruct (verbose E))
    end.
    run_with (exact Hpp).
    run_with (eapply (ser_write_eq ser _ _ (set_rx (data_script lines bl ++ ok :: rest) _));
              conn Hc).
    run_with (eapply (ser_flush_eq ser _ (set_tx _ (set_rx (data_script lines bl ++ ok :: rest) _)));
              conn Hc).
    cbv beta iota zeta.
    match goal with
    | |- context [read_chip_loop E fuel ser f mem_size (bytes_read + 256) ?W] =>
        edestruct (IH bl fuel (bytes_read + 256) W) as (w' & p' & Hrun & Hc' & Htx & Hrx');
          [conn Hc|reflexivity|exact Hds|lia|exact Hbl|exact Hok|lia| |]
    end.
    + intros _. by apply Hmem.
    + exists w', p'. split; [exact Hrun|]. split; [exact Hc'|].
      split; [|exact Hrx']. rewrite Htx. cbn. by rewrite <- (assoc_L (++)).
Qed.

(** X24: [read_chip] answers the handshake with OK and every block with
    OK and a newline, and nothing else: for a device that sends DATA events,
    each followed by its block, and then OK, the port has been written OK
    once and OK with a newline once for each block when the command is done,
    and what the device sent behind its OK has not been read. *)
Theorem read_chip_acknowledges (E : env) (eprom path : string) (data : eprom_data)
    (w w1 : world) (ser : string) (p : serial_port) (lines : list (rx_event * N))
    (bl : list (list byte)) (ok : rx_event) (rest : list rx_event) :
  get_eprom E eprom = Some data ->
  path <> "" ->
  find_programmer E (json_dumps E (<["state" := JInt STATE_READ]> (envelope data))) w
  = Ret (Some ser) w1 ->
  connected ser p w1 ->
  path ∉ readonly w1 ->
  rx p = data_script lines bl ++ ok :: rest ->
  Forall says_DATA lines.*1 ->
  length lines = length bl ->
  Forall (fun b => (length b <= 256)%nat) bl ->
  says_OK ok ->
  (lines <> [] -> memory_size data <> 0) ->
  exists w',
    read_chip E eprom (Some path) w = Ret tt w'
    /\ tx <$> ports w' !! ser
       = Some (tx p ++ Py.encode "OK"
                 :: replicate (length bl) (Py.encode (String.app "OK" (String "010" ""))))
    /\ rx <$> ports w' !! ser = Some rest.
Proof.
  intros Hget Hpath Hfind Hc Hro Hrx Hd Hlen Hbl Hok Hmem.
  unfold read_chip. rewrite Hget.
  run_with (exact Hfind).
  run_pure.
  assert (Hname : String.eqb path "" = false) by (by apply String.eqb_neq).
  rewrite Hname. run_pure.
  erewrite bind_Ret; cycle 1.
  { apply try_except_Ret.
    run_with (eapply (ser_write_eq ser _ _ p); conn Hc).
    run_with (eapply (ser_flush_eq ser _ (set_tx _ p)); conn Hc).
    run_with (apply open_wb_eq; cbn; exact Hro).
    reflexivity. }
  cbv beta iota.
  match goal with
  | |- context [try_finally _ _ ?W] =>
      destruct (read_chip_loop_acks E ser path (memory_size data) ok rest lines bl
                  (length (data_script lines bl ++ ok :: rest)) 0 W
                  (set_tx (tx p ++ [Py.encode "OK"]) p))
        as (w2 & p2 & Hloop & Hc2 & Htx2 & Hrx2)
  end.
  { conn Hc. }
  { exact Hrx. }
  { exact Hd. }
  { exact Hlen. }
  { exact Hbl. }
  { exact Hok. }
  { rewrite length_app. pose proof (data_script_length lines bl Hlen). lia. }
  { exact Hmem. }
  eexists. split.
  { eapply try_finally_Ret.
    - apply try_except_Ret.
      run_pure.
      erewrite bind_Ret; cycle 1.
      { unfold pending. cbn. rewrite lookup_insert_eq. cbn. rewrite Hrx. reflexivity. }
      run_with (exact Hloop).
      run_pure. reflexivity.
    - apply (ser_close_eq ser _ p2). cbn. apply Hc2. }
  cbn. rewrite lookup_insert_eq. cbn. rewrite Htx2, Hrx2. cbn.
  by rewrite <- (assoc_L (++)).
Qed.

Lemma read_chip_acknowledges_witness :
  exists w',
    read_chip (chips 512) "27C256" (Some "out.bin")
      (bench (line "OK:" :: two_blocks ++ [line "late"])) = Ret tt w'
    /\ tx <$> ports w' !! "COM1"
       = Some (tx (handshaken (two_blocks ++ [line "late"])) ++ Py.encode "OK"
                 :: replicate (length [replicate 256 xff; replicate 256 xff])
                      (Py.encode (String.app "OK" (String "010" ""))))
    /\ rx <$> ports w' !! "COM1" = Some [line "late"].
Proof.
  apply (read_chip_acknowledges (chips 512) "27C256" "out.bin"
           {| name := "27C256"; manufacturer_name := "ST"; verified := true;
              memory_size := 512; params := ∅ |}
           (bench (line "OK:" :: two_blocks ++ [line "late"]))
           (bench_found (two_blocks ++ [line "late"])) "COM1"
           (handshaken (two_blocks ++ [line "late"]))
           [(line "DATA:", 0%N); (line "DATA:", 0%N)]
           [replicate 256 xff; replicate 256 xff] (line "OK:") [line "late"]).
  - reflexivity.
  - done.
  - vm_compute; reflexivity.
  - split; vm_compute; reflexivity.
  - vm_compute; set_solver.
  - reflexivity.
  - assert (Hd : says_DATA (line "DATA:")).
    { exists 0%N, (Py.encode ("DATA:" +:+ String "010" "")), "DATA:".
      split; [reflexivity|]. split; [vm_compute; reflexivity|]. split.
      + exists 0%nat, "", "". done.
      + intros T HT j Hj. apply (proj1 (contains_false _ _)) in Hj; [done|].
        repeat (apply elem_of_cons in HT as [->|HT]; [vm_compute; reflexivity|]).
        by apply elem_of_nil in HT. }
    by repeat constructor.
  - reflexivity.
  - repeat (apply Forall_cons; split; [rewrite length_replicate; lia|]). constructor.
  - exists 0%N, (Py.encode ("OK:" +:+ String "010" "")), "OK:".
    split; [reflexivity|]. split; [vm_compute; reflexivity|]. exists 0%nat, "", "". done.
  - done.
Defined.

(** ** An output file that cannot be opened *)

(** X25: when the output file cannot be opened for writing, [read_chip]
    has already answered the handshake with OK; it prints Error: and the
    text of the OSError behind it, and the [finally] clause then fails on
    the file name, which has no [close]: the command ends with
    AttributeError, no file is written, and the connection is still
    open. *)
Theorem read_chip_unwritable_output (E : env) (eprom : string)
    (output_file : option string) (data : eprom_data) (w w1 : world) (ser : string)
    (p : serial_port) :
  get_eprom E eprom = Some data ->
  find_programmer E (json_dumps E (<["state" := JInt STATE_READ]> (envelope data))) w
  = Ret (Some ser) w1 ->
  connected ser p w1 ->
  output_path data output_file ∈ readonly w1 ->
  exists w',
    read_chip E eprom output_file w = Raise AttributeError w'
    /\ last (stdout w') = Some (PrintExn "Error:" OSError)
    /\ ports w' !! ser = Some (set_tx (tx p ++ [Py.encode "OK"]) p)
    /\ is_open p = true
    /\ fs w' = fs w1.
Proof.
  intros Hget Hfind Hc Hro. unfold read_chip. rewrite Hget.
  run_with (exact Hfind).
  run_pure. fold (output_path data output_file). set (path := output_path data output_file) in *.
  run_pure.
  erewrite bind_Ret; cycle 1.
  { unfold try_except.
    run_with (eapply (ser_write_eq ser _ _ p); conn Hc).
    run_with (eapply (ser_flush_eq ser _ (set_tx _ p)); conn Hc).
    erewrite bind_Raise; [|unfold open_wb; cbn; by rewrite bool_decide_true].
    cbn [catch_all]. run_pure. reflexivity. }
  cbv beta iota. eexists. split; [reflexivity|]. cbn.
  rewrite lookup_insert_eq, last_snoc. repeat split. apply Hc.
Qed.

Lemma read_chip_unwritable_output_witness :
  exists w',
    read_chip (chips 512) "27C256" (Some "out.bin")
      (set_readonly {["out.bin"]} (bench [line "OK:"; line "DATA:"])) = Raise AttributeError w'
    /\ last (stdout w') = Some (PrintExn "Error:" OSError)
    /\ ports w' !! "COM1" = Some (set_tx (tx (handshaken [line "DATA:"]) ++ [Py.encode "OK"])
                                    (handshaken [line "DATA:"]))
    /\ is_open (handshaken [line "DATA:"]) = true
    /\ fs w' = fs (set_readonly {["out.bin"]} (bench_found [line "DATA:"])).
Proof.
  apply (read_chip_unwritable_output (chips 512) "27C256" (Some "out.bin")
           {| name := "27C256"; manufacturer_name := "ST"; verified := true;
              memory_size := 512; params := ∅ |}
           (set_readonly {["out.bin"]} (bench [line "OK:"; line "DATA:"]))
           (set_readonly {["out.bin"]} (bench_found [line "DATA:"])) "COM1"
           (handshaken [line "DATA:"]));
    [reflexivity|vm_compute; reflexivity|split; vm_compute; reflexivity|vm_compute; set_solver].
Defined.

(** ** The progress of a write that is accepted *)

Lemma says_OK_wait_lines (E : env) (ser : string) (w : world) (p : serial_port)
    (e : rx_event) (rest : list rx_event) :
  connected ser p w -> rx p = e :: rest -> says_OK e ->
  exists msg w',
    wait_for_response E ser w = Ret ("OK", msg) w'
    /\ connected ser (set_rx rest p) w'
    /\ progress_lines (stdout w') = progress_lines (stdout w).
Proof.
  intros Hc Hrx (dt & bs & res & -> & Hres & Hocc).
  apply contains_iff in Hocc.
  destruct Hc as [Hp Ho].
  rewrite (wait_for_response_eq E ser w p Hp Ho), Hrx.
  rewrite (wait_loop_OK _ _ _ _ _ _ _ _ Hres Hocc).
  eexists _, _. split; [reflexivity|]. split; [split; [apply lookup_insert_eq|done]|].
  cbn. unfold write_feedback, progress_lines.
  destruct (verbose E); [|done]. by rewrite omap_app, app_nil_r.
Qed.

Lemma write_chip_loop_progress (E : env) (ser : string) (file_size mem_size : Z)
    (rest : list rx_event) (fuel : nat) :
  forall (f : list byte) (bytes_sent : Z) (w : world) (p : serial_port)
         (acks : list rx_event),
  (length f <= fuel)%nat ->
  connected ser p w ->
  rx p = acks ++ rest ->
  Forall says_OK acks ->
  length acks = length (blocks f) ->
  file_size <> 0 ->
  f <> [] ->
  bytes_sent + Z.of_nat (length f) = mem_size ->
  exists w' p',
    write_chip_loop E fuel ser f file_size mem_size bytes_sent w = Ret true w'
    /\ connected ser p' w'
    /\ rx p' = rest
    /\ progress_lines (stdout w')
       = progress_lines (stdout w) ++ write_progress_list file_size bytes_sent (blocks f).
Proof.
  induction fuel as [|fuel IH];
    intros f bytes_sent w p acks Hfuel Hc Hrx Hacks Hlen Hsize Hne Hmem.
  - destruct f; [done|simpl in Hfuel; lia].
  - rewrite (blocks_cons f Hne) in *.
    destruct acks as [|ack acks]; [done|]. simpl in Hlen.
    apply Forall_cons in Hacks as [Hack Hacks].
    assert (Hdata : take 256 f <> []) by (by destruct f).
    assert (Hlen256 : (length (take 256 f) <= 256)%nat) by (rewrite length_take; lia).
    assert (Hsum : (length (take 256 f) + length (drop 256 f) = length f)%nat)
      by (rewrite length_take, length_drop; lia).
    cbn [write_chip_loop].
    destruct (take 256 f) as [|x data] eqn:Htake; [done|]. rewrite <- Htake in *.
    unfold to_bytes2. rewrite (to_bytes2_small _ Hlen256).
    run_pure.
    run_with (eapply (ser_write_eq ser _ _ p); exact Hc).
    run_with (eapply (ser_write_eq ser _ _ (set_tx _ p)); conn Hc).
    run_with (eapply (ser_flush_eq ser _ (set_tx _ (set_tx _ p))); conn Hc).
    match goal with
    | |- context [mbind _ (wait_for_response E ser) ?W] =>
        edestruct (says_OK_wait_lines E ser W) as (msg & w1 & Hwait & Hc1 & Hpr1);
          [conn Hc|exact Hrx|exact Hack|]
    end.
    run_with (exact Hwait).
    cbv beta iota zeta. change (String.eqb "OK" "OK") with true. cbv iota.
    destruct (percent_of_eq (bytes_sent + Z.of_nat (length (take 256 f))) file_size w1
                Hsize) as [pc Hpc].
    assert (Hinner :
      (percent_of (bytes_sent + Z.of_nat (length (take 256 f))) file_size
       ≫= fun p0 => print_progress E p0
                      (bytes_sent + Z.of_nat (length (take 256 f)) - 256)
                      (bytes_sent + Z.of_nat (length (take 256 f)))
                    ≫= fun _ => ret (Some (bytes_sent + Z.of_nat (length (take 256 f)))))
        w1
      = Ret (Some (bytes_sent + Z.of_nat (length (take 256 f))))
          (set_stdout (stdout w1 ++
             [Progress (negb (verbose E)) pc
                (bytes_sent + Z.of_nat (length (take 256 f)) - 256)
                (bytes_sent + Z.of_nat (length (take 256 f)))]) w1)).
    { rewrite (bind_Ret _ _ _ _ _ Hpc). unfold print_progress.
      by destruct (verbose E). }
    run_with (exact Hinner).
    cbv beta iota.
    assert (Hline : progress_lines (stdout w1 ++
                      [Progress (negb (verbose E)) pc
                         (bytes_sent + Z.of_nat (length (take 256 f)) - 256)
                         (bytes_sent + Z.of_nat (length (take 256 f)))])
                    = progress_lines (stdout w) ++
                      [write_progress file_size (bytes_sent + Z.of_nat (length (take 256 f)))]).
    { unfold progress_lines in *. rewrite omap_app, Hpr1. cbn. do 2 f_equal.
      unfold write_progress. unfold percent_of in Hpc.
      destruct (percent _ file_size); [|done]. by injection Hpc as ->. }
    destruct (decide (drop 256 f = [])) as [Hd|Hd].
    + assert (Hz : bytes_sent + Z.of_nat (length (take 256 f)) = mem_size).
      { rewrite Hd in Hsum. simpl in Hsum. lia. }
      rewrite (proj2 (Z.eqb_eq _ _) Hz).
      eexists _, _. split; [reflexivity|]. split; [split; [cbn; apply Hc1|apply Hc1]|].
      split.
      * destruct acks; [done|]. rewrite Hd, blocks_nil in Hlen. simpl in Hlen. lia.
      * cbn [stdout set_stdout]. rewrite Hline, Hd, blocks_nil. done.
    + assert (Hz : bytes_sent + Z.of_nat (length (take 256 f)) <> mem_size).
      { destruct (drop 256 f); [done|]. simpl in Hsum. lia. }
      rewrite (proj2 (Z.eqb_neq _ _) Hz).
      match type of Hc1 with
      | connected _ ?q _ =>
          destruct (IH (drop 256 f) (bytes_sent + Z.of_nat (length (take 256 f)))
                      (set_stdout (stdout w1 ++
                         [Progress (negb (verbose E)) pc
                            (bytes_sent + Z.of_nat (length (take 256 f)) - 256)
                            (bytes_sent + Z.of_nat (length (take 256 f)))]) w1)
                      q acks) as (w' & p' & Hrun & Hc' & Hrx' & Hprog)
      end.
      * rewrite length_drop. destruct f; [done|simpl in *; lia].
      * split; [cbn; apply Hc1|apply Hc1].
      * reflexivity.
      * exact Hacks.
      * lia.
      * exact Hsize.
      * exact Hd.
      * lia.
      * exists w', p'. split; [exact Hrun|]. split; [exact Hc'|]. split; [exact Hrx'|].
        rewrite Hprog. cbn [stdout set_stdout]. rewrite Hline. cbn.
        by rewrite <- (assoc_L (++)).
Qed.

Lemma write_progress_list_lookup (file_size : Z) (bl : list (list byte)) :
  forall (bytes_sent : Z) (j : nat) (entry : Z * Z * Z),
  write_progress_list file_size bytes_sent bl !! j = Some entry ->
  (j < length bl)%nat
  /\ entry = write_progress file_size (bytes_sent + total (take (S j) bl)).
Proof.
  induction bl as [|b bl IH]; intros bytes_sent j entry Hj; [done|].
  destruct j as [|j]; simpl in Hj.
  - injection Hj as <-. split; [simpl; lia|]. cbn [take]. rewrite total_cons.
    unfold total. simpl. by rewrite Z.add_0_r.
  - apply IH in Hj as [Hlt ->]. split; [simpl; lia|].
    f_equal. cbn [take]. rewrite (total_cons b). lia.
Qed.

Lemma write_progress_list_length (file_size : Z) (bl : list (list byte)) (bytes_sent : Z) :
  length (write_progress_list file_size bytes_sent bl) = length bl.
Proof. revert bytes_sent. induction bl as [|b bl IH]; intros bs; simpl; [done|]. by rewrite IH. Qed.

(** X26: the progress of a write that the device accepts.  For a file
    that is not empty and has the size of the chip's memory, every block
    being answered with OK, [write_chip] prints one progress line for each
    block and then reports success.  The line of the j-th block shows the
    percentage of the bytes sent so far ([min(256 j, S)] of [S]) and the
    addresses from that count less 256 to that count: the first address is
    the start of the block only when the block is full, and for a file of
    fewer than 256 bytes it is negative.  The last line shows 100. *)
Theorem write_chip_progress (E : env) (eprom input_file : string) (data : eprom_data)
    (content : list byte) (w w1 : world) (ser : string) (p : serial_port)
    (acks rest : list rx_event) :
  get_eprom E eprom = Some data ->
  fs w !! input_file = Some content ->
  content <> [] ->
  memory_size data = Z.of_nat (length content) ->
  find_programmer E (json_dumps E (<["state" := JInt STATE_WRITE]> (envelope data))) w
  = Ret (Some ser) w1 ->
  connected ser p w1 ->
  rx p = acks ++ rest ->
  Forall says_OK acks ->
  length acks = length (blocks content) ->
  let S := Z.of_nat (length content) in
  exists w' lines seconds,
    write_chip E eprom input_file None w = Ret tt w'
    /\ progress_lines (stdout w') = progress_lines (stdout w1) ++ lines
    /\ length lines = length (blocks content)
    /\ (forall j entry, lines !! j = Some entry ->
          entry = write_progress S (cumulative S (Datatypes.S j)))
    /\ last lines = Some (100, S - 256, S)
    /\ last (stdout w') = Some (Duration "File sent successfully in" seconds).
Proof.
  intros Hget Hfile Hne Hmem Hfind Hc Hrx Hacks Hlen S.
  assert (Hfind' : find_programmer E
            (json_dumps E (<["state" := JInt STATE_WRITE]> (envelope data)))
            (if memory_size data =? Z.of_nat (length content) then w
             else set_stdout (stdout w ++
                    [Print "The file size dont match the memory size"]) w)
          = Ret (Some ser) w1).
  { by rewrite (proj2 (Z.eqb_eq _ _) Hmem). }
  destruct (write_chip_start E eprom input_file data content w w1 ser p Hget Hfile Hfind' Hc)
    as (w2 & Hc2 & (o2 & Ho2 & Hprints) & Hrun).
  destruct (write_chip_loop_progress E ser S (memory_size data) rest (length content)
              content 0 w2 p acks)
    as (w3 & p3 & Hloop & Hc3 & Hrx3 & Hprog);
    [done|done|done|done|done|unfold S; destruct content; [done|simpl; lia]|done|lia|].
  set (n := length (blocks content)).
  assert (Hn : Z.of_nat n = (S + 255) / 256).
  { unfold n, S. rewrite blocks_length, Nat2Z.inj_div, Nat2Z.inj_add. reflexivity. }
  assert (Hpos : 0 < S) by (unfold S; destruct content; [done|simpl; lia]).
  assert (Hnpos : (0 < n)%nat).
  { unfold n. rewrite (blocks_cons content Hne). simpl. lia. }
  assert (Hentry : forall j entry,
            write_progress_list S 0 (blocks content) !! j = Some entry ->
            entry = write_progress S (cumulative S (Datatypes.S j))).
  { intros j entry Hj. apply write_progress_list_lookup in Hj as [Hlt ->].
    unfold total. rewrite blocks_cumulative by (fold n; lia). by rewrite Z.add_0_l. }
  eexists _, (write_progress_list S 0 (blocks content)), _.
  rewrite Hrun. split.
  { eapply released_Ret;
      [rewrite (bind_Ret _ _ _ _ _ Hloop); do 2 run_pure; reflexivity|cbn; apply Hc3]. }
  cbn [stdout set_stdout with_port set_ports]. split.
  { unfold progress_lines in *. rewrite !omap_app, Hprog, Ho2, omap_app.
    rewrite (omap_only_prints _ o2) by done. cbn. by rewrite !app_nil_r. }
  split; [apply write_progress_list_length|]. split; [exact Hentry|].
  split; [|by rewrite last_snoc].
  rewrite last_lookup, write_progress_list_length. fold n.
  destruct (lookup_lt_is_Some_2 (write_progress_list S 0 (blocks content)) (pred n))
    as [entry Hl]; [rewrite write_progress_list_length; fold n; lia|].
  rewrite Hl. f_equal. rewrite (Hentry _ _ Hl).
  replace (Datatypes.S (pred n)) with n by lia.
  assert (Hcum : cumulative S n = S).
  { unfold cumulative. pose proof (Z.div_mod (S + 255) 256 ltac:(lia)).
    pose proof (Z.mod_pos_bound (S + 255) 256 ltac:(lia)). lia. }
  rewrite Hcum. unfold write_progress. by rewrite percent_full.
Qed.

Lemma write_chip_progress_witness :
  let S := Z.of_nat (length (replicate 300 xff)) in
  exists w' lines seconds,
    write_chip (chips 300) "27C256" "rom.bin" None
      (bench_with_file [line "OK:"; line "OK: 1"; line "OK: 2"] "rom.bin" (replicate 300 xff))
    = Ret tt w'
    /\ progress_lines (stdout w')
       = progress_lines (stdout (set_fs {["rom.bin" := replicate 300 xff]}
                                   (bench_found [line "OK: 1"; line "OK: 2"]))) ++ lines
    /\ length lines = length (blocks (replicate 300 xff))
    /\ (forall j entry, lines !! j = Some entry ->
          entry = write_progress S (cumulative S (Datatypes.S j)))
    /\ last lines = Some (100, S - 256, S)
    /\ last (stdout w') = Some (Duration "File sent successfully in" seconds).
Proof.
  apply (write_chip_progress (chips 300) "27C256" "rom.bin"
           {| name := "27C256"; manufacturer_name := "ST"; verified := true;
              memory_size := 300; params := ∅ |} (replicate 300 xff)
           (bench_with_file [line "OK:"; line "OK: 1"; line "OK: 2"] "rom.bin"
              (replicate 300 xff))
           (set_fs {["rom.bin" := replicate 300 xff]} (bench_found [line "OK: 1"; line "OK: 2"]))
           "COM1" (handshaken [line "OK: 1"; line "OK: 2"])
           [line "OK: 1"; line "OK: 2"] []).
  - reflexivity.
  - vm_compute; reflexivity.
  - done.
  - reflexivity.
  - vm_compute; reflexivity.
  - split; vm_compute; reflexivity.
  - reflexivity.
  - repeat constructor.
    + exists 0%N, (Py.encode ("OK: 1" +:+ String "010" "")), "OK: 1".
      split; [reflexivity|]. split; [vm_compute; reflexivity|]. exists 0%nat, "", " 1". done.
    + exists 0%N, (Py.encode ("OK: 2" +:+ String "010" "")), "OK: 2".
      split; [reflexivity|]. split; [vm_compute; reflexivity|]. exists 0%nat, "", " 2". done.
  - vm_compute; reflexivity.
Defined.

(** A file of ten bytes for a chip of ten bytes: one progress line, from
    address -246. *)
Example write_chip_progress_of_a_short_file :
  exists w',
    write_chip (chips 10) "27C256" "rom.bin" None
      (bench_with_file [line "OK:"; line "OK:"] "rom.bin" (replicate 10 xff)) = Ret tt w'
    /\ progress_lines (stdout w') = [(100, -246, 10)].
Proof. eexists. split; vm_compute; reflexivity. Qed.
